(** * The Janus transcode plugin: capture index, replay pacer and request handling

    A shallow embedding of [plugins/janus_transcode.c].  Integers of a fixed
    width are [Z] with their wrap-around written out, buffers and files are
    lists of bytes, JSON values are a small inductive type, the catalog of
    transcodings is a finite map keyed by id, and calls into the gateway core
    (RTP/RTCP relay, events, writers) are recorded in explicit logs. *)

From Stdlib Require Import ZArith Lia.
From stdpp Require Import base gmap strings list pretty.

Local Open Scope Z_scope.
Set Warnings "-register-all".

(** ** Byte order

    The plugin runs on a little-endian host: a multi-byte field of a buffer is
    loaded as it lies in memory and then passed through [ntohs]/[ntohl]. *)
Module Wire.

Definition uint16_max : Z := 65535.
Definition uint32_max : Z := 4294967295.
Definition uint64_mod : Z := 18446744073709551616.

Definition wrap16 (v : Z) : Z := v mod 65536.
Definition wrap32 (v : Z) : Z := v mod 4294967296.
Definition wrap64 (v : Z) : Z := v mod uint64_mod.

(** An unsigned 64-bit value read as a signed one ([int64_t], [json_int_t]). *)
Definition to_int64 (v : Z) : Z :=
  if v <? 9223372036854775808 then v else v - uint64_mod.

(** Host value of two and of four consecutive bytes of memory. *)
Definition load16 (b0 b1 : Z) : Z := b0 + 256 * b1.
Definition load32 (b0 b1 b2 b3 : Z) : Z :=
  b0 + 256 * (b1 + 256 * (b2 + 256 * b3)).

Definition bswap16 (v : Z) : Z := (v mod 256) * 256 + (v / 256) mod 256.
Definition bswap32 (v : Z) : Z :=
  (v mod 256) * 16777216 + ((v / 256) mod 256) * 65536
  + ((v / 65536) mod 256) * 256 + (v / 16777216) mod 256.

Definition ntohs := bswap16.
Definition htons := bswap16.
Definition ntohl := bswap32.
Definition htonl := bswap32.

Definition byte_at (buf : list Z) (i : nat) : Z := default 0 (buf !! i).

(** [fread(dst, 1, n, file)] at position [pos]: the bytes the file still
    has, at most [n] of them. *)
Definition fread (file : list Z) (pos n : Z) : list Z :=
  take (Z.to_nat n) (drop (Z.to_nat pos) file).

(** The bytes read land at the start of the destination; what a short read
    does not reach keeps its old content. *)
Definition store (src dst : list Z) : list Z := src ++ drop (length src) dst.

Definition poke (i : nat) (b : Z) (buf : list Z) : list Z := <[i:=b]> buf.

(** Bytes written from index [i] on; the buffer keeps its length. *)
Fixpoint poke_all (i : nat) (bytes : list Z) (buf : list Z) : list Z :=
  match bytes with
  | [] => buf
  | b :: rest => poke_all (S i) rest (poke i b buf)
  end.

(** The bytes of a 16-bit and of a 32-bit host value, as stored in memory. *)
Definition bytes16 (v : Z) : list Z := [v mod 256; (v / 256) mod 256].
Definition bytes32 (v : Z) : list Z :=
  [v mod 256; (v / 256) mod 256; (v / 65536) mod 256; (v / 16777216) mod 256].

(** The C string a buffer holds: its bytes up to the first NUL. *)
Fixpoint cstring (buf : list Z) : list Z :=
  match buf with
  | [] => []
  | b :: rest => if b =? 0 then [] else b :: cstring rest
  end.

End Wire.

(** ** JSON values (jansson) *)
Module Json.

Inductive json : Type :=
| JNull
| JTrue
| JFalse
| JInteger (z : Z)
| JString (s : string)
| JArray (items : list json)
| JObject (fields : list (string * json)).

Fixpoint assoc_get (k : string) (fields : list (string * json)) : option json :=
  match fields with
  | [] => None
  | (k', v) :: rest => if bool_decide (k' = k) then Some v else assoc_get k rest
  end.

(** [json_object_get]: NULL unless the value is an object with that key. *)
Definition json_object_get (j : option json) (k : string) : option json :=
  match j with
  | Some (JObject fields) => assoc_get k fields
  | _ => None
  end.

Fixpoint assoc_set (k : string) (v : json) (fields : list (string * json))
  : list (string * json) :=
  match fields with
  | [] => [(k, v)]
  | (k', v') :: rest =>
      if bool_decide (k' = k) then (k, v) :: rest else (k', v') :: assoc_set k v rest
  end.

(** [json_object_set_new] on an object. *)
Definition json_object_set_new (obj : json) (k : string) (v : json) : json :=
  match obj with
  | JObject fields => JObject (assoc_set k v fields)
  | other => other
  end.

Definition json_object : json := JObject [].
Definition json_array : json := JArray [].

Definition json_array_append_new (arr : json) (v : json) : json :=
  match arr with
  | JArray items => JArray (items ++ [v])
  | other => other
  end.

Definition json_is_object (j : json) : bool :=
  match j with JObject _ => true | _ => false end.

Definition json_is_true (j : option json) : bool :=
  match j with Some JTrue => true | _ => false end.

(** [json_integer_value]: 0 for anything that is not an integer. *)
Definition json_integer_value (j : option json) : Z :=
  match j with Some (JInteger z) => z | _ => 0 end.

(** [json_string_value]: NULL for anything that is not a string. *)
Definition json_string_value (j : option json) : option string :=
  match j with Some (JString s) => Some s | _ => None end.

Definition json_bool (b : bool) : json := if b then JTrue else JFalse.

Definition lower (c : Ascii.ascii) : Ascii.ascii :=
  let n := Ascii.nat_of_ascii c in
  if (65 <=? n)%nat && (n <=? 90)%nat then Ascii.ascii_of_nat (n + 32) else c.

Fixpoint lowercase (s : string) : string :=
  match s with
  | EmptyString => EmptyString
  | String c rest => String (lower c) (lowercase rest)
  end.

(** [!strcasecmp(a, b)] *)
Definition strcaseeq (a b : string) : bool :=
  bool_decide (lowercase a = lowercase b).

End Json.

(** ** The frame index builder: [janus_transcode_get_frames] *)
Module Frames.
Import Wire Json.

Record janus_transcode_frame_packet : Type := mk_frame_packet {
  fp_seq : Z;      (* uint16_t seq *)
  fp_ts : Z;       (* uint64_t ts *)
  fp_len : Z;      (* int len *)
  fp_offset : Z    (* long offset *)
}.

Definition packet_eqb (a b : janus_transcode_frame_packet) : bool :=
  (fp_seq a =? fp_seq b) && (fp_ts a =? fp_ts b)
  && (fp_len a =? fp_len b) && (fp_offset a =? fp_offset b).

(** The RTP header fields the parser looks at. *)
Definition seq_number_of (buf : list Z) : Z :=
  ntohs (load16 (byte_at buf 2) (byte_at buf 3)).
Definition timestamp_of (buf : list Z) : Z :=
  ntohl (load32 (byte_at buf 4) (byte_at buf 5) (byte_at buf 6) (byte_at buf 7)).

(** [fread(&len, sizeof(uint16_t), 1, file)]: a short read leaves the bytes
    of [len] it does not reach as they were. *)
Definition fread_len (file : list Z) (pos : Z) (len : Z) : Z :=
  match fread file pos 2 with
  | [b0; b1] => load16 b0 b1
  | [b0] => load16 b0 (len / 256)
  | _ => len
  end.

Definition char_M : Z := 77.
Definition char_E : Z := 69.
Definition char_J : Z := 74.
Definition char_a : Z := 97.
Definition char_v : Z := 118.

Inductive outcome (S : Type) : Type :=
| Next (s : S)         (* the loop goes on *)
| Null                 (* return NULL *)
| Overrun.             (* a write past the 1500 bytes of prebuffer *)
Arguments Next {S} s.
Arguments Null {S}.
Arguments Overrun {S}.

(** *** Pass 1: looking for a timestamp reset *)
Record preparse : Type := mk_preparse {
  pp_offset : Z;
  pp_parsed_header : bool;
  pp_len : Z;
  pp_first_ts : Z;
  pp_last_ts : Z;
  pp_reset : Z;
  pp_prebuffer : list Z
}.

Definition preparse_init : preparse :=
  {| pp_offset := 0; pp_parsed_header := false; pp_len := 0;
     pp_first_ts := 0; pp_last_ts := 0; pp_reset := 0;
     pp_prebuffer := replicate 1500 0 |}.

(** Lines 2166-2186: read the RTP header and update the reset tracking. *)
Definition track_reset (file : list Z) (pos : Z) (offset len : Z)
    (parsed : bool) (buf : list Z) (st : preparse) : preparse :=
  let buf := store (fread file pos 16) buf in
  let t := timestamp_of buf in
  let first_ts :=
    if pp_last_ts st =? 0
    then (if t >? 1000 * 1000 then t - 1000 * 1000 else t)
    else pp_first_ts st in
  let reset :=
    if pp_last_ts st =? 0 then pp_reset st
    else if t <? pp_last_ts st
         then (if pp_last_ts st - t >? 2 * 1000 * 1000 * 1000 then t else pp_reset st)
         else if t <? pp_reset st then t else pp_reset st in
  {| pp_offset := offset + len; pp_parsed_header := parsed; pp_len := len;
     pp_first_ts := first_ts; pp_last_ts := t; pp_reset := reset;
     pp_prebuffer := buf |}.

Section WithJsonLoads.

(** jansson's parser, applied to the C string in [prebuffer]. *)
Variable json_loads : list Z -> option json.

(** Lines 2097-2152: the checks on the info header of the new format. *)
Definition info_header_ok (buf : list Z) : bool :=
  let info := json_loads (cstring buf) in
  match info with
  | None => false
  | Some _ =>
      match json_object_get info "t" with
      | Some (JString t) =>
          (strcaseeq t "v" || strcaseeq t "a")
          && match json_object_get info "c" with
             | Some (JString _) =>
                 match json_object_get info "s" with
                 | Some (JInteger _) =>
                     match json_object_get info "u" with
                     | Some (JInteger _) => true
                     | _ => false
                     end
                 | _ => false
                 end
             | _ => false
             end
      | _ => false
      end
  end.

(** One round of the first loop (lines 2043-2187), entered with
    [offset < fsize]. *)
Definition pass1_step (file : list Z) (st : preparse) : outcome preparse :=
  let offset := pp_offset st in
  let hdr := fread file offset 8 in
  let buf := store hdr (pp_prebuffer st) in
  if negb (length hdr =? 8)%nat || negb (byte_at buf 0 =? char_M) then Null
  else if byte_at buf 1 =? char_E then
    let offset := offset + 8 in
    let len := ntohs (fread_len file offset (pp_len st)) in
    let pos := offset + Z.of_nat (length (fread file offset 2)) in
    let offset := offset + 2 in
    if (len =? 5) && negb (pp_parsed_header st) then
      let buf := store (fread file pos 5) buf in
      if (byte_at buf 0 =? char_v) || (byte_at buf 0 =? char_a) then
        Next {| pp_offset := offset + len; pp_parsed_header := true;
                pp_len := len; pp_first_ts := pp_first_ts st;
                pp_last_ts := pp_last_ts st; pp_reset := pp_reset st;
                pp_prebuffer := buf |}
      else Null
    else if len <? 12 then
      Next {| pp_offset := offset + len;
              pp_parsed_header := pp_parsed_header st;
              pp_len := len; pp_first_ts := pp_first_ts st;
              pp_last_ts := pp_last_ts st; pp_reset := pp_reset st;
              pp_prebuffer := buf |}
    else Next (track_reset file pos offset len (pp_parsed_header st) buf st)
  else if byte_at buf 1 =? char_J then
    let offset := offset + 8 in
    let len := ntohs (fread_len file offset (pp_len st)) in
    let pos := offset + Z.of_nat (length (fread file offset 2)) in
    let offset := offset + 2 in
    if (len >? 0) && negb (pp_parsed_header st) then
      if 1500 <=? len then Overrun
      else
        let info := fread file pos len in
        let buf := poke (Z.to_nat len) 0 (store info buf) in
        if info_header_ok buf
        then Next (track_reset file (pos + Z.of_nat (length info)) offset len true buf st)
        else Null
    else Next (track_reset file pos offset len (pp_parsed_header st) buf st)
  else Null.

Inductive pass1_result : Type :=
| P1_done (st : preparse)
| P1_null
| P1_overrun
| P1_fuel.

Fixpoint pass1 (fuel : nat) (file : list Z) (st : preparse) : pass1_result :=
  match fuel with
  | O => P1_fuel
  | S fuel' =>
      if pp_offset st <? Z.of_nat (length file) then
        match pass1_step file st with
        | Next st' => pass1 fuel' file st'
        | Null => P1_null
        | Overrun => P1_overrun
        end
      else P1_done st
  end.

End WithJsonLoads.

(** *** Pass 2: parsing the frames and ordering them *)
Record parse : Type := mk_parse {
  ps_offset : Z;
  ps_len : Z;
  ps_prebuffer : list Z
}.

(** What the second loop reads of one RTP record. *)
Record rtp_read : Type := mk_rtp_read {
  rr_seq : Z;          (* ntohs(rtp->seq_number) *)
  rr_timestamp : Z;    (* ntohl(rtp->timestamp) *)
  rr_len : Z;
  rr_offset : Z
}.

(** The reading half of one round (lines 2192-2216 and 2305): the record is
    skipped, or its RTP header is read. *)
Definition pass2_step (file : list Z) (st : parse) : parse * option rtp_read :=
  let offset := ps_offset st in
  let hdr := fread file offset 8 in
  let buf := poke 8 0 (store hdr (ps_prebuffer st)) in
  let pos := offset + Z.of_nat (length hdr) in
  let offset := offset + 8 in
  let len := ntohs (fread_len file pos (ps_len st)) in
  let pos := pos + Z.of_nat (length (fread file pos 2)) in
  let offset := offset + 2 in
  if (byte_at buf 1 =? char_J) || (len <? 12) then
    ({| ps_offset := offset + len; ps_len := len; ps_prebuffer := buf |}, None)
  else
    let buf := store (fread file pos 16) buf in
    ({| ps_offset := offset + len; ps_len := len; ps_prebuffer := buf |},
     Some {| rr_seq := seq_number_of buf; rr_timestamp := timestamp_of buf;
             rr_len := len; rr_offset := offset |}).

(** Lines 2220-2234: the 64-bit timestamp of a frame packet. *)
Definition extended_ts (reset first_ts t : Z) : Z :=
  if reset =? 0 then t
  else if t >? first_ts then t
  else
    let max32 := uint32_max in
    let max32 := wrap64 (max32 + 1) in
    wrap64 (max32 + t).

Definition frame_of (reset first_ts : Z) (r : rtp_read) : janus_transcode_frame_packet :=
  {| fp_seq := rr_seq r; fp_ts := extended_ts reset first_ts (rr_timestamp r);
     fp_len := rr_len r; fp_offset := rr_offset r |}.

(** The test that makes the backward walk stop at [tmp] and link [p] after
    it (lines 2248, 2262-2264 and 2278). *)
Definition goes_after (tmp p : janus_transcode_frame_packet) : bool :=
  (fp_ts tmp <? fp_ts p)
  || ((fp_ts tmp =? fp_ts p)
      && (((fp_seq tmp <? fp_seq p) && (Z.abs (fp_seq tmp - fp_seq p) <? 10000))
          || ((fp_seq tmp >? fp_seq p) && (Z.abs (fp_seq tmp - fp_seq p) >? 10000)))).

(** The walk from [last] towards the head: [back] holds [tmp] and the nodes
    before it, nearest first; [front] the nodes already passed, in list
    order.  Reaching the start makes [p] the new head. *)
Fixpoint walk_back (p : janus_transcode_frame_packet)
    (back front : list janus_transcode_frame_packet)
  : list janus_transcode_frame_packet :=
  match back with
  | [] => p :: front
  | tmp :: prevs =>
      if goes_after tmp p then reverse prevs ++ tmp :: p :: front
      else walk_back p prevs (tmp :: front)
  end.

Definition insert_frame (p : janus_transcode_frame_packet)
    (frames : list janus_transcode_frame_packet) : list janus_transcode_frame_packet :=
  match frames with
  | [] => [p]
  | _ => walk_back p (reverse frames) []
  end.

Fixpoint pass2 (fuel : nat) (file : list Z) (reset first_ts : Z) (st : parse)
    (frames : list janus_transcode_frame_packet)
  : option (list janus_transcode_frame_packet) :=
  match fuel with
  | O => None
  | S fuel' =>
      if ps_offset st <? Z.of_nat (length file) then
        match pass2_step file st with
        | (st', None) => pass2 fuel' file reset first_ts st' frames
        | (st', Some r) =>
            pass2 fuel' file reset first_ts st'
              (insert_frame (frame_of reset first_ts r) frames)
        end
      else Some frames
  end.

(** The RTP records of the second loop, in file order. *)
Fixpoint pass2_reads (fuel : nat) (file : list Z) (st : parse) : list rtp_read :=
  match fuel with
  | O => []
  | S fuel' =>
      if ps_offset st <? Z.of_nat (length file) then
        match pass2_step file st with
        | (st', None) => pass2_reads fuel' file st'
        | (st', Some r) => r :: pass2_reads fuel' file st'
        end
      else []
  end.

Inductive frames_result : Type :=
| Frames (frames : list janus_transcode_frame_packet)  (* the list; NULL when empty *)
| Failed                                               (* an error path: NULL *)
| Undefined                                            (* prebuffer overrun *)
| Diverged.

(** The variables the second loop inherits from the first. *)
Definition parse_init (st : preparse) : parse :=
  {| ps_offset := 0; ps_len := pp_len st; ps_prebuffer := pp_prebuffer st |}.

Definition rounds (file : list Z) : nat := S (length file).

(** The body of [janus_transcode_get_frames] on an opened file. *)
Definition parse_frames (json_loads : list Z -> option json) (file : list Z)
  : frames_result :=
  match pass1 json_loads (rounds file) file preparse_init with
  | P1_done st =>
      match pass2 (rounds file) file (pp_reset st) (pp_first_ts st) (parse_init st) [] with
      | Some frames => Frames frames
      | None => Diverged
      end
  | P1_null => Failed
  | P1_overrun => Undefined
  | P1_fuel => Diverged
  end.

(** [strstr(filename, ".mjr")] and the [g_snprintf] into [source[1024]]. *)
Fixpoint strstr (hay needle : string) : bool :=
  String.prefix needle hay
  || match hay with
     | EmptyString => false
     | String _ rest => strstr rest needle
     end.

Definition source_path (dir filename : string) : string :=
  String.substring 0 1023
    (if strstr filename ".mjr" then dir +:+ "/" +:+ filename
     else dir +:+ "/" +:+ filename +:+ ".mjr").

Definition janus_transcode_get_frames (json_loads : list Z -> option json)
    (fs : gmap string (list Z)) (dir filename : option string) : frames_result :=
  match dir, filename with
  | Some dir, Some filename =>
      match fs !! source_path dir filename with
      | None => Failed
      | Some file => parse_frames json_loads file
      end
  | _, _ => Failed
  end.

(** The pointer the caller receives: NULL is the empty list. *)
Definition frames_of (r : frames_result) : list janus_transcode_frame_packet :=
  match r with
  | Frames frames => frames
  | _ => []
  end.

End Frames.

(** ** The replay pacer: the loop of [janus_transcode_playout_thread] *)
Module Playout.
Import Wire Frames.

Record timeval : Type := mk_timeval { tv_sec : Z; tv_usec : Z }.

(** The instant a [timeval] stands for, in microseconds. *)
Definition micros (t : timeval) : Z := tv_sec t * 1000000 + tv_usec t.

(** A position in a frame list: [pc_next] starts at the node [audio] (or
    [video]) points to, [pc_prev] holds the nodes before it, nearest first;
    [pc_before] is [abefore] (or [vbefore]). *)
Record pacer : Type := mk_pacer {
  pc_prev : list janus_transcode_frame_packet;
  pc_next : list janus_transcode_frame_packet;
  pc_before : timeval
}.

Definition pacer_start (frames : list janus_transcode_frame_packet)
    (t : timeval) : pacer :=
  {| pc_prev := []; pc_next := frames; pc_before := t |}.

(** One call of [gateway->relay_rtp]: the medium, the payload type written
    into the header, the frame packet that is sent, and the bytes [fread]
    gave for it, which lie at the start of [buffer]. *)
Record relay : Type := mk_relay {
  rl_video : bool;
  rl_pt : Z;
  rl_packet : janus_transcode_frame_packet;
  rl_read : list Z
}.

(** [fseek] to the packet and [fread] of [len] bytes into [buffer], the
    1500 bytes of [g_malloc0(1500)]: the bytes read, or nothing when they
    are more than the buffer holds. *)
Definition read_packet (file : list Z) (p : janus_transcode_frame_packet)
  : option (list Z) :=
  let bytes := fread file (fp_offset p) (fp_len p) in
  if (1500 <? length bytes)%nat then None else Some bytes.

Definition akhz_of (audio_pt : Z) : Z :=
  if (audio_pt =? 0) || (audio_pt =? 8) || (audio_pt =? 9) then 8 else 48.
Definition vkhz : Z := 90.

(** Lines 2437-2438: the timestamp skip from the previous packet, in
    microseconds ([ts_diff] is an [int64_t], the timestamps are [uint64_t]). *)
Definition ts_diff_of (khz : Z) (prev p : janus_transcode_frame_packet) : Z :=
  let ts_diff := to_int64 (wrap64 (fp_ts p - fp_ts prev)) in
  Z.quot (ts_diff * 1000) khz.

(** Lines 2440-2447. *)
Definition passed_since (before now : timeval) : Z :=
  let d_s := tv_sec now - tv_sec before in
  let d_us := tv_usec now - tv_usec before in
  let '(d_s, d_us) := if d_us <? 0 then (d_s - 1, d_us + 1000000) else (d_s, d_us) in
  d_s * 1000000 + d_us.

(** Lines 2452-2460: updating the reference time. *)
Definition advance_reference (before : timeval) (ts_diff : Z) : timeval :=
  let usec := tv_usec before + Z.rem ts_diff 1000000 in
  let '(sec, usec) :=
    if usec >? 1000000 then (tv_sec before + 1, usec - 1000000)
    else (tv_sec before, usec) in
  if Z.quot ts_diff 1000000 >? 0
  then {| tv_sec := sec + Z.quot ts_diff 1000000;
          tv_usec := usec - Z.quot ts_diff 1000000 |}
  else {| tv_sec := sec; tv_usec := usec |}.

(** What a half of a round comes to: the cursor after it, the packets it
    relayed and [asent] (or [vsent]); or, after the packets it relayed, a
    read that writes past the end of [buffer], from where on nothing is
    defined. *)
Inductive paced : Type :=
| Paced (st : pacer) (sent : list relay) (was_sent : bool)
| Overrun (sent : list relay).

(** Lines 2419-2474: the audio half of a round on the audio file; [now] is
    what [gettimeofday] returns in it. *)
Definition audio_round (audio_pt : Z) (afile : list Z) (st : pacer) (now : timeval)
  : paced :=
  match pc_next st with
  | [] => Paced st [] false
  | p :: rest =>
      match pc_prev st with
      | [] =>
          match read_packet afile p with
          | None => Overrun []
          | Some bytes =>
              Paced {| pc_prev := [p]; pc_next := rest; pc_before := now |}
                [mk_relay false audio_pt p bytes] true
          end
      | prev :: _ =>
          let ts_diff := ts_diff_of (akhz_of audio_pt) prev p in
          if passed_since (pc_before st) now <? ts_diff - 5000 then Paced st [] false
          else
            match read_packet afile p with
            | None => Overrun []
            | Some bytes =>
                Paced {| pc_prev := p :: pc_prev st; pc_next := rest;
                         pc_before := advance_reference (pc_before st) ts_diff |}
                  [mk_relay false audio_pt p bytes] true
            end
      end
  end.

(** [while(video && video->ts == ts)]: the packets sent in one slot with
    the bytes read for each, the cursor after them, and whether the loop
    came to a read that does not fit [buffer]. *)
Fixpoint send_group (vfile : list Z) (ts : Z)
    (prev next : list janus_transcode_frame_packet)
  : list (janus_transcode_frame_packet * list Z)
    * list janus_transcode_frame_packet * list janus_transcode_frame_packet * bool :=
  match next with
  | [] => ([], prev, [], false)
  | p :: rest =>
      if fp_ts p =? ts then
        match read_packet vfile p with
        | None => ([], prev, next, true)
        | Some bytes =>
            let '(sent, prev', next', overrun) := send_group vfile ts (p :: prev) rest in
            ((p, bytes) :: sent, prev', next', overrun)
        end
      else ([], prev, next, false)
  end.

Definition video_relay (video_pt : Z) (sent : janus_transcode_frame_packet * list Z)
  : relay :=
  mk_relay true video_pt sent.1 sent.2.

(** Lines 2475-2537: the video half of a round on the video file. *)
Definition video_round (video_pt : Z) (vfile : list Z) (st : pacer) (now : timeval)
  : paced :=
  match pc_next st with
  | [] => Paced st [] false
  | p :: _ =>
      match pc_prev st with
      | [] =>
          let '(sent, prev', next', overrun) :=
            send_group vfile (fp_ts p) (pc_prev st) (pc_next st) in
          if overrun then Overrun (map (video_relay video_pt) sent)
          else
            Paced {| pc_prev := prev'; pc_next := next'; pc_before := now |}
              (map (video_relay video_pt) sent) true
      | prev :: _ =>
          let ts_diff := ts_diff_of vkhz prev p in
          if passed_since (pc_before st) now <? ts_diff - 5000 then Paced st [] false
          else
            let '(sent, prev', next', overrun) :=
              send_group vfile (fp_ts p) (pc_prev st) (pc_next st) in
            if overrun then Overrun (map (video_relay video_pt) sent)
            else
              Paced {| pc_prev := prev'; pc_next := next';
                       pc_before := advance_reference (pc_before st) ts_diff |}
                (map (video_relay video_pt) sent) true
      end
  end.

Record playout : Type := mk_playout {
  po_audio : pacer;
  po_video : pacer;
  po_asent : bool;
  po_vsent : bool
}.

Inductive playout_event : Type :=
| Sleep5ms                 (* g_usleep(5000) *)
| RelayRtp (r : relay)
| BufferOverrun.           (* a read of more than 1500 bytes into [buffer] *)

(** One round of the loop (lines 2413-2537), entered with [audio || video];
    [now_a] and [now_v] are the clock readings of its two halves.  There is
    no state after a read that does not fit [buffer]. *)
Definition playout_round (audio_pt video_pt : Z) (afile vfile : list Z)
    (st : playout) (now_a now_v : timeval) : option playout * list playout_event :=
  let sleep := if negb (po_asent st) && negb (po_vsent st) then [Sleep5ms] else [] in
  match audio_round audio_pt afile (po_audio st) now_a with
  | Overrun ra => (None, sleep ++ map RelayRtp ra ++ [BufferOverrun])
  | Paced a ra asent =>
      match video_round video_pt vfile (po_video st) now_v with
      | Overrun rv =>
          (None, sleep ++ map RelayRtp ra ++ map RelayRtp rv ++ [BufferOverrun])
      | Paced v rv vsent =>
          (Some {| po_audio := a; po_video := v; po_asent := asent; po_vsent := vsent |},
           sleep ++ map RelayRtp ra ++ map RelayRtp rv)
      end
  end.

(** The loop, for a session that stays active, over the clock readings of
    its rounds; it ends when both lists are exhausted, or at a read that
    does not fit [buffer]. *)
Fixpoint playout_loop (audio_pt video_pt : Z) (afile vfile : list Z)
    (clock : list (timeval * timeval)) (st : playout)
  : option playout * list playout_event :=
  match clock with
  | [] => (Some st, [])
  | (now_a, now_v) :: clock' =>
      match pc_next (po_audio st), pc_next (po_video st) with
      | [], [] => (Some st, [])
      | _, _ =>
          match playout_round audio_pt video_pt afile vfile st now_a now_v with
          | (Some st', ev) =>
              let '(st'', ev') :=
                playout_loop audio_pt video_pt afile vfile clock' st' in
              (st'', ev ++ ev')
          | (None, ev) => (None, ev)
          end
      end
  end.

(** Lines 2391-2398: the state the loop starts from; the three
    [gettimeofday] calls before it give [t0]. *)
Definition playout_start (aframes vframes : list janus_transcode_frame_packet)
    (t0 : timeval) : playout :=
  {| po_audio := pacer_start aframes t0; po_video := pacer_start vframes t0;
     po_asent := false; po_vsent := false |}.

End Playout.

(** ** What the plugin uses of the gateway core

    The codec tables, the RTP and SDP helpers, the JSON validation macro and
    the simulcast contexts live in the core; the plugin only calls them. *)
Module Core.
Import Json.

Inductive janus_audiocodec : Type :=
| JANUS_AUDIOCODEC_NONE
| JANUS_AUDIOCODEC_OPUS
| JANUS_AUDIOCODEC_PCMU
| JANUS_AUDIOCODEC_PCMA
| JANUS_AUDIOCODEC_G722.

Inductive janus_videocodec : Type :=
| JANUS_VIDEOCODEC_NONE
| JANUS_VIDEOCODEC_VP8
| JANUS_VIDEOCODEC_VP9
| JANUS_VIDEOCODEC_H264.

Definition audiocodec_eqb (a b : janus_audiocodec) : bool :=
  match a, b with
  | JANUS_AUDIOCODEC_NONE, JANUS_AUDIOCODEC_NONE
  | JANUS_AUDIOCODEC_OPUS, JANUS_AUDIOCODEC_OPUS
  | JANUS_AUDIOCODEC_PCMU, JANUS_AUDIOCODEC_PCMU
  | JANUS_AUDIOCODEC_PCMA, JANUS_AUDIOCODEC_PCMA
  | JANUS_AUDIOCODEC_G722, JANUS_AUDIOCODEC_G722 => true
  | _, _ => false
  end.

Definition videocodec_eqb (a b : janus_videocodec) : bool :=
  match a, b with
  | JANUS_VIDEOCODEC_NONE, JANUS_VIDEOCODEC_NONE
  | JANUS_VIDEOCODEC_VP8, JANUS_VIDEOCODEC_VP8
  | JANUS_VIDEOCODEC_VP9, JANUS_VIDEOCODEC_VP9
  | JANUS_VIDEOCODEC_H264, JANUS_VIDEOCODEC_H264 => true
  | _, _ => false
  end.

(** Modelled from the spec: the codec name table of the core is not part of
    the plugin; the data model lists the tags opus, pcma, pcmu, g722 for
    audio and vp8, vp9, h264 for video, anything else being "none". *)
Definition janus_audiocodec_from_name (name : option string) : janus_audiocodec :=
  match name with
  | None => JANUS_AUDIOCODEC_NONE
  | Some n =>
      if strcaseeq n "opus" then JANUS_AUDIOCODEC_OPUS
      else if strcaseeq n "pcmu" then JANUS_AUDIOCODEC_PCMU
      else if strcaseeq n "pcma" then JANUS_AUDIOCODEC_PCMA
      else if strcaseeq n "g722" then JANUS_AUDIOCODEC_G722
      else JANUS_AUDIOCODEC_NONE
  end.

(** Modelled from the spec: see [janus_audiocodec_from_name]. *)
Definition janus_videocodec_from_name (name : option string) : janus_videocodec :=
  match name with
  | None => JANUS_VIDEOCODEC_NONE
  | Some n =>
      if strcaseeq n "vp8" then JANUS_VIDEOCODEC_VP8
      else if strcaseeq n "vp9" then JANUS_VIDEOCODEC_VP9
      else if strcaseeq n "h264" then JANUS_VIDEOCODEC_H264
      else JANUS_VIDEOCODEC_NONE
  end.

(** Modelled from the spec: see [janus_audiocodec_from_name]. *)
Definition janus_audiocodec_name (c : janus_audiocodec) : option string :=
  match c with
  | JANUS_AUDIOCODEC_NONE => None
  | JANUS_AUDIOCODEC_OPUS => Some "opus"
  | JANUS_AUDIOCODEC_PCMU => Some "pcmu"
  | JANUS_AUDIOCODEC_PCMA => Some "pcma"
  | JANUS_AUDIOCODEC_G722 => Some "g722"
  end.

(** Modelled from the spec: see [janus_audiocodec_from_name]. *)
Definition janus_videocodec_name (c : janus_videocodec) : option string :=
  match c with
  | JANUS_VIDEOCODEC_NONE => None
  | JANUS_VIDEOCODEC_VP8 => Some "vp8"
  | JANUS_VIDEOCODEC_VP9 => Some "vp9"
  | JANUS_VIDEOCODEC_H264 => Some "h264"
  end.

Inductive janus_sdp_mdirection : Type :=
| JANUS_SDP_DEFAULT
| JANUS_SDP_SENDRECV
| JANUS_SDP_SENDONLY
| JANUS_SDP_RECVONLY
| JANUS_SDP_INACTIVE
| JANUS_SDP_INVALID.

Definition is_recvonly (d : option janus_sdp_mdirection) : bool :=
  match d with Some JANUS_SDP_RECVONLY => true | _ => false end.

Inductive json_type : Type := JSON_STRING | JSON_INTEGER | JANUS_JSON_BOOL.
Inductive json_flag : Type :=
| JANUS_JSON_PARAM_REQUIRED
| JANUS_JSON_PARAM_POSITIVE
| JANUS_JSON_PARAM_NONEMPTY.

Record janus_json_parameter : Type := mk_parameter {
  jp_name : string;
  jp_type : json_type;
  jp_flags : list json_flag
}.

(** The simulcast context: the fields the plugin reads or writes, and the
    rest of it. *)
Record janus_rtp_simulcasting_context (rest : Type) : Type := mk_sim_context {
  rid_ext_id : Z;
  framemarking_ext_id : Z;
  substream_target : Z;
  templayer_target : Z;
  changed_substream : bool;
  need_pli : bool;
  sim_rest : rest
}.
Arguments mk_sim_context {rest}.
Arguments rid_ext_id {rest}.
Arguments framemarking_ext_id {rest}.
Arguments substream_target {rest}.
Arguments templayer_target {rest}.
Arguments changed_substream {rest}.
Arguments need_pli {rest}.
Arguments sim_rest {rest}.

(** The functions of the core and of its libraries that the plugin calls. *)
Class gateway_core : Type := {
  janus_rtp_switching_context : Type;
  janus_vp8_simulcast_context : Type;
  simulcasting_rest : Type;
  janus_sdp : Type;
  janus_rtp_switching_context_reset : janus_rtp_switching_context;
  janus_vp8_simulcast_context_reset : janus_vp8_simulcast_context;
  janus_rtp_simulcasting_context_reset :
    janus_rtp_simulcasting_context simulcasting_rest;
  (* save?, and the two contexts it works on *)
  janus_rtp_simulcasting_context_process_rtp :
    janus_rtp_simulcasting_context simulcasting_rest -> list Z ->
    list Z -> list (option string) -> janus_videocodec ->
    janus_rtp_switching_context ->
    bool * janus_rtp_simulcasting_context simulcasting_rest
    * janus_rtp_switching_context;
  (* the 12 bytes of the fixed header, rewritten *)
  janus_rtp_header_update :
    list Z -> janus_rtp_switching_context -> bool -> Z ->
    list Z * janus_rtp_switching_context;
  (* where the payload starts in the packet, NULL if there is none *)
  janus_rtp_payload : list Z -> option nat;
  janus_vp8_simulcast_descriptor_update :
    list Z -> janus_vp8_simulcast_context -> bool ->
    list Z * janus_vp8_simulcast_context;
  (* ssrcs and rids, rid_ext_id, framemarking_ext_id *)
  janus_rtp_simulcasting_prepare :
    json -> list Z -> list (option string) ->
    list Z * list (option string) * Z * Z;
  (* the FIR sequence number after a FIR was composed *)
  janus_rtcp_fir_seq : Z -> Z;
  janus_sdp_parse : string -> janus_sdp + string;
  janus_sdp_find_preferred_codecs : janus_sdp -> option string * option string;
  (* direction of the first m-line of a medium, if there is one *)
  janus_sdp_mline_find : janus_sdp -> bool -> option janus_sdp_mdirection;
  (* the answer, with s_name, o_sessid and o_version overwritten, as text *)
  janus_sdp_answer :
    janus_sdp -> bool -> option string -> bool -> option string ->
    string -> Z -> Z -> string;
  (* the offer of a completed transcoding, as text *)
  janus_sdp_offer :
    string -> bool -> option string -> Z -> bool -> option string -> Z -> string;
  (* the stored offer with o_sessid and o_version overwritten *)
  janus_sdp_restart : string -> Z -> Z -> option string;
  (* JANUS_VALIDATE_JSON_OBJECT: the error code and cause, if any *)
  janus_validate_json_object :
    json -> list janus_json_parameter -> Z -> Z -> option (Z * string);
  json_loads : list Z -> option json;
  (* the name the core has for a codec of a medium (video?), NULL if none *)
  janus_sdp_match_preferred_codec : bool -> string -> option string;
  janus_config : Type;
  (* on the content of the file, if there is one: NULL if it cannot be parsed *)
  janus_config_parse : option (list Z) -> option janus_config;
  (* the name of the first category janus_config_get_categories gives *)
  janus_config_first_category : janus_config -> option string;
  (* janus_config_get of an item of that category: NULL, or its value *)
  janus_config_get_item : janus_config -> string -> option (option string);
  (* base 0, the whole range of a guint64 *)
  g_ascii_strtoull : string -> Z;
  (* opendir and the names readdir gives, in its order, on the files there
     are; NULL if the folder cannot be opened *)
  readdir : gmap string (list Z) -> string -> option (list string)
}.

End Core.

(** ** The codec of a capture file *)
Module Codec.
Import Wire Json Frames.

(** What [janus_transcode_parse_codec] returns: the name of a codec, NULL,
    or nothing defined when the info header does not fit [prebuffer]. *)
Inductive codec_found : Type :=
| CodecName (name : string)
| NoCodec
| CodecUndefined.

Section WithCodecs.

(** jansson's parser, and [janus_sdp_match_preferred_codec] of the core;
    its first argument tells video from audio. *)
Variable json_loads : list Z -> option json.
Variable janus_sdp_match_preferred_codec : bool -> string -> option string.

(** Lines 562-596: the codec named by the info header of the new format. *)
Definition codec_of_info (info : option json) : option string :=
  match info with
  | None => None
  | Some _ =>
      match json_object_get info "t" with
      | Some (JString t) =>
          if strcaseeq t "v" || strcaseeq t "a" then
            let video := strcaseeq t "v" in
            match json_object_get info "c" with
            | Some (JString c) => janus_sdp_match_preferred_codec video c
            | _ => None
            end
          else None
      | _ => None
      end
  end.

(** The body of [janus_transcode_parse_codec] on an opened file: the loop
    returns in its first round. *)
Definition parse_codec_file (file : list Z) : codec_found :=
  if 0 <? Z.of_nat (length file) then
    let hdr := fread file 0 8 in
    let buf := store hdr (replicate 1500 0) in
    if negb (length hdr =? 8)%nat || negb (byte_at buf 0 =? char_M) then NoCodec
    else if byte_at buf 1 =? char_E then
      let len := ntohs (fread_len file 8 0) in
      let pos := 8 + Z.of_nat (length (fread file 8 2)) in
      if len =? 5 then
        let buf := store (fread file pos 5) buf in
        if byte_at buf 0 =? char_v then CodecName "vp8"
        else if byte_at buf 0 =? char_a then CodecName "opus"
        else NoCodec
      else NoCodec
    else if byte_at buf 1 =? char_J then
      let len := ntohs (fread_len file 8 0) in
      let pos := 8 + Z.of_nat (length (fread file 8 2)) in
      if len >? 0 then
        if 1500 <=? len then CodecUndefined
        else
          let info := fread file pos len in
          let buf := poke (Z.to_nat len) 0 (store info buf) in
          match codec_of_info (json_loads (cstring buf)) with
          | Some codec => CodecName codec
          | None => NoCodec
          end
      else NoCodec
    else NoCodec
  else NoCodec.

(** [janus_transcode_parse_codec] *)
Definition janus_transcode_parse_codec (fs : gmap string (list Z))
    (dir filename : option string) : codec_found :=
  match dir, filename with
  | Some dir, Some filename =>
      match fs !! source_path dir filename with
      | None => NoCodec
      | Some file => parse_codec_file file
      end
  | _, _ => NoCodec
  end.

End WithCodecs.

End Codec.

(** ** Sessions, the catalog of transcodings and the plugin state *)
Module Plugin.
Import Wire Json Frames Codec Core.

Definition JANUS_TRANSCODE_ERROR_NO_MESSAGE : Z := 411.
Definition JANUS_TRANSCODE_ERROR_INVALID_JSON : Z := 412.
Definition JANUS_TRANSCODE_ERROR_INVALID_REQUEST : Z := 413.
Definition JANUS_TRANSCODE_ERROR_INVALID_ELEMENT : Z := 414.
Definition JANUS_TRANSCODE_ERROR_MISSING_ELEMENT : Z := 415.
Definition JANUS_TRANSCODE_ERROR_NOT_FOUND : Z := 416.
Definition JANUS_TRANSCODE_ERROR_INVALID_TRANSCODING : Z := 417.
Definition JANUS_TRANSCODE_ERROR_INVALID_STATE : Z := 418.
Definition JANUS_TRANSCODE_ERROR_INVALID_SDP : Z := 419.
Definition JANUS_TRANSCODE_ERROR_TRANSCODING_EXISTS : Z := 420.
Definition JANUS_TRANSCODE_ERROR_UNKNOWN_ERROR : Z := 499.

Definition AUDIO_PT : Z := 111.
Definition VIDEO_PT : Z := 100.
Definition G_USEC_PER_SEC : Z := 1000000.

Definition request_parameters : list janus_json_parameter :=
  [mk_parameter "request" JSON_STRING [JANUS_JSON_PARAM_REQUIRED]].
Definition configure_parameters : list janus_json_parameter :=
  [mk_parameter "video-bitrate-max" JSON_INTEGER [JANUS_JSON_PARAM_POSITIVE];
   mk_parameter "video-keyframe-interval" JSON_INTEGER [JANUS_JSON_PARAM_POSITIVE]].
Definition transcode_parameters : list janus_json_parameter :=
  [mk_parameter "name" JSON_STRING [JANUS_JSON_PARAM_REQUIRED; JANUS_JSON_PARAM_NONEMPTY];
   mk_parameter "id" JSON_INTEGER [JANUS_JSON_PARAM_POSITIVE];
   mk_parameter "filename" JSON_STRING [];
   mk_parameter "update" JANUS_JSON_BOOL []].
Definition play_parameters : list janus_json_parameter :=
  [mk_parameter "id" JSON_INTEGER [JANUS_JSON_PARAM_REQUIRED; JANUS_JSON_PARAM_POSITIVE];
   mk_parameter "restart" JANUS_JSON_BOOL []].

(** [g_snprintf(dst, n, ...)] keeps at most [n - 1] characters. *)
Definition snprintf (n : nat) (s : string) : string := String.substring 0 (n - 1) s.

(** A [guint64] printed with [SCNu64]. *)
Definition u64_text (v : Z) : string := pretty v.

(** An entry of the catalog.  Entries are allocated objects: sessions and
    the catalog refer to them by address. *)
Record janus_transcode_transcoding : Type := mk_transcoding {
  rec_id : Z;
  rec_name : option string;
  rec_date : string;
  rec_arc_file : option string;
  rec_acodec : janus_audiocodec;
  rec_audio_pt : Z;
  rec_vrc_file : option string;
  rec_vcodec : janus_videocodec;
  rec_video_pt : Z;
  rec_offer : option string;
  rec_viewers : list Z;          (* the handles of the viewing sessions *)
  rec_completed : bool;
  rec_destroyed : bool;
  rec_ref : Z
}.

Inductive rtcp_packet : Type :=
| Remb (bitrate : Z)
| Fir
| Pli.

(** Calls that leave the plugin, in the order they are made. *)
Inductive effect : Type :=
| PushEvent (handle : Z) (transaction : option string) (event : json)
    (jsep : option json)
| NotifyEvent (handle : Z) (info : json)
| RelayRtcp (handle : Z) (video : Z) (pkt : rtcp_packet)
| ClosePc (handle : Z)
| TranscoderCreate (w : option nat) (dir : string) (codec : option string) (filename : string)
| TranscoderSaveFrame (w : option nat) (buf : list Z)
| TranscoderClose (w : nat)
| TranscoderDestroy (w : nat)
| PubCreate (p : option nat) (url : string) (acodec : option string)
| PubSaveFrame (p : option nat) (buf : list Z) (video : bool) (slot : Z)
| PubClose (p : nat)
| PubDestroy (p : nat).

Section WithCore.
Context `{core : gateway_core}.

Record janus_transcode_session : Type := mk_session {
  ses_handle : Z;
  ses_sdp_sessid : Z;
  ses_sdp_version : Z;
  ses_active : bool;
  ses_transcoder : bool;
  ses_firefox : bool;
  ses_transcoding : option nat;       (* address of the entry *)
  ses_arc : option nat;               (* audio writer *)
  ses_vrc : option nat;               (* video writer *)
  ses_pub : option nat;               (* live sink *)
  ses_aframes : list janus_transcode_frame_packet;
  ses_vframes : list janus_transcode_frame_packet;
  ses_video_remb_startup : Z;
  ses_video_remb_last : Z;
  ses_video_bitrate : Z;
  ses_video_keyframe_interval : Z;
  ses_video_keyframe_request_last : Z;
  ses_video_fir_seq : Z;
  ses_context : janus_rtp_switching_context;
  ses_ssrc : list Z;
  ses_rid : list (option string);
  ses_rec_vssrc : Z;
  ses_sim_context : janus_rtp_simulcasting_context simulcasting_rest;
  ses_vp8_context : janus_vp8_simulcast_context;
  ses_hangingup : bool;
  ses_destroyed : bool
}.

Record janus_transcode_message : Type := mk_message {
  msg_handle : option Z;
  msg_transaction : option string;
  msg_message : option json;
  msg_jsep : option json
}.

(** The globals of the plugin, the objects it has allocated, the files of
    the capture directory, and the calls it has made so far. *)
Record plugin : Type := mk_plugin {
  initialized : bool;
  stopping : bool;
  notify_events : bool;
  transcoding_path : string;
  rtmp_path : string;
  sessions : gset Z;                                  (* keys of the sessions table *)
  plugin_handle : gmap Z janus_transcode_session;     (* handle->plugin_handle *)
  recs : gmap nat janus_transcode_transcoding;        (* the allocated entries *)
  transcoding : gmap Z nat;                           (* the catalog: id to entry *)
  messages : list janus_transcode_message;            (* the queue of the handler thread *)
  files : gmap string (list Z);
  next_object : nat;                                  (* next writer or sink address *)
  trace : list effect
}.

(** What a call reads of its environment. *)
Record environment : Type := mk_environment {
  env_monotonic_time : Z;          (* janus_get_monotonic_time() *)
  env_real_time : Z;               (* janus_get_real_time() *)
  env_date : string;               (* strftime of the local time *)
  env_random_uint64 : list Z;      (* successive janus_random_uint64() *)
  env_random_int : Z;              (* g_random_int() *)
  env_events_enabled : bool;       (* gateway->events_is_enabled() *)
  env_arc_created : bool;          (* janus_transcoder_create succeeds *)
  env_vrc_created : bool;
  env_pub_created : bool;
  env_fopen_ok : bool;             (* fopen of the .nfo succeeds *)
  env_handle_stopped : bool        (* handle->stopped *)
}.

Definition emit (e : effect) (pl : plugin) : plugin :=
  {| initialized := initialized pl; stopping := stopping pl;
     notify_events := notify_events pl;
     transcoding_path := transcoding_path pl; rtmp_path := rtmp_path pl;
     sessions := sessions pl; plugin_handle := plugin_handle pl;
     recs := recs pl; transcoding := transcoding pl;
     messages := messages pl; files := files pl;
     next_object := next_object pl; trace := trace pl ++ [e] |}.

Definition set_session (handle : Z) (s : janus_transcode_session)
    (pl : plugin) : plugin :=
  {| initialized := initialized pl; stopping := stopping pl;
     notify_events := notify_events pl;
     transcoding_path := transcoding_path pl; rtmp_path := rtmp_path pl;
     sessions := sessions pl;
     plugin_handle := <[handle := s]> (plugin_handle pl);
     recs := recs pl; transcoding := transcoding pl;
     messages := messages pl; files := files pl;
     next_object := next_object pl; trace := trace pl |}.

Definition set_rec (a : nat) (r : janus_transcode_transcoding)
    (pl : plugin) : plugin :=
  {| initialized := initialized pl; stopping := stopping pl;
     notify_events := notify_events pl;
     transcoding_path := transcoding_path pl; rtmp_path := rtmp_path pl;
     sessions := sessions pl; plugin_handle := plugin_handle pl;
     recs := <[a := r]> (recs pl); transcoding := transcoding pl;
     messages := messages pl; files := files pl;
     next_object := next_object pl; trace := trace pl |}.

(** [janus_transcode_lookup_session] *)
Definition janus_transcode_lookup_session (pl : plugin) (handle : Z)
  : option janus_transcode_session :=
  if bool_decide (handle ∈ sessions pl) then plugin_handle pl !! handle else None.

(** [janus_transcode_create_session]; the second component is [*error]. *)
Definition janus_transcode_create_session (env : environment) (pl : plugin)
    (handle : Z) : plugin * Z :=
  if stopping pl || negb (initialized pl) then (pl, -1)
  else
    let session :=
      {| ses_handle := handle; ses_sdp_sessid := 0; ses_sdp_version := 0;
         ses_active := false; ses_transcoder := false; ses_firefox := false;
         ses_transcoding := None; ses_arc := None; ses_vrc := None;
         ses_pub := None; ses_aframes := []; ses_vframes := [];
         ses_video_remb_startup := 4;
         ses_video_remb_last := env_monotonic_time env;
         ses_video_bitrate := 1024 * 1024;
         ses_video_keyframe_interval := 15000;
         ses_video_keyframe_request_last := 0;
         ses_video_fir_seq := 0;
         ses_context := janus_rtp_switching_context_reset;
         ses_ssrc := [0; 0; 0]; ses_rid := [None; None; None];
         ses_rec_vssrc := 0;
         ses_sim_context := janus_rtp_simulcasting_context_reset;
         ses_vp8_context := janus_vp8_simulcast_context_reset;
         ses_hangingup := false; ses_destroyed := false |} in
    ({| initialized := initialized pl; stopping := stopping pl;
        notify_events := notify_events pl;
        transcoding_path := transcoding_path pl; rtmp_path := rtmp_path pl;
        sessions := {[handle]} ∪ sessions pl;
        plugin_handle := <[handle := session]> (plugin_handle pl);
        recs := recs pl; transcoding := transcoding pl;
        messages := messages pl; files := files pl;
        next_object := next_object pl; trace := trace pl |}, 0).

(** Assignments to single fields of a session. *)

Definition set_sdp_sessid (v : Z) (s : janus_transcode_session)
  : janus_transcode_session :=
  {| ses_handle := ses_handle s; ses_sdp_sessid := v; ses_sdp_version := ses_sdp_version s;
     ses_active := ses_active s; ses_transcoder := ses_transcoder s;
     ses_firefox := ses_firefox s; ses_transcoding := ses_transcoding s;
     ses_arc := ses_arc s; ses_vrc := ses_vrc s; ses_pub := ses_pub s;
     ses_aframes := ses_aframes s; ses_vframes := ses_vframes s;
     ses_video_remb_startup := ses_video_remb_startup s;
     ses_video_remb_last := ses_video_remb_last s; ses_video_bitrate := ses_video_bitrate s;
     ses_video_keyframe_interval := ses_video_keyframe_interval s;
     ses_video_keyframe_request_last := ses_video_keyframe_request_last s;
     ses_video_fir_seq := ses_video_fir_seq s; ses_context := ses_context s;
     ses_ssrc := ses_ssrc s; ses_rid := ses_rid s; ses_rec_vssrc := ses_rec_vssrc s;
     ses_sim_context := ses_sim_context s; ses_vp8_context := ses_vp8_context s;
     ses_hangingup := ses_hangingup s; ses_destroyed := ses_destroyed s |}.

Definition set_sdp_version (v : Z) (s : janus_transcode_session)
  : janus_transcode_session :=
  {| ses_handle := ses_handle s; ses_sdp_sessid := ses_sdp_sessid s; ses_sdp_version := v;
     ses_active := ses_active s; ses_transcoder := ses_transcoder s;
     ses_firefox := ses_firefox s; ses_transcoding := ses_transcoding s;
     ses_arc := ses_arc s; ses_vrc := ses_vrc s; ses_pub := ses_pub s;
     ses_aframes := ses_aframes s; ses_vframes := ses_vframes s;
     ses_video_remb_startup := ses_video_remb_startup s;
     ses_video_remb_last := ses_video_remb_last s; ses_video_bitrate := ses_video_bitrate s;
     ses_video_keyframe_interval := ses_video_keyframe_interval s;
     ses_video_keyframe_request_last := ses_video_keyframe_request_last s;
     ses_video_fir_seq := ses_video_fir_seq s; ses_context := ses_context s;
     ses_ssrc := ses_ssrc s; ses_rid := ses_rid s; ses_rec_vssrc := ses_rec_vssrc s;
     ses_sim_context := ses_sim_context s; ses_vp8_context := ses_vp8_context s;
     ses_hangingup := ses_hangingup s; ses_destroyed := ses_destroyed s |}.

Definition set_active (v : bool) (s : janus_transcode_session)
  : janus_transcode_session :=
  {| ses_handle := ses_handle s; ses_sdp_sessid := ses_sdp_sessid s;
     ses_sdp_version := ses_sdp_version s; ses_active := v;
     ses_transcoder := ses_transcoder s; ses_firefox := ses_firefox s;
     ses_transcoding := ses_transcoding s; ses_arc := ses_arc s; ses_vrc := ses_vrc s;
     ses_pub := ses_pub s; ses_aframes := ses_aframes s; ses_vframes := ses_vframes s;
     ses_video_remb_startup := ses_video_remb_startup s;
     ses_video_remb_last := ses_video_remb_last s; ses_video_bitrate := ses_video_bitrate s;
     ses_video_keyframe_interval := ses_video_keyframe_interval s;
     ses_video_keyframe_request_last := ses_video_keyframe_request_last s;
     ses_video_fir_seq := ses_video_fir_seq s; ses_context := ses_context s;
     ses_ssrc := ses_ssrc s; ses_rid := ses_rid s; ses_rec_vssrc := ses_rec_vssrc s;
     ses_sim_context := ses_sim_context s; ses_vp8_context := ses_vp8_context s;
     ses_hangingup := ses_hangingup s; ses_destroyed := ses_destroyed s |}.

Definition set_transcoder (v : bool) (s : janus_transcode_session)
  : janus_transcode_session :=
  {| ses_handle := ses_handle s; ses_sdp_sessid := ses_sdp_sessid s;
     ses_sdp_version := ses_sdp_version s; ses_active := ses_active s; ses_transcoder := v;
     ses_firefox := ses_firefox s; ses_transcoding := ses_transcoding s;
     ses_arc := ses_arc s; ses_vrc := ses_vrc s; ses_pub := ses_pub s;
     ses_aframes := ses_aframes s; ses_vframes := ses_vframes s;
     ses_video_remb_startup := ses_video_remb_startup s;
     ses_video_remb_last := ses_video_remb_last s; ses_video_bitrate := ses_video_bitrate s;
     ses_video_keyframe_interval := ses_video_keyframe_interval s;
     ses_video_keyframe_request_last := ses_video_keyframe_request_last s;
     ses_video_fir_seq := ses_video_fir_seq s; ses_context := ses_context s;
     ses_ssrc := ses_ssrc s; ses_rid := ses_rid s; ses_rec_vssrc := ses_rec_vssrc s;
     ses_sim_context := ses_sim_context s; ses_vp8_context := ses_vp8_context s;
     ses_hangingup := ses_hangingup s; ses_destroyed := ses_destroyed s |}.

Definition set_transcoding (v : option nat) (s : janus_transcode_session)
  : janus_transcode_session :=
  {| ses_handle := ses_handle s; ses_sdp_sessid := ses_sdp_sessid s;
     ses_sdp_version := ses_sdp_version s; ses_active := ses_active s;
     ses_transcoder := ses_transcoder s; ses_firefox := ses_firefox s; ses_transcoding := v;
     ses_arc := ses_arc s; ses_vrc := ses_vrc s; ses_pub := ses_pub s;
     ses_aframes := ses_aframes s; ses_vframes := ses_vframes s;
     ses_video_remb_startup := ses_video_remb_startup s;
     ses_video_remb_last := ses_video_remb_last s; ses_video_bitrate := ses_video_bitrate s;
     ses_video_keyframe_interval := ses_video_keyframe_interval s;
     ses_video_keyframe_request_last := ses_video_keyframe_request_last s;
     ses_video_fir_seq := ses_video_fir_seq s; ses_context := ses_context s;
     ses_ssrc := ses_ssrc s; ses_rid := ses_rid s; ses_rec_vssrc := ses_rec_vssrc s;
     ses_sim_context := ses_sim_context s; ses_vp8_context := ses_vp8_context s;
     ses_hangingup := ses_hangingup s; ses_destroyed := ses_destroyed s |}.

Definition set_arc (v : option nat) (s : janus_transcode_session)
  : janus_transcode_session :=
  {| ses_handle := ses_handle s; ses_sdp_sessid := ses_sdp_sessid s;
     ses_sdp_version := ses_sdp_version s; ses_active := ses_active s;
     ses_transcoder := ses_transcoder s; ses_firefox := ses_firefox s;
     ses_transcoding := ses_transcoding s; ses_arc := v; ses_vrc := ses_vrc s;
     ses_pub := ses_pub s; ses_aframes := ses_aframes s; ses_vframes := ses_vframes s;
     ses_video_remb_startup := ses_video_remb_startup s;
     ses_video_remb_last := ses_video_remb_last s; ses_video_bitrate := ses_video_bitrate s;
     ses_video_keyframe_interval := ses_video_keyframe_interval s;
     ses_video_keyframe_request_last := ses_video_keyframe_request_last s;
     ses_video_fir_seq := ses_video_fir_seq s; ses_context := ses_context s;
     ses_ssrc := ses_ssrc s; ses_rid := ses_rid s; ses_rec_vssrc := ses_rec_vssrc s;
     ses_sim_context := ses_sim_context s; ses_vp8_context := ses_vp8_context s;
     ses_hangingup := ses_hangingup s; ses_destroyed := ses_destroyed s |}.

Definition set_vrc (v : option nat) (s : janus_transcode_session)
  : janus_transcode_session :=
  {| ses_handle := ses_handle s; ses_sdp_sessid := ses_sdp_sessid s;
     ses_sdp_version := ses_sdp_version s; ses_active := ses_active s;
     ses_transcoder := ses_transcoder s; ses_firefox := ses_firefox s;
     ses_transcoding := ses_transcoding s; ses_arc := ses_arc s; ses_vrc := v;
     ses_pub := ses_pub s; ses_aframes := ses_aframes s; ses_vframes := ses_vframes s;
     ses_video_remb_startup := ses_video_remb_startup s;
     ses_video_remb_last := ses_video_remb_last s; ses_video_bitrate := ses_video_bitrate s;
     ses_video_keyframe_interval := ses_video_keyframe_interval s;
     ses_video_keyframe_request_last := ses_video_keyframe_request_last s;
     ses_video_fir_seq := ses_video_fir_seq s; ses_context := ses_context s;
     ses_ssrc := ses_ssrc s; ses_rid := ses_rid s; ses_rec_vssrc := ses_rec_vssrc s;
     ses_sim_context := ses_sim_context s; ses_vp8_context := ses_vp8_context s;
     ses_hangingup := ses_hangingup s; ses_destroyed := ses_destroyed s |}.

Definition set_pub (v : option nat) (s : janus_transcode_session)
  : janus_transcode_session :=
  {| ses_handle := ses_handle s; ses_sdp_sessid := ses_sdp_sessid s;
     ses_sdp_version := ses_sdp_version s; ses_active := ses_active s;
     ses_transcoder := ses_transcoder s; ses_firefox := ses_firefox s;
     ses_transcoding := ses_transcoding s; ses_arc := ses_arc s; ses_vrc := ses_vrc s;
     ses_pub := v; ses_aframes := ses_aframes s; ses_vframes := ses_vframes s;
     ses_video_remb_startup := ses_video_remb_startup s;
     ses_video_remb_last := ses_video_remb_last s; ses_video_bitrate := ses_video_bitrate s;
     ses_video_keyframe_interval := ses_video_keyframe_interval s;
     ses_video_keyframe_request_last := ses_video_keyframe_request_last s;
     ses_video_fir_seq := ses_video_fir_seq s; ses_context := ses_context s;
     ses_ssrc := ses_ssrc s; ses_rid := ses_rid s; ses_rec_vssrc := ses_rec_vssrc s;
     ses_sim_context := ses_sim_context s; ses_vp8_context := ses_vp8_context s;
     ses_hangingup := ses_hangingup s; ses_destroyed := ses_destroyed s |}.

Definition set_aframes (v : list janus_transcode_frame_packet) (s : janus_transcode_session)
  : janus_transcode_session :=
  {| ses_handle := ses_handle s; ses_sdp_sessid := ses_sdp_sessid s;
     ses_sdp_version := ses_sdp_version s; ses_active := ses_active s;
     ses_transcoder := ses_transcoder s; ses_firefox := ses_firefox s;
     ses_transcoding := ses_transcoding s; ses_arc := ses_arc s; ses_vrc := ses_vrc s;
     ses_pub := ses_pub s; ses_aframes := v; ses_vframes := ses_vframes s;
     ses_video_remb_startup := ses_video_remb_startup s;
     ses_video_remb_last := ses_video_remb_last s; ses_video_bitrate := ses_video_bitrate s;
     ses_video_keyframe_interval := ses_video_keyframe_interval s;
     ses_video_keyframe_request_last := ses_video_keyframe_request_last s;
     ses_video_fir_seq := ses_video_fir_seq s; ses_context := ses_context s;
     ses_ssrc := ses_ssrc s; ses_rid := ses_rid s; ses_rec_vssrc := ses_rec_vssrc s;
     ses_sim_context := ses_sim_context s; ses_vp8_context := ses_vp8_context s;
     ses_hangingup := ses_hangingup s; ses_destroyed := ses_destroyed s |}.

Definition set_vframes (v : list janus_transcode_frame_packet) (s : janus_transcode_session)
  : janus_transcode_session :=
  {| ses_handle := ses_handle s; ses_sdp_sessid := ses_sdp_sessid s;
     ses_sdp_version := ses_sdp_version s; ses_active := ses_active s;
     ses_transcoder := ses_transcoder s; ses_firefox := ses_firefox s;
     ses_transcoding := ses_transcoding s; ses_arc := ses_arc s; ses_vrc := ses_vrc s;
     ses_pub := ses_pub s; ses_aframes := ses_aframes s; ses_vframes := v;
     ses_video_remb_startup := ses_video_remb_startup s;
     ses_video_remb_last := ses_video_remb_last s; ses_video_bitrate := ses_video_bitrate s;
     ses_video_keyframe_interval := ses_video_keyframe_interval s;
     ses_video_keyframe_request_last := ses_video_keyframe_request_last s;
     ses_video_fir_seq := ses_video_fir_seq s; ses_context := ses_context s;
     ses_ssrc := ses_ssrc s; ses_rid := ses_rid s; ses_rec_vssrc := ses_rec_vssrc s;
     ses_sim_context := ses_sim_context s; ses_vp8_context := ses_vp8_context s;
     ses_hangingup := ses_hangingup s; ses_destroyed := ses_destroyed s |}.

Definition set_video_remb_startup (v : Z) (s : janus_transcode_session)
  : janus_transcode_session :=
  {| ses_handle := ses_handle s; ses_sdp_sessid := ses_sdp_sessid s;
     ses_sdp_version := ses_sdp_version s; ses_active := ses_active s;
     ses_transcoder := ses_transcoder s; ses_firefox := ses_firefox s;
     ses_transcoding := ses_transcoding s; ses_arc := ses_arc s; ses_vrc := ses_vrc s;
     ses_pub := ses_pub s; ses_aframes := ses_aframes s; ses_vframes := ses_vframes s;
     ses_video_remb_startup := v; ses_video_remb_last := ses_video_remb_last s;
     ses_video_bitrate := ses_video_bitrate s;
     ses_video_keyframe_interval := ses_video_keyframe_interval s;
     ses_video_keyframe_request_last := ses_video_keyframe_request_last s;
     ses_video_fir_seq := ses_video_fir_seq s; ses_context := ses_context s;
     ses_ssrc := ses_ssrc s; ses_rid := ses_rid s; ses_rec_vssrc := ses_rec_vssrc s;
     ses_sim_context := ses_sim_context s; ses_vp8_context := ses_vp8_context s;
     ses_hangingup := ses_hangingup s; ses_destroyed := ses_destroyed s |}.

Definition set_video_remb_last (v : Z) (s : janus_transcode_session)
  : janus_transcode_session :=
  {| ses_handle := ses_handle s; ses_sdp_sessid := ses_sdp_sessid s;
     ses_sdp_version := ses_sdp_version s; ses_active := ses_active s;
     ses_transcoder := ses_transcoder s; ses_firefox := ses_firefox s;
     ses_transcoding := ses_transcoding s; ses_arc := ses_arc s; ses_vrc := ses_vrc s;
     ses_pub := ses_pub s; ses_aframes := ses_aframes s; ses_vframes := ses_vframes s;
     ses_video_remb_startup := ses_video_remb_startup s; ses_video_remb_last := v;
     ses_video_bitrate := ses_video_bitrate s;
     ses_video_keyframe_interval := ses_video_keyframe_interval s;
     ses_video_keyframe_request_last := ses_video_keyframe_request_last s;
     ses_video_fir_seq := ses_video_fir_seq s; ses_context := ses_context s;
     ses_ssrc := ses_ssrc s; ses_rid := ses_rid s; ses_rec_vssrc := ses_rec_vssrc s;
     ses_sim_context := ses_sim_context s; ses_vp8_context := ses_vp8_context s;
     ses_hangingup := ses_hangingup s; ses_destroyed := ses_destroyed s |}.

Definition set_video_bitrate (v : Z) (s : janus_transcode_session)
  : janus_transcode_session :=
  {| ses_handle := ses_handle s; ses_sdp_sessid := ses_sdp_sessid s;
     ses_sdp_version := ses_sdp_version s; ses_active := ses_active s;
     ses_transcoder := ses_transcoder s; ses_firefox := ses_firefox s;
     ses_transcoding := ses_transcoding s; ses_arc := ses_arc s; ses_vrc := ses_vrc s;
     ses_pub := ses_pub s; ses_aframes := ses_aframes s; ses_vframes := ses_vframes s;
     ses_video_remb_startup := ses_video_remb_startup s;
     ses_video_remb_last := ses_video_remb_last s; ses_video_bitrate := v;
     ses_video_keyframe_interval := ses_video_keyframe_interval s;
     ses_video_keyframe_request_last := ses_video_keyframe_request_last s;
     ses_video_fir_seq := ses_video_fir_seq s; ses_context := ses_context s;
     ses_ssrc := ses_ssrc s; ses_rid := ses_rid s; ses_rec_vssrc := ses_rec_vssrc s;
     ses_sim_context := ses_sim_context s; ses_vp8_context := ses_vp8_context s;
     ses_hangingup := ses_hangingup s; ses_destroyed := ses_destroyed s |}.

Definition set_video_keyframe_interval (v : Z) (s : janus_transcode_session)
  : janus_transcode_session :=
  {| ses_handle := ses_handle s; ses_sdp_sessid := ses_sdp_sessid s;
     ses_sdp_version := ses_sdp_version s; ses_active := ses_active s;
     ses_transcoder := ses_transcoder s; ses_firefox := ses_firefox s;
     ses_transcoding := ses_transcoding s; ses_arc := ses_arc s; ses_vrc := ses_vrc s;
     ses_pub := ses_pub s; ses_aframes := ses_aframes s; ses_vframes := ses_vframes s;
     ses_video_remb_startup := ses_video_remb_startup s;
     ses_video_remb_last := ses_video_remb_last s; ses_video_bitrate := ses_video_bitrate s;
     ses_video_keyframe_interval := v;
     ses_video_keyframe_request_last := ses_video_keyframe_request_last s;
     ses_video_fir_seq := ses_video_fir_seq s; ses_context := ses_context s;
     ses_ssrc := ses_ssrc s; ses_rid := ses_rid s; ses_rec_vssrc := ses_rec_vssrc s;
     ses_sim_context := ses_sim_context s; ses_vp8_context := ses_vp8_context s;
     ses_hangingup := ses_hangingup s; ses_destroyed := ses_destroyed s |}.

Definition set_video_keyframe_request_last (v : Z) (s : janus_transcode_session)
  : janus_transcode_session :=
  {| ses_handle := ses_handle s; ses_sdp_sessid := ses_sdp_sessid s;
     ses_sdp_version := ses_sdp_version s; ses_active := ses_active s;
     ses_transcoder := ses_transcoder s; ses_firefox := ses_firefox s;
     ses_transcoding := ses_transcoding s; ses_arc := ses_arc s; ses_vrc := ses_vrc s;
     ses_pub := ses_pub s; ses_aframes := ses_aframes s; ses_vframes := ses_vframes s;
     ses_video_remb_startup := ses_video_remb_startup s;
     ses_video_remb_last := ses_video_remb_last s; ses_video_bitrate := ses_video_bitrate s;
     ses_video_keyframe_interval := ses_video_keyframe_interval s;
     ses_video_keyframe_request_last := v; ses_video_fir_seq := ses_video_fir_seq s;
     ses_context := ses_context s; ses_ssrc := ses_ssrc s; ses_rid := ses_rid s;
     ses_rec_vssrc := ses_rec_vssrc s; ses_sim_context := ses_sim_context s;
     ses_vp8_context := ses_vp8_context s; ses_hangingup := ses_hangingup s;
     ses_destroyed := ses_destroyed s |}.

Definition set_video_fir_seq (v : Z) (s : janus_transcode_session)
  : janus_transcode_session :=
  {| ses_handle := ses_handle s; ses_sdp_sessid := ses_sdp_sessid s;
     ses_sdp_version := ses_sdp_version s; ses_active := ses_active s;
     ses_transcoder := ses_transcoder s; ses_firefox := ses_firefox s;
     ses_transcoding := ses_transcoding s; ses_arc := ses_arc s; ses_vrc := ses_vrc s;
     ses_pub := ses_pub s; ses_aframes := ses_aframes s; ses_vframes := ses_vframes s;
     ses_video_remb_startup := ses_video_remb_startup s;
     ses_video_remb_last := ses_video_remb_last s; ses_video_bitrate := ses_video_bitrate s;
     ses_video_keyframe_interval := ses_video_keyframe_interval s;
     ses_video_keyframe_request_last := ses_video_keyframe_request_last s;
     ses_video_fir_seq := v; ses_context := ses_context s; ses_ssrc := ses_ssrc s;
     ses_rid := ses_rid s; ses_rec_vssrc := ses_rec_vssrc s;
     ses_sim_context := ses_sim_context s; ses_vp8_context := ses_vp8_context s;
     ses_hangingup := ses_hangingup s; ses_destroyed := ses_destroyed s |}.

Definition set_context (v : janus_rtp_switching_context) (s : janus_transcode_session)
  : janus_transcode_session :=
  {| ses_handle := ses_handle s; ses_sdp_sessid := ses_sdp_sessid s;
     ses_sdp_version := ses_sdp_version s; ses_active := ses_active s;
     ses_transcoder := ses_transcoder s; ses_firefox := ses_firefox s;
     ses_transcoding := ses_transcoding s; ses_arc := ses_arc s; ses_vrc := ses_vrc s;
     ses_pub := ses_pub s; ses_aframes := ses_aframes s; ses_vframes := ses_vframes s;
     ses_video_remb_startup := ses_video_remb_startup s;
     ses_video_remb_last := ses_video_remb_last s; ses_video_bitrate := ses_video_bitrate s;
     ses_video_keyframe_interval := ses_video_keyframe_interval s;
     ses_video_keyframe_request_last := ses_video_keyframe_request_last s;
     ses_video_fir_seq := ses_video_fir_seq s; ses_context := v; ses_ssrc := ses_ssrc s;
     ses_rid := ses_rid s; ses_rec_vssrc := ses_rec_vssrc s;
     ses_sim_context := ses_sim_context s; ses_vp8_context := ses_vp8_context s;
     ses_hangingup := ses_hangingup s; ses_destroyed := ses_destroyed s |}.

Definition set_ssrc (v : list Z) (s : janus_transcode_session)
  : janus_transcode_session :=
  {| ses_handle := ses_handle s; ses_sdp_sessid := ses_sdp_sessid s;
     ses_sdp_version := ses_sdp_version s; ses_active := ses_active s;
     ses_transcoder := ses_transcoder s; ses_firefox := ses_firefox s;
     ses_transcoding := ses_transcoding s; ses_arc := ses_arc s; ses_vrc := ses_vrc s;
     ses_pub := ses_pub s; ses_aframes := ses_aframes s; ses_vframes := ses_vframes s;
     ses_video_remb_startup := ses_video_remb_startup s;
     ses_video_remb_last := ses_video_remb_last s; ses_video_bitrate := ses_video_bitrate s;
     ses_video_keyframe_interval := ses_video_keyframe_interval s;
     ses_video_keyframe_request_last := ses_video_keyframe_request_last s;
     ses_video_fir_seq := ses_video_fir_seq s; ses_context := ses_context s; ses_ssrc := v;
     ses_rid := ses_rid s; ses_rec_vssrc := ses_rec_vssrc s;
     ses_sim_context := ses_sim_context s; ses_vp8_context := ses_vp8_context s;
     ses_hangingup := ses_hangingup s; ses_destroyed := ses_destroyed s |}.

Definition set_rid (v : list (option string)) (s : janus_transcode_session)
  : janus_transcode_session :=
  {| ses_handle := ses_handle s; ses_sdp_sessid := ses_sdp_sessid s;
     ses_sdp_version := ses_sdp_version s; ses_active := ses_active s;
     ses_transcoder := ses_transcoder s; ses_firefox := ses_firefox s;
     ses_transcoding := ses_transcoding s; ses_arc := ses_arc s; ses_vrc := ses_vrc s;
     ses_pub := ses_pub s; ses_aframes := ses_aframes s; ses_vframes := ses_vframes s;
     ses_video_remb_startup := ses_video_remb_startup s;
     ses_video_remb_last := ses_video_remb_last s; ses_video_bitrate := ses_video_bitrate s;
     ses_video_keyframe_interval := ses_video_keyframe_interval s;
     ses_video_keyframe_request_last := ses_video_keyframe_request_last s;
     ses_video_fir_seq := ses_video_fir_seq s; ses_context := ses_context s;
     ses_ssrc := ses_ssrc s; ses_rid := v; ses_rec_vssrc := ses_rec_vssrc s;
     ses_sim_context := ses_sim_context s; ses_vp8_context := ses_vp8_context s;
     ses_hangingup := ses_hangingup s; ses_destroyed := ses_destroyed s |}.

Definition set_rec_vssrc (v : Z) (s : janus_transcode_session)
  : janus_transcode_session :=
  {| ses_handle := ses_handle s; ses_sdp_sessid := ses_sdp_sessid s;
     ses_sdp_version := ses_sdp_version s; ses_active := ses_active s;
     ses_transcoder := ses_transcoder s; ses_firefox := ses_firefox s;
     ses_transcoding := ses_transcoding s; ses_arc := ses_arc s; ses_vrc := ses_vrc s;
     ses_pub := ses_pub s; ses_aframes := ses_aframes s; ses_vframes := ses_vframes s;
     ses_video_remb_startup := ses_video_remb_startup s;
     ses_video_remb_last := ses_video_remb_last s; ses_video_bitrate := ses_video_bitrate s;
     ses_video_keyframe_interval := ses_video_keyframe_interval s;
     ses_video_keyframe_request_last := ses_video_keyframe_request_last s;
     ses_video_fir_seq := ses_video_fir_seq s; ses_context := ses_context s;
     ses_ssrc := ses_ssrc s; ses_rid := ses_rid s; ses_rec_vssrc := v;
     ses_sim_context := ses_sim_context s; ses_vp8_context := ses_vp8_context s;
     ses_hangingup := ses_hangingup s; ses_destroyed := ses_destroyed s |}.

Definition set_sim_context (v : janus_rtp_simulcasting_context simulcasting_rest) (s : janus_transcode_session)
  : janus_transcode_session :=
  {| ses_handle := ses_handle s; ses_sdp_sessid := ses_sdp_sessid s;
     ses_sdp_version := ses_sdp_version s; ses_active := ses_active s;
     ses_transcoder := ses_transcoder s; ses_firefox := ses_firefox s;
     ses_transcoding := ses_transcoding s; ses_arc := ses_arc s; ses_vrc := ses_vrc s;
     ses_pub := ses_pub s; ses_aframes := ses_aframes s; ses_vframes := ses_vframes s;
     ses_video_remb_startup := ses_video_remb_startup s;
     ses_video_remb_last := ses_video_remb_last s; ses_video_bitrate := ses_video_bitrate s;
     ses_video_keyframe_interval := ses_video_keyframe_interval s;
     ses_video_keyframe_request_last := ses_video_keyframe_request_last s;
     ses_video_fir_seq := ses_video_fir_seq s; ses_context := ses_context s;
     ses_ssrc := ses_ssrc s; ses_rid := ses_rid s; ses_rec_vssrc := ses_rec_vssrc s;
     ses_sim_context := v; ses_vp8_context := ses_vp8_context s;
     ses_hangingup := ses_hangingup s; ses_destroyed := ses_destroyed s |}.

Definition set_vp8_context (v : janus_vp8_simulcast_context) (s : janus_transcode_session)
  : janus_transcode_session :=
  {| ses_handle := ses_handle s; ses_sdp_sessid := ses_sdp_sessid s;
     ses_sdp_version := ses_sdp_version s; ses_active := ses_active s;
     ses_transcoder := ses_transcoder s; ses_firefox := ses_firefox s;
     ses_transcoding := ses_transcoding s; ses_arc := ses_arc s; ses_vrc := ses_vrc s;
     ses_pub := ses_pub s; ses_aframes := ses_aframes s; ses_vframes := ses_vframes s;
     ses_video_remb_startup := ses_video_remb_startup s;
     ses_video_remb_last := ses_video_remb_last s; ses_video_bitrate := ses_video_bitrate s;
     ses_video_keyframe_interval := ses_video_keyframe_interval s;
     ses_video_keyframe_request_last := ses_video_keyframe_request_last s;
     ses_video_fir_seq := ses_video_fir_seq s; ses_context := ses_context s;
     ses_ssrc := ses_ssrc s; ses_rid := ses_rid s; ses_rec_vssrc := ses_rec_vssrc s;
     ses_sim_context := ses_sim_context s; ses_vp8_context := v;
     ses_hangingup := ses_hangingup s; ses_destroyed := ses_destroyed s |}.

Definition set_hangingup (v : bool) (s : janus_transcode_session)
  : janus_transcode_session :=
  {| ses_handle := ses_handle s; ses_sdp_sessid := ses_sdp_sessid s;
     ses_sdp_version := ses_sdp_version s; ses_active := ses_active s;
     ses_transcoder := ses_transcoder s; ses_firefox := ses_firefox s;
     ses_transcoding := ses_transcoding s; ses_arc := ses_arc s; ses_vrc := ses_vrc s;
     ses_pub := ses_pub s; ses_aframes := ses_aframes s; ses_vframes := ses_vframes s;
     ses_video_remb_startup := ses_video_remb_startup s;
     ses_video_remb_last := ses_video_remb_last s; ses_video_bitrate := ses_video_bitrate s;
     ses_video_keyframe_interval := ses_video_keyframe_interval s;
     ses_video_keyframe_request_last := ses_video_keyframe_request_last s;
     ses_video_fir_seq := ses_video_fir_seq s; ses_context := ses_context s;
     ses_ssrc := ses_ssrc s; ses_rid := ses_rid s; ses_rec_vssrc := ses_rec_vssrc s;
     ses_sim_context := ses_sim_context s; ses_vp8_context := ses_vp8_context s;
     ses_hangingup := v; ses_destroyed := ses_destroyed s |}.

(** Assignments to single fields of an entry. *)

Definition set_rec_offer (v : option string) (r : janus_transcode_transcoding)
  : janus_transcode_transcoding :=
  {| rec_id := rec_id r; rec_name := rec_name r; rec_date := rec_date r;
     rec_arc_file := rec_arc_file r; rec_acodec := rec_acodec r;
     rec_audio_pt := rec_audio_pt r; rec_vrc_file := rec_vrc_file r;
     rec_vcodec := rec_vcodec r; rec_video_pt := rec_video_pt r; rec_offer := v;
     rec_viewers := rec_viewers r; rec_completed := rec_completed r;
     rec_destroyed := rec_destroyed r; rec_ref := rec_ref r |}.

Definition set_rec_viewers (v : list Z) (r : janus_transcode_transcoding)
  : janus_transcode_transcoding :=
  {| rec_id := rec_id r; rec_name := rec_name r; rec_date := rec_date r;
     rec_arc_file := rec_arc_file r; rec_acodec := rec_acodec r;
     rec_audio_pt := rec_audio_pt r; rec_vrc_file := rec_vrc_file r;
     rec_vcodec := rec_vcodec r; rec_video_pt := rec_video_pt r; rec_offer := rec_offer r;
     rec_viewers := v; rec_completed := rec_completed r; rec_destroyed := rec_destroyed r;
     rec_ref := rec_ref r |}.

Definition set_rec_completed (v : bool) (r : janus_transcode_transcoding)
  : janus_transcode_transcoding :=
  {| rec_id := rec_id r; rec_name := rec_name r; rec_date := rec_date r;
     rec_arc_file := rec_arc_file r; rec_acodec := rec_acodec r;
     rec_audio_pt := rec_audio_pt r; rec_vrc_file := rec_vrc_file r;
     rec_vcodec := rec_vcodec r; rec_video_pt := rec_video_pt r; rec_offer := rec_offer r;
     rec_viewers := rec_viewers r; rec_completed := v; rec_destroyed := rec_destroyed r;
     rec_ref := rec_ref r |}.

Definition set_rec_destroyed (v : bool) (r : janus_transcode_transcoding)
  : janus_transcode_transcoding :=
  {| rec_id := rec_id r; rec_name := rec_name r; rec_date := rec_date r;
     rec_arc_file := rec_arc_file r; rec_acodec := rec_acodec r;
     rec_audio_pt := rec_audio_pt r; rec_vrc_file := rec_vrc_file r;
     rec_vcodec := rec_vcodec r; rec_video_pt := rec_video_pt r; rec_offer := rec_offer r;
     rec_viewers := rec_viewers r; rec_completed := rec_completed r;
     rec_destroyed := v; rec_ref := rec_ref r |}.

Definition set_rec_ref (v : Z) (r : janus_transcode_transcoding)
  : janus_transcode_transcoding :=
  {| rec_id := rec_id r; rec_name := rec_name r; rec_date := rec_date r;
     rec_arc_file := rec_arc_file r; rec_acodec := rec_acodec r;
     rec_audio_pt := rec_audio_pt r; rec_vrc_file := rec_vrc_file r;
     rec_vcodec := rec_vcodec r; rec_video_pt := rec_video_pt r; rec_offer := rec_offer r;
     rec_viewers := rec_viewers r; rec_completed := rec_completed r;
     rec_destroyed := rec_destroyed r; rec_ref := v |}.

(** Assignments to the globals. *)

Definition set_catalog (v : gmap Z nat) (pl : plugin) : plugin :=
  {| initialized := initialized pl; stopping := stopping pl;
     notify_events := notify_events pl; transcoding_path := transcoding_path pl;
     rtmp_path := rtmp_path pl; sessions := sessions pl; plugin_handle := plugin_handle pl;
     recs := recs pl; transcoding := v; messages := messages pl; files := files pl;
     next_object := next_object pl; trace := trace pl |}.

Definition set_messages (v : list janus_transcode_message) (pl : plugin) : plugin :=
  {| initialized := initialized pl; stopping := stopping pl;
     notify_events := notify_events pl; transcoding_path := transcoding_path pl;
     rtmp_path := rtmp_path pl; sessions := sessions pl; plugin_handle := plugin_handle pl;
     recs := recs pl; transcoding := transcoding pl; messages := v; files := files pl;
     next_object := next_object pl; trace := trace pl |}.

Definition set_files (v : gmap string (list Z)) (pl : plugin) : plugin :=
  {| initialized := initialized pl; stopping := stopping pl;
     notify_events := notify_events pl; transcoding_path := transcoding_path pl;
     rtmp_path := rtmp_path pl; sessions := sessions pl; plugin_handle := plugin_handle pl;
     recs := recs pl; transcoding := transcoding pl; messages := messages pl; files := v;
     next_object := next_object pl; trace := trace pl |}.

Definition set_next_object (v : nat) (pl : plugin) : plugin :=
  {| initialized := initialized pl; stopping := stopping pl;
     notify_events := notify_events pl; transcoding_path := transcoding_path pl;
     rtmp_path := rtmp_path pl; sessions := sessions pl; plugin_handle := plugin_handle pl;
     recs := recs pl; transcoding := transcoding pl; messages := messages pl;
     files := files pl; next_object := v; trace := trace pl |}.

Inductive janus_plugin_result_type : Type :=
| JANUS_PLUGIN_ERROR
| JANUS_PLUGIN_OK
| JANUS_PLUGIN_OK_WAIT.

Record janus_plugin_result : Type := mk_result {
  pr_type : janus_plugin_result_type;
  pr_text : option string;
  pr_content : option json
}.

(** What a call comes to: it returns; it has no defined result, because
    it dereferences NULL or a parser writes past the end of its buffer; or
    the search for a free id has used up the random numbers it was given. *)
Inductive run (A : Type) : Type :=
| Done (a : A)
| Crash
| NoFreeId.
Arguments Done {A} a.
Arguments Crash {A}.
Arguments NoFreeId {A}.

Definition error_event (error_code : Z) (error_cause : string) : json :=
  let event := json_object in
  let event := json_object_set_new event "transcode" (JString "event") in
  let event := json_object_set_new event "error_code" (JInteger error_code) in
  json_object_set_new event "error" (JString error_cause).

(** The label [plugin_response] of [janus_transcode_handle_message]. *)
Definition plugin_response (error_code : Z) (error_cause : string)
    (response : option json) : janus_plugin_result :=
  let '(error_code, error_cause) :=
    if (error_code =? 0) && negb (bool_decide (is_Some response))
    then (JANUS_TRANSCODE_ERROR_UNKNOWN_ERROR, "Invalid response"%string)
    else (error_code, error_cause) in
  let response :=
    if negb (error_code =? 0) then Some (error_event error_code error_cause)
    else response in
  {| pr_type := JANUS_PLUGIN_OK; pr_text := None; pr_content := response |}.

Definition crlf : string :=
  String (Ascii.ascii_of_nat 13) (String (Ascii.ascii_of_nat 10) EmptyString).

(** [%s] of a pointer that may be NULL. *)
Definition str_or_null (s : option string) : string :=
  match s with Some s => s | None => "(null)" end.

Fixpoint bytes_of_string (s : string) : list Z :=
  match s with
  | EmptyString => []
  | String c rest => Z.of_nat (Ascii.nat_of_ascii c) :: bytes_of_string rest
  end.

(** Lines 1340-1365: the text of the .nfo file. *)
Definition nfo_text (rec : janus_transcode_transcoding) : string :=
  let head :=
    "[" +:+ u64_text (rec_id rec) +:+ "]" +:+ crlf
    +:+ "name = " +:+ str_or_null (rec_name rec) +:+ crlf
    +:+ "date = " +:+ rec_date rec +:+ crlf in
  match rec_arc_file rec, rec_vrc_file rec with
  | Some arc_file, Some vrc_file =>
      snprintf 1024 (head +:+ "audio = " +:+ arc_file +:+ ".mjr" +:+ crlf
                     +:+ "video = " +:+ vrc_file +:+ ".mjr" +:+ crlf)
  | Some arc_file, None =>
      snprintf 1024 (head +:+ "audio = " +:+ arc_file +:+ ".mjr" +:+ crlf)
  | None, Some vrc_file =>
      snprintf 1024 (head +:+ "video = " +:+ vrc_file +:+ ".mjr" +:+ crlf)
  | None, None => ""
  end.

(** [janus_transcode_generate_offer] *)
Definition janus_transcode_generate_offer (rec : janus_transcode_transcoding)
  : janus_transcode_transcoding :=
  let offer_audio :=
    bool_decide (is_Some (rec_arc_file rec))
    && negb (audiocodec_eqb (rec_acodec rec) JANUS_AUDIOCODEC_NONE) in
  let offer_video :=
    bool_decide (is_Some (rec_vrc_file rec))
    && negb (videocodec_eqb (rec_vcodec rec) JANUS_VIDEOCODEC_NONE) in
  let s_name := snprintf 100 ("Transcoding " +:+ u64_text (rec_id rec)) in
  set_rec_offer
    (Some (janus_sdp_offer s_name
             offer_audio (janus_audiocodec_name (rec_acodec rec)) (rec_audio_pt rec)
             offer_video (janus_videocodec_name (rec_vcodec rec)) (rec_video_pt rec)))
    rec.

Definition audio_pt_of (acodec : janus_audiocodec) : Z :=
  match acodec with
  | JANUS_AUDIOCODEC_PCMU => 0
  | JANUS_AUDIOCODEC_PCMA => 8
  | JANUS_AUDIOCODEC_G722 => 9
  | _ => AUDIO_PT
  end.

(** [janus_transcode_transcoding_destroy], the function the catalog calls
    on a value it drops: the compare-and-exchange on [destroyed]. *)
Definition janus_transcode_transcoding_destroy (rec : janus_transcode_transcoding)
  : janus_transcode_transcoding :=
  if rec_destroyed rec then rec
  else set_rec_ref (rec_ref rec - 1) (set_rec_destroyed true rec).

(** Lines 1896-1900: a name of at least four characters that ends in
    [.nfo], in any case. *)
Definition is_nfo (d_name : string) : bool :=
  let len := String.length d_name in
  (4 <=? len)%nat && strcaseeq (String.substring (len - 4) 4 d_name) ".nfo".

(** [ext = strstr(s, needle); if(ext != NULL) *ext = '\0'] *)
Fixpoint cut_at (needle s : string) : string :=
  if String.prefix needle s then EmptyString
  else
    match s with
    | EmptyString => EmptyString
    | String c rest => String c (cut_at needle rest)
    end.

(** [g_list_remove]: the first node that holds the pointer goes. *)
Fixpoint list_remove (a : nat) (l : list nat) : list nat :=
  match l with
  | [] => []
  | x :: rest => if (x =? a)%nat then rest else x :: list_remove a rest
  end.

(** The value the catalog holds for an id, if it is not NULL. *)
Definition catalog_lookup (pl : plugin) (id : Z)
  : option (nat * janus_transcode_transcoding) :=
  match transcoding pl !! id with
  | Some a =>
      match recs pl !! a with
      | Some rec => Some (a, rec)
      | None => None
      end
  | None => None
  end.

(** Lines 1874-1885: one step of the walk over the catalog that collects
    [old_transcoding], a list of pointers into the entries. *)
Definition note_old (st : plugin * list nat) (entry : Z * nat) : plugin * list nat :=
  match recs st.1 !! entry.2 with
  | None => st
  | Some rec =>
      (set_rec entry.2 (set_rec_ref (rec_ref rec + 1) rec) st.1, st.2 ++ [entry.2])
  end.

(** The value of an item that is there and has one. *)
Definition item_value (item : option (option string)) : option string :=
  match item with
  | Some (Some v) => Some v
  | _ => None
  end.

(** Lines 1957-1964: the codec of a capture file; nothing when the pre-parser
    went beyond its buffer. *)
Definition file_codec (pl : plugin) (file : string) : option (option string) :=
  match Codec.janus_transcode_parse_codec json_loads janus_sdp_match_preferred_codec
          (files pl) (Some (transcoding_path pl)) (Some file) with
  | Codec.CodecName name => Some (Some name)
  | Codec.NoCodec => Some None
  | Codec.CodecUndefined => None
  end.

(** Lines 1895-1995: one round of the [readdir] loop. *)
Definition import_nfo (pl : plugin) (old : list nat) (d_name : string)
  : run (plugin * list nat) :=
  if negb (is_nfo d_name) then Done (pl, old)
  else
    let recpath := snprintf 1024 (transcoding_path pl +:+ "/" +:+ d_name) in
    match janus_config_parse (files pl !! recpath) with
    | None => Done (pl, old)
    | Some nfo =>
        match janus_config_first_category nfo with
        | None => Done (pl, old)
        | Some cat_name =>
            let id := wrap64 (g_ascii_strtoull cat_name) in
            if id =? 0 then Done (pl, old)
            else
              match catalog_lookup pl id with
              | Some (a, rec) =>
                  (* Mark that we updated this transcoding *)
                  Done (set_rec a (set_rec_ref (rec_ref rec - 1) rec) pl,
                        list_remove a old)
              | None =>
                  let name := janus_config_get_item nfo "name" in
                  let date := janus_config_get_item nfo "date" in
                  let audio := item_value (janus_config_get_item nfo "audio") in
                  let video := item_value (janus_config_get_item nfo "video") in
                  match item_value name, item_value date with
                  | Some name, Some date =>
                      if (String.length name =? 0)%nat || (String.length date =? 0)%nat
                      then Done (pl, old)
                      else
                        match audio, video with
                        | None, None => Done (pl, old)
                        | _, _ =>
                            let arc_file := cut_at ".mjr" <$> audio in
                            let vrc_file := cut_at ".mjr" <$> video in
                            match from_option (file_codec pl) (Some None) arc_file,
                                  from_option (file_codec pl) (Some None) vrc_file with
                            | Some acodec, Some vcodec =>
                                let acodec :=
                                  match arc_file with
                                  | Some _ => janus_audiocodec_from_name acodec
                                  | None => JANUS_AUDIOCODEC_NONE
                                  end in
                                let vcodec :=
                                  match vrc_file with
                                  | Some _ => janus_videocodec_from_name vcodec
                                  | None => JANUS_VIDEOCODEC_NONE
                                  end in
                                let rec :=
                                  {| rec_id := id; rec_name := Some name; rec_date := date;
                                     rec_arc_file := arc_file; rec_acodec := acodec;
                                     rec_audio_pt := audio_pt_of acodec;
                                     rec_vrc_file := vrc_file; rec_vcodec := vcodec;
                                     rec_video_pt := VIDEO_PT; rec_offer := None;
                                     rec_viewers := []; rec_completed := false;
                                     rec_destroyed := false; rec_ref := 1 |} in
                                let rec := janus_transcode_generate_offer rec in
                                let rec := set_rec_completed true rec in
                                (* Add to the list of transcoding *)
                                let a := next_object pl in
                                let pl := set_next_object (S a) pl in
                                Done (set_catalog (<[id := a]> (transcoding pl))
                                        (set_rec a rec pl),
                                      old)
                            | _, _ => Crash
                            end
                        end
                  | _, _ => Done (pl, old)
                  end
              end
        end
    end.

Fixpoint import_all (names : list string) (pl : plugin) (old : list nat)
  : run (plugin * list nat) :=
  match names with
  | [] => Done (pl, old)
  | d_name :: rest =>
      match import_nfo pl old d_name with
      | Done (pl, old) => import_all rest pl old
      | other => other
      end
  end.

(** Lines 1998-2008: an entry that was there before the scan and whose file
    was not met is taken out of the catalog; [old] points to its id. *)
Definition forget_old (pl : plugin) (old : nat) : plugin :=
  match recs pl !! old with
  | None => pl
  | Some pointed =>
      let id := rec_id pointed in
      match catalog_lookup pl id with
      | None => pl
      | Some (a, old_rec) =>
          (* Remove it *)
          let pl := set_catalog (delete id (transcoding pl)) pl in
          let old_rec := janus_transcode_transcoding_destroy old_rec in
          set_rec a (set_rec_ref (rec_ref old_rec - 1) old_rec) pl
      end
  end.

(** [janus_transcode_update_transcoding_list]; [transcoding_path] is not
    NULL once the plugin is initialized. *)
Definition janus_transcode_update_transcoding_list (pl : plugin) : run plugin :=
  let '(pl, old) := foldl note_old (pl, []) (map_to_list (transcoding pl)) in
  match readdir (files pl) (transcoding_path pl) with
  | None => Done pl
  | Some names =>
      match import_all names pl old with
      | Done (pl, old) => Done (foldl forget_old pl old)
      | Crash => Crash
      | NoFreeId => NoFreeId
      end
  end.

(** Lines 974-985: the object that describes one transcoding. *)
Definition list_entry (rec : janus_transcode_transcoding) : json :=
  let ml := json_object in
  let ml := json_object_set_new ml "id" (JInteger (to_int64 (rec_id rec))) in
  let ml :=
    match rec_name rec with
    | Some n => json_object_set_new ml "name" (JString n)
    | None => ml
    end in
  let ml := json_object_set_new ml "date" (JString (rec_date rec)) in
  let ml := json_object_set_new ml "audio"
              (json_bool (bool_decide (is_Some (rec_arc_file rec)))) in
  let ml :=
    match rec_acodec rec, janus_audiocodec_name (rec_acodec rec) with
    | JANUS_AUDIOCODEC_NONE, _ | _, None => ml
    | _, Some n => json_object_set_new ml "audio_codec" (JString n)
    end in
  let ml := json_object_set_new ml "video"
              (json_bool (bool_decide (is_Some (rec_vrc_file rec)))) in
  match rec_vcodec rec, janus_videocodec_name (rec_vcodec rec) with
  | JANUS_VIDEOCODEC_NONE, _ | _, None => ml
  | _, Some n => json_object_set_new ml "video_codec" (JString n)
  end.

(** Lines 968-986: one step of the iteration over the catalog. *)
Definition list_step (pl : plugin) (list : json) (entry : Z * nat) : json :=
  match recs pl !! entry.2 with
  | None => list
  | Some rec =>
      if negb (rec_completed rec) then list
      else json_array_append_new list (list_entry rec)
  end.

Definition list_transcodings (pl : plugin) : json :=
  foldl (list_step pl) json_array (map_to_list (transcoding pl)).

(** [janus_transcode_handle_message] *)
Definition janus_transcode_handle_message (pl : plugin) (handle : Z)
    (transaction : option string) (message jsep : option json)
  : run (plugin * janus_plugin_result) :=
  if stopping pl || negb (initialized pl) then
    Done (pl, {| pr_type := JANUS_PLUGIN_ERROR;
                 pr_text := Some (if stopping pl then "Shutting down"
                                  else "Plugin not initialized")%string;
                 pr_content := None |})
  else
    match janus_transcode_lookup_session pl handle with
    | None =>
        Done (pl, plugin_response JANUS_TRANSCODE_ERROR_UNKNOWN_ERROR
                    "No session associated with this handle..." None)
    | Some session =>
        if ses_destroyed session then
          Done (pl, plugin_response JANUS_TRANSCODE_ERROR_UNKNOWN_ERROR
                      "Session has already been destroyed..." None)
        else
          match message with
          | None =>
              Done (pl, plugin_response JANUS_TRANSCODE_ERROR_NO_MESSAGE
                          "No message??" None)
          | Some root =>
              if negb (json_is_object root) then
                Done (pl, plugin_response JANUS_TRANSCODE_ERROR_INVALID_JSON
                            "JSON error: not an object" None)
              else
                match janus_validate_json_object root request_parameters
                        JANUS_TRANSCODE_ERROR_MISSING_ELEMENT
                        JANUS_TRANSCODE_ERROR_INVALID_ELEMENT with
                | Some (error_code, error_cause) =>
                    Done (pl, plugin_response error_code error_cause None)
                | None =>
                    match json_string_value (json_object_get message "request") with
                    | None => Crash
                    | Some request_text =>
                        if strcaseeq request_text "update" then
                          (* Update list of available transcoding, scanning the
                             folder again *)
                          match janus_transcode_update_transcoding_list pl with
                          | Done pl =>
                              let response :=
                                json_object_set_new json_object "transcode"
                                  (JString "ok") in
                              Done (pl, plugin_response 0 "" (Some response))
                          | Crash => Crash
                          | NoFreeId => NoFreeId
                          end
                        else if strcaseeq request_text "list" then
                          let list := list_transcodings pl in
                          let response :=
                            json_object_set_new json_object "transcode" (JString "list") in
                          let response := json_object_set_new response "list" list in
                          Done (pl, plugin_response 0 "" (Some response))
                        else if strcaseeq request_text "configure" then
                          match janus_validate_json_object root configure_parameters
                                  JANUS_TRANSCODE_ERROR_MISSING_ELEMENT
                                  JANUS_TRANSCODE_ERROR_INVALID_ELEMENT with
                          | Some (error_code, error_cause) =>
                              Done (pl, plugin_response error_code error_cause None)
                          | None =>
                              let video_bitrate_max :=
                                json_object_get message "video-bitrate-max" in
                              let session :=
                                match video_bitrate_max with
                                | Some _ =>
                                    set_video_bitrate
                                      (wrap32 (json_integer_value video_bitrate_max))
                                      session
                                | None => session
                                end in
                              let video_keyframe_interval :=
                                json_object_get message "video-keyframe-interval" in
                              let session :=
                                match video_keyframe_interval with
                                | Some _ =>
                                    let session :=
                                      set_video_keyframe_interval
                                        (wrap32 (json_integer_value video_keyframe_interval))
                                        session in
                                    set_video_keyframe_interval 1000 session
                                | None => session
                                end in
                              let response :=
                                json_object_set_new json_object "transcode"
                                  (JString "configure") in
                              let response :=
                                json_object_set_new response "status" (JString "ok") in
                              let settings :=
                                json_object_set_new json_object "video-keyframe-interval"
                                  (JInteger (ses_video_keyframe_interval session)) in
                              let settings :=
                                json_object_set_new settings "video-bitrate-max"
                                  (JInteger (ses_video_bitrate session)) in
                              let response :=
                                json_object_set_new response "settings" settings in
                              Done (set_session handle session pl,
                                    plugin_response 0 "" (Some response))
                          end
                        else if strcaseeq request_text "transcode"
                                || strcaseeq request_text "play"
                                || strcaseeq request_text "start"
                                || strcaseeq request_text "stop" then
                          let msg :=
                            {| msg_handle := Some handle; msg_transaction := transaction;
                               msg_message := message; msg_jsep := jsep |} in
                          Done (set_messages (messages pl ++ [msg]) pl,
                                {| pr_type := JANUS_PLUGIN_OK_WAIT; pr_text := None;
                                   pr_content := None |})
                        else
                          Done (pl, plugin_response JANUS_TRANSCODE_ERROR_INVALID_REQUEST
                                      (snprintf 512
                                         ("Unknown request '" +:+ request_text +:+ "'"))
                                      None)
                    end
                end
          end
    end.

(** [janus_transcode_send_rtcp_feedback], on the session of the handle;
    [now] is the monotonic time it reads. *)
Definition janus_transcode_send_rtcp_feedback (now : Z) (handle : Z) (video : Z)
    (session : janus_transcode_session) : janus_transcode_session * list effect :=
  if negb (video =? 1) then (session, [])
  else
    let elapsed := now - ses_video_remb_last session in
    let remb_rampup := ses_video_remb_startup session >? 0 in
    let '(session, sent) :=
      if remb_rampup || (elapsed >=? 5 * G_USEC_PER_SEC) then
        let bitrate := ses_video_bitrate session in
        let '(bitrate, session) :=
          if remb_rampup
          then (bitrate / ses_video_remb_startup session,
                set_video_remb_startup
                  (wrap32 (ses_video_remb_startup session - 1)) session)
          else (bitrate, session) in
        (set_video_remb_last now session, [RelayRtcp handle video (Remb bitrate)])
      else (session, []) in
    let elapsed := to_int64 (wrap64 (now - ses_video_keyframe_request_last session)) in
    let interval := (ses_video_keyframe_interval session / 1000) * G_USEC_PER_SEC in
    if elapsed >=? interval then
      let session :=
        set_video_fir_seq (janus_rtcp_fir_seq (ses_video_fir_seq session)) session in
      (set_video_keyframe_request_last (wrap64 now) session,
       sent ++ [RelayRtcp handle video Fir; RelayRtcp handle video Pli])
    else (session, sent).

(** The fields of [janus_rtp_header] the plugin touches, as they lie in
    the packet: [seq_number] at byte 2, [timestamp] at 4, [ssrc] at 8. *)
Definition header_seq_number (buf : list Z) : Z :=
  load16 (byte_at buf 2) (byte_at buf 3).
Definition header_timestamp (buf : list Z) : Z :=
  load32 (byte_at buf 4) (byte_at buf 5) (byte_at buf 6) (byte_at buf 7).
Definition header_ssrc (buf : list Z) : Z :=
  load32 (byte_at buf 8) (byte_at buf 9) (byte_at buf 10) (byte_at buf 11).
Definition set_header_seq_number (v : Z) (buf : list Z) : list Z :=
  poke_all 2 (bytes16 v) buf.
Definition set_header_timestamp (v : Z) (buf : list Z) : list Z :=
  poke_all 4 (bytes32 v) buf.
Definition set_header_ssrc (v : Z) (buf : list Z) : list Z :=
  poke_all 8 (bytes32 v) buf.

Definition simulcasting (session : janus_transcode_session) : bool :=
  negb (default 0 (ses_ssrc session !! 0%nat) =? 0)
  || bool_decide (is_Some (default None (ses_rid session !! 0%nat))).

(** [janus_transcode_incoming_rtp]: the state after the call and the
    packet as the core finds it when the call returns.  [handle] is
    [None] for a NULL handle; [video] is the C [int]. *)
Definition janus_transcode_incoming_rtp (env : environment) (pl : plugin)
    (handle : option Z) (video : Z) (buf : list Z) : run (plugin * list Z) :=
  match handle with
  | None => Done (pl, buf)
  | Some handle =>
      if env_handle_stopped env || stopping pl || negb (initialized pl)
      then Done (pl, buf)
      else
        match plugin_handle pl !! handle with
        | None => Done (pl, buf)
        | Some session =>
            if ses_destroyed session then Done (pl, buf)
            else if negb (ses_transcoder session) then Done (pl, buf)
            else
              match ses_transcoding session with
              | None => Done (pl, buf)
              | Some a =>
                  if negb (video =? 0) && simulcasting session then
                    match recs pl !! a with
                    | None => Crash
                    | Some rec =>
                        (* Handle simulcast: backup the header information first *)
                        let seq_number := ntohs (header_seq_number buf) in
                        let timestamp := ntohl (header_timestamp buf) in
                        let ssrc := ntohl (header_ssrc buf) in
                        let '(save, sim, context) :=
                          janus_rtp_simulcasting_context_process_rtp
                            (ses_sim_context session) buf (ses_ssrc session)
                            (ses_rid session) (rec_vcodec rec) (ses_context session) in
                        let session := set_context context (set_sim_context sim session) in
                        let pl := set_session handle session pl in
                        let pl :=
                          if need_pli sim then emit (RelayRtcp handle 1 Pli) pl else pl in
                        if negb save then Done (pl, buf)
                        else
                          let '(header, context) :=
                            janus_rtp_header_update (take 12 buf) context true 0 in
                          let buf := poke_all 0 (take 12 header) buf in
                          let session := set_context context session in
                          let '(buf, session) :=
                            if videocodec_eqb (rec_vcodec rec) JANUS_VIDEOCODEC_VP8 then
                              match janus_rtp_payload buf with
                              | Some at_ =>
                                  let '(payload, vp8) :=
                                    janus_vp8_simulcast_descriptor_update
                                      (drop at_ buf) (ses_vp8_context session)
                                      (changed_substream sim) in
                                  (poke_all at_ payload buf, set_vp8_context vp8 session)
                              | None =>
                                  let '(_, vp8) :=
                                    janus_vp8_simulcast_descriptor_update
                                      [] (ses_vp8_context session)
                                      (changed_substream sim) in
                                  (buf, set_vp8_context vp8 session)
                              end
                            else (buf, session) in
                          let session :=
                            if ses_rec_vssrc session =? 0
                            then set_rec_vssrc (env_random_int env) session
                            else session in
                          let buf := set_header_ssrc (htonl (ses_rec_vssrc session)) buf in
                          let pl := emit (TranscoderSaveFrame (ses_vrc session) buf) pl in
                          (* Restore header or core statistics will be messed up *)
                          let buf := set_header_ssrc (htonl ssrc) buf in
                          let pl := emit (PubSaveFrame (ses_pub session) buf true 1) pl in
                          let buf := set_header_timestamp (htonl timestamp) buf in
                          let buf := set_header_seq_number (htons (wrap16 seq_number)) buf in
                          let '(session, sent) :=
                            janus_transcode_send_rtcp_feedback
                              (env_monotonic_time env) handle video session in
                          let pl := set_session handle session pl in
                          Done (foldl (fun pl e => emit e pl) pl sent, buf)
                    end
                  else
                    let pl :=
                      emit (TranscoderSaveFrame
                              (if negb (video =? 0) then ses_vrc session
                               else ses_arc session) buf) pl in
                    let pl :=
                      emit (PubSaveFrame (ses_pub session) buf (negb (video =? 0)) 1) pl in
                    let '(session, sent) :=
                      janus_transcode_send_rtcp_feedback
                        (env_monotonic_time env) handle video session in
                    let pl := set_session handle session pl in
                    Done (foldl (fun pl e => emit e pl) pl sent, buf)
              end
        end
  end.

(** Lines 1307-1327: closing a writer or the sink, if there is one. *)
Definition close_transcoder (rc : option nat) (pl : plugin) : plugin :=
  match rc with
  | Some rc => emit (TranscoderDestroy rc) (emit (TranscoderClose rc) pl)
  | None => pl
  end.
Definition close_pub (pub : option nat) (pl : plugin) : plugin :=
  match pub with
  | Some pub => emit (PubDestroy pub) (emit (PubClose pub) pl)
  | None => pl
  end.

Definition done_event : json :=
  let event := json_object in
  let event := json_object_set_new event "transcode" (JString "event") in
  json_object_set_new event "result" (JString "done").

(** [janus_transcode_hangup_media_internal] *)
Definition janus_transcode_hangup_media_internal (env : environment)
    (pl : plugin) (handle : Z) : run plugin :=
  if stopping pl || negb (initialized pl) then Done pl
  else
    match janus_transcode_lookup_session pl handle with
    | None => Done pl
    | Some session =>
        let session := set_active false session in
        if ses_destroyed session then Done (set_session handle session pl)
        else if ses_hangingup session then Done (set_session handle session pl)
        else
          let session := set_hangingup true session in
          let session :=
            set_vp8_context janus_vp8_simulcast_context_reset
              (set_sim_context janus_rtp_simulcasting_context_reset
                 (set_context janus_rtp_switching_context_reset session)) in
          (* Send an event to the browser and tell it's over *)
          let pl := emit (PushEvent handle None done_event None) pl in
          let session := set_active false session in
          let pl := close_transcoder (ses_arc session) pl in
          let session := set_arc None session in
          let pl := close_transcoder (ses_vrc session) pl in
          let session := set_vrc None session in
          let pl := close_pub (ses_pub session) pl in
          let session := set_pub None session in
          let after_nfo : run plugin :=
            if ses_transcoder session then
              match ses_transcoding session with
              | Some a =>
                  match recs pl !! a with
                  | None => Crash
                  | Some rec =>
                      (* Create a .nfo file for this transcoding *)
                      let nfofile :=
                        snprintf 1024 (transcoding_path pl +:+ "/"
                                       +:+ u64_text (rec_id rec) +:+ ".nfo") in
                      if negb (env_fopen_ok env) then Done pl
                      else
                        let pl :=
                          set_files (<[nfofile := bytes_of_string (nfo_text rec)]>
                                       (files pl)) pl in
                        let rec := set_rec_completed true rec in
                        Done (set_rec a (janus_transcode_generate_offer rec) pl)
                  end
              | None => Done pl
              end
            else Done pl in
          match after_nfo with
          | Done pl =>
              let released : run plugin :=
                match ses_transcoding session with
                | Some a =>
                    match recs pl !! a with
                    | None => Crash
                    | Some rec => Done (set_rec a (set_rec_ref (rec_ref rec - 1) rec) pl)
                    end
                | None => Done pl
                end in
              match released with
              | Done pl =>
                  let session := set_transcoding None session in
                  let session := set_ssrc [0; 0; 0] session in
                  let session := set_rid [None; None; None] session in
                  let session := set_hangingup false session in
                  Done (set_session handle session pl)
              | other => other
              end
          | other => other
          end
    end.

(** [janus_transcode_hangup_media] *)
Definition janus_transcode_hangup_media (env : environment) (pl : plugin)
    (handle : Z) : run plugin :=
  janus_transcode_hangup_media_internal env pl handle.

(** How a branch of the handler thread ends: at the common tail that
    pushes the event (with the SDP, if one was prepared), or at the label
    [error]. *)
Inductive branch : Type :=
| Finish (pl : plugin) (result : json) (sdp : option string) (sdp_update : bool)
| Error (pl : plugin) (error_code : Z) (error_cause : string).

(** Lines 1518-1526: the loop that draws a random id until one is free. *)
Fixpoint random_id (draws : list Z) (catalog : gmap Z nat) : option Z :=
  match draws with
  | [] => None
  | id :: draws' =>
      if (id =? 0) || bool_decide (is_Some (catalog !! id))
      then random_id draws' catalog
      else Some id
  end.

Definition media_filename (filename_text : option string) (id : Z)
    (medium : string) : string :=
  match filename_text with
  | Some f => snprintf 256 (f +:+ "-" +:+ medium)
  | None => snprintf 256 ("rec-" +:+ u64_text id +:+ "-" +:+ medium)
  end.

(** Lines 1527-1607: a new transcoding with the id [id]. *)
Definition new_transcoding (env : environment) (pl : plugin) (handle : Z)
    (session : janus_transcode_session) (offer : janus_sdp) (id : Z)
    (name_text filename_text : option string)
  : plugin * janus_transcode_session * janus_transcode_transcoding * bool * bool :=
  (* Check which codec we should transcode for audio and/or video *)
  let '(acodec, vcodec) := janus_sdp_find_preferred_codecs offer in
  let vcodec := Some "h264"%string in
  let audio_codec := janus_audiocodec_from_name acodec in
  let video_codec := janus_videocodec_from_name vcodec in
  (* We found preferred codecs: let's just make sure the direction is what we need *)
  let audio_codec :=
    if is_recvonly (janus_sdp_mline_find offer false)
    then JANUS_AUDIOCODEC_NONE else audio_codec in
  let audio := negb (audiocodec_eqb audio_codec JANUS_AUDIOCODEC_NONE) in
  let video_codec :=
    if is_recvonly (janus_sdp_mline_find offer true)
    then JANUS_VIDEOCODEC_NONE else video_codec in
  let video := negb (videocodec_eqb video_codec JANUS_VIDEOCODEC_NONE) in
  let arc_file := if audio then Some (media_filename filename_text id "audio") else None in
  let vrc_file := if video then Some (media_filename filename_text id "video") else None in
  let rec :=
    {| rec_id := id; rec_name := name_text; rec_date := env_date env;
       rec_arc_file := arc_file; rec_acodec := audio_codec;
       rec_audio_pt := audio_pt_of audio_codec;
       rec_vrc_file := vrc_file; rec_vcodec := video_codec;
       rec_video_pt := VIDEO_PT; rec_offer := None; rec_viewers := [];
       rec_completed := false; rec_destroyed := false; rec_ref := 2 |} in
  let a := next_object pl in
  let pl := set_next_object (S a) pl in
  let '(pl, session) :=
    match arc_file with
    | Some f =>
        let w := next_object pl in
        let arc := if env_arc_created env then Some w else None in
        (emit (TranscoderCreate arc (transcoding_path pl)
                 (janus_audiocodec_name audio_codec) f)
           (set_next_object (S w) pl),
         set_arc arc session)
    | None => (pl, session)
    end in
  let '(pl, session) :=
    match vrc_file with
    | Some f =>
        let w := next_object pl in
        let vrc := if env_vrc_created env then Some w else None in
        (emit (TranscoderCreate vrc (transcoding_path pl)
                 (janus_videocodec_name video_codec) f)
           (set_next_object (S w) pl),
         set_vrc vrc session)
    | None => (pl, session)
    end in
  let rtmpurl := snprintf 1024 (rtmp_path pl +:+ "/" +:+ u64_text id) in
  let p := next_object pl in
  let pub := if env_pub_created env then Some p else None in
  let pl :=
    emit (PubCreate pub rtmpurl (janus_audiocodec_name audio_codec))
      (set_next_object (S p) pl) in
  let session := set_pub pub session in
  let session := set_transcoder true session in
  let session := set_transcoding (Some a) session in
  let session := set_sdp_version 1 session in
  let session := set_sdp_sessid (env_real_time env) session in
  let pl := set_catalog (<[id := a]> (transcoding pl)) (set_rec a rec pl) in
  (pl, session, rec, audio, video).

(** Lines 1609-1668, from the label [recdone]. *)
Definition transcode_done (env : environment) (pl : plugin) (handle : Z)
    (session : janus_transcode_session) (jsep : option json) (offer : janus_sdp)
    (rec : janus_transcode_transcoding) (id : Z) (audio video sdp_update : bool)
  : branch :=
  let s_name := snprintf 100 ("Transcoding " +:+ u64_text (rec_id rec)) in
  let sdp :=
    janus_sdp_answer offer audio (janus_audiocodec_name (rec_acodec rec))
      video (janus_videocodec_name (rec_vcodec rec)) s_name
      (ses_sdp_sessid session) (ses_sdp_version session) in
  (* If the user negotiated simulcasting, prepare it accordingly *)
  let session :=
    match json_object_get jsep "simulcast" with
    | Some msg_simulcast =>
        let '(ssrc, rid, rid_ext_id, framemarking_ext_id) :=
          janus_rtp_simulcasting_prepare msg_simulcast
            (ses_ssrc session) (ses_rid session) in
        let sim := ses_sim_context session in
        let sim :=
          mk_sim_context rid_ext_id framemarking_ext_id 2 2
            (changed_substream sim) (need_pli sim) (sim_rest sim) in
        let session := set_sim_context sim (set_rid rid (set_ssrc ssrc session)) in
        if negb (videocodec_eqb (rec_vcodec rec) JANUS_VIDEOCODEC_VP8)
           && negb (videocodec_eqb (rec_vcodec rec) JANUS_VIDEOCODEC_H264)
        then set_rid [None; None; None] (set_ssrc [0; 0; 0] session)
        else session
    | None => session
    end in
  let result := json_object_set_new json_object "status" (JString "transcoding") in
  let result := json_object_set_new result "id" (JInteger (to_int64 id)) in
  let pl := set_session handle session pl in
  let pl :=
    if negb sdp_update && notify_events pl && env_events_enabled env then
      let info := json_object_set_new json_object "event" (JString "transcoding") in
      let info := json_object_set_new info "id" (JInteger (to_int64 id)) in
      let info := json_object_set_new info "audio"
                    (json_bool (bool_decide (is_Some (ses_arc session)))) in
      let info := json_object_set_new info "video"
                    (json_bool (bool_decide (is_Some (ses_vrc session)))) in
      emit (NotifyEvent handle info) pl
    else pl in
  Finish pl result (Some sdp) sdp_update.

(** Lines 1448-1668: the request [transcode]. *)
Definition handle_transcode (env : environment) (pl : plugin) (handle : Z)
    (session : janus_transcode_session) (root : json) (jsep : option json)
    (sdp_update : bool) : run branch :=
  let message := Some root in
  let msg_sdp_type := json_string_value (json_object_get jsep "type") in
  let msg_sdp := json_string_value (json_object_get jsep "sdp") in
  match msg_sdp, msg_sdp_type with
  | Some msg_sdp, Some msg_sdp_type =>
      if negb (strcaseeq msg_sdp_type "offer") then
        Done (Error pl JANUS_TRANSCODE_ERROR_MISSING_ELEMENT "Missing SDP offer")
      else
        match janus_validate_json_object root transcode_parameters
                JANUS_TRANSCODE_ERROR_MISSING_ELEMENT
                JANUS_TRANSCODE_ERROR_INVALID_ELEMENT with
        | Some (error_code, error_cause) => Done (Error pl error_code error_cause)
        | None =>
            match janus_sdp_parse msg_sdp with
            | inr error_str =>
                Done (Error pl JANUS_TRANSCODE_ERROR_INVALID_SDP
                        (snprintf 512 ("Error parsing offer: " +:+ error_str)))
            | inl offer =>
                let name_text := json_string_value (json_object_get message "name") in
                let filename_text :=
                  json_string_value (json_object_get message "filename") in
                let do_update := json_is_true (json_object_get message "update") in
                if sdp_update then
                  (* Renegotiation: make sure the user provided an offer, and send answer *)
                  if negb (ses_transcoder session) then
                    Done (Error pl JANUS_TRANSCODE_ERROR_INVALID_STATE
                            "Not a transcoding session, can't update")
                  else
                    match ses_transcoding session with
                    | None =>
                        Done (Error pl JANUS_TRANSCODE_ERROR_INVALID_STATE
                                "Not a transcoding session, can't update")
                    | Some a =>
                        match recs pl !! a with
                        | None => Crash
                        | Some rec =>
                            let session :=
                              set_sdp_version (ses_sdp_version session + 1) session in
                            Done (transcode_done env pl handle session jsep offer rec
                                    (rec_id rec)
                                    (bool_decide (is_Some (ses_arc session)))
                                    (bool_decide (is_Some (ses_vrc session)))
                                    do_update)
                        end
                    end
                else
                  (* If we're here, we're doing a new transcoding *)
                  let id_field := json_object_get message "id" in
                  let id :=
                    match id_field with
                    | Some _ => wrap64 (json_integer_value id_field)
                    | None => 0
                    end in
                  if (id >? 0) && bool_decide (is_Some (transcoding pl !! id)) then
                    Done (Error pl JANUS_TRANSCODE_ERROR_TRANSCODING_EXISTS
                            (snprintf 512 ("Transcoding " +:+ u64_text id
                                           +:+ " already exists")))
                  else
                    let chosen :=
                      if id =? 0
                      then random_id (env_random_uint64 env) (transcoding pl)
                      else Some id in
                    match chosen with
                    | None => NoFreeId
                    | Some id =>
                        let '(pl, session, rec, audio, video) :=
                          new_transcoding env pl handle session offer id
                            name_text filename_text in
                        Done (transcode_done env pl handle session jsep offer rec id
                                audio video sdp_update)
                    end
            end
        end
  | _, _ => Done (Error pl JANUS_TRANSCODE_ERROR_MISSING_ELEMENT "Missing SDP offer")
  end.

Definition is_null {A : Type} (l : list A) : bool :=
  match l with [] => true | _ => false end.

(** A NULL list of frames, or a parser that went beyond its buffer. *)
Definition frames_defined (r : frames_result) : bool :=
  match r with
  | Frames _ | Failed => true
  | Undefined | Diverged => false
  end.

(** Lines 1669-1774: the request [play]. *)
Definition handle_play (env : environment) (pl : plugin) (handle : Z)
    (session : janus_transcode_session) (root : json) (jsep : option json)
    (sdp_update : bool) : run branch :=
  let message := Some root in
  let msg_sdp := json_string_value (json_object_get jsep "sdp") in
  match msg_sdp with
  | Some _ =>
      Done (Error pl JANUS_TRANSCODE_ERROR_INVALID_ELEMENT
              "A play request can't contain an SDP")
  | None =>
      match janus_validate_json_object root play_parameters
              JANUS_TRANSCODE_ERROR_MISSING_ELEMENT
              JANUS_TRANSCODE_ERROR_INVALID_ELEMENT with
      | Some (error_code, error_cause) => Done (Error pl error_code error_cause)
      | None =>
          let do_restart := json_is_true (json_object_get message "restart") in
          if sdp_update || do_restart then
            (* Renegotiation: make sure the user provided an offer, and send answer *)
            if ses_transcoder session then
              Done (Error pl JANUS_TRANSCODE_ERROR_INVALID_STATE
                      "Not a playout session, can't restart")
            else
              match ses_transcoding session with
              | None =>
                  Done (Error pl JANUS_TRANSCODE_ERROR_INVALID_STATE
                          "Not a playout session, can't restart")
              | Some a =>
                  match recs pl !! a with
                  | None => Crash
                  | Some rec =>
                      match rec_offer rec with
                      | None =>
                          Done (Error pl JANUS_TRANSCODE_ERROR_INVALID_STATE
                                  "Not a playout session, can't restart")
                      | Some offer =>
                          let session :=
                            set_sdp_version (ses_sdp_version session + 1) session in
                          let pl := set_session handle session pl in
                          match janus_sdp_restart offer (ses_sdp_sessid session)
                                  (ses_sdp_version session) with
                          | None =>
                              Done (Error pl JANUS_TRANSCODE_ERROR_INVALID_STATE
                                      "Invalid, can't restart")
                          | Some sdp =>
                              let result :=
                                json_object_set_new json_object "status"
                                  (JString "restarting") in
                              let result :=
                                json_object_set_new result "id"
                                  (JInteger (to_int64 (rec_id rec))) in
                              Done (Finish pl result (Some sdp) true)
                          end
                      end
                  end
              end
          else
            (* If we got here, it's a new playout *)
            let id_value := wrap64 (json_integer_value (json_object_get message "id")) in
            (* Look for this transcoding *)
            let found :=
              match transcoding pl !! id_value with
              | Some a =>
                  match recs pl !! a with
                  | Some rec => Some (a, rec)
                  | None => None
                  end
              | None => None
              end in
            let pl :=
              match found with
              | Some (a, rec) => set_rec a (set_rec_ref (rec_ref rec + 1) rec) pl
              | None => pl
              end in
            match found with
            | None =>
                Done (Error pl JANUS_TRANSCODE_ERROR_NOT_FOUND "No such transcoding")
            | Some (a, rec) =>
                let rec := set_rec_ref (rec_ref rec + 1) rec in
                match rec_offer rec with
                | None =>
                    Done (Error (set_rec a (set_rec_ref (rec_ref rec - 1) rec) pl)
                            JANUS_TRANSCODE_ERROR_NOT_FOUND "No such transcoding")
                | Some offer =>
                    if rec_destroyed rec then
                      Done (Error (set_rec a (set_rec_ref (rec_ref rec - 1) rec) pl)
                              JANUS_TRANSCODE_ERROR_NOT_FOUND "No such transcoding")
                    else
                      (* Access the frames *)
                      let audio :=
                        match rec_arc_file rec with
                        | Some _ =>
                            Some (janus_transcode_get_frames json_loads (files pl)
                                    (Some (transcoding_path pl)) (rec_arc_file rec))
                        | None => None
                        end in
                      let video :=
                        match rec_vrc_file rec with
                        | Some _ =>
                            Some (janus_transcode_get_frames json_loads (files pl)
                                    (Some (transcoding_path pl)) (rec_vrc_file rec))
                        | None => None
                        end in
                      if negb (from_option frames_defined true audio)
                         || negb (from_option frames_defined true video)
                      then Crash
                      else
                        let session :=
                          match audio with
                          | Some r => set_aframes (frames_of r) session
                          | None => session
                          end in
                        let warning : option string :=
                          match audio with
                          | Some r =>
                              match frames_of r with
                              | [] => Some "Broken audio file, playing video only"%string
                              | _ => None
                              end
                          | None => None
                          end in
                        let session :=
                          match video with
                          | Some r => set_vframes (frames_of r) session
                          | None => session
                          end in
                        let warning : option string :=
                          match video with
                          | Some r =>
                              match frames_of r with
                              | [] => Some "Broken video file, playing audio only"%string
                              | _ => warning
                              end
                          | None => warning
                          end in
                        match ses_aframes session, ses_vframes session with
                        | [], [] =>
                            Done (Error (set_session handle session pl)
                                    JANUS_TRANSCODE_ERROR_INVALID_TRANSCODING
                                    (snprintf 512 "Error opening transcoding files"))
                        | _, _ =>
                            let session := set_transcoding (Some a) session in
                            let session := set_transcoder false session in
                            let rec := set_rec_viewers (rec_viewers rec ++ [handle]) rec in
                            let pl := set_rec a rec pl in
                            let pl := set_session handle session pl in
                            (* Send this viewer the prepared offer *)
                            let result :=
                              json_object_set_new json_object "status"
                                (JString "preparing") in
                            let result :=
                              json_object_set_new result "id"
                                (JInteger (to_int64 id_value)) in
                            let result :=
                              match warning with
                              | Some w => json_object_set_new result "warning" (JString w)
                              | None => result
                              end in
                            let pl :=
                              if notify_events pl && env_events_enabled env then
                                let info :=
                                  json_object_set_new json_object "event"
                                    (JString "playout") in
                                let info :=
                                  json_object_set_new info "id"
                                    (JInteger (to_int64 id_value)) in
                                let info :=
                                  json_object_set_new info "audio"
                                    (json_bool (negb (is_null (ses_aframes session)))) in
                                let info :=
                                  json_object_set_new info "video"
                                    (json_bool (negb (is_null (ses_vframes session)))) in
                                emit (NotifyEvent handle info) pl
                              else pl in
                            Done (Finish pl result (Some offer) false)
                        end
                end
            end
      end
  end.

(** Lines 1775-1798: the request [start]. *)
Definition handle_start (env : environment) (pl : plugin) (handle : Z)
    (session : janus_transcode_session) (jsep : option json) : run branch :=
  match ses_aframes session, ses_vframes session with
  | [], [] =>
      Done (Error pl JANUS_TRANSCODE_ERROR_INVALID_STATE
              "Not a playout session, can't start")
  | _, _ =>
      match json_string_value (json_object_get jsep "sdp") with
      | None =>
          Done (Error pl JANUS_TRANSCODE_ERROR_MISSING_ELEMENT "Missing SDP answer")
      | Some _ =>
          let result := json_object_set_new json_object "status" (JString "playing") in
          if notify_events pl && env_events_enabled env then
            match ses_transcoding session with
            | None => Crash
            | Some a =>
                match recs pl !! a with
                | None => Crash
                | Some rec =>
                    let info :=
                      json_object_set_new json_object "event" (JString "playing") in
                    let info :=
                      json_object_set_new info "id" (JInteger (to_int64 (rec_id rec))) in
                    Done (Finish (emit (NotifyEvent handle info) pl) result None false)
                end
            end
          else Done (Finish pl result None false)
      end
  end.

(** Lines 1799-1815: the request [stop]. *)
Definition handle_stop (env : environment) (pl : plugin) (handle : Z)
    (session : janus_transcode_session) : run branch :=
  let result := json_object_set_new json_object "status" (JString "stopped") in
  match ses_transcoding session with
  | Some a =>
      match recs pl !! a with
      | None => Crash
      | Some rec =>
          let result :=
            json_object_set_new result "id" (JInteger (to_int64 (rec_id rec))) in
          let pl :=
            if notify_events pl && env_events_enabled env then
              let info := json_object_set_new json_object "event" (JString "stopped") in
              let info :=
                json_object_set_new info "id" (JInteger (to_int64 (rec_id rec))) in
              emit (NotifyEvent handle info) pl
            else pl in
          (* Tell the core to tear down the PeerConnection, hangup_media will do the rest *)
          Done (Finish (emit (ClosePc handle) pl) result None false)
      end
  | None => Done (Finish (emit (ClosePc handle) pl) result None false)
  end.

(** Lines 1823-1861: the event that answers the request. *)
Definition push_answer (handle : Z) (transaction : option string) (b : branch)
  : plugin :=
  match b with
  | Error pl error_code error_cause =>
      emit (PushEvent handle transaction (error_event error_code error_cause) None) pl
  | Finish pl result sdp sdp_update =>
      let event := json_object_set_new json_object "transcode" (JString "event") in
      let event := json_object_set_new event "result" result in
      match sdp with
      | None => emit (PushEvent handle transaction event None) pl
      | Some sdp =>
          let transcoder :=
            from_option ses_transcoder false (plugin_handle pl !! handle) in
          let type := if transcoder then "answer"%string else "offer"%string in
          let jsep := json_object_set_new json_object "type" (JString type) in
          let jsep := json_object_set_new jsep "sdp" (JString sdp) in
          let jsep :=
            if sdp_update then json_object_set_new jsep "restart" JTrue else jsep in
          let pl :=
            match plugin_handle pl !! handle with
            | Some session => set_session handle (set_hangingup false session) pl
            | None => pl
            end in
          emit (PushEvent handle transaction event (Some jsep)) pl
      end
  end.

(** One message taken from the queue by [janus_transcode_handler]. *)
Definition janus_transcode_handler (env : environment) (pl : plugin)
    (msg : janus_transcode_message) : run plugin :=
  match msg_handle msg with
  | None => Done pl
  | Some handle =>
      match janus_transcode_lookup_session pl handle with
      | None => Done pl
      | Some session =>
          if ses_destroyed session then Done pl
          else
            let answer (r : run branch) : run plugin :=
              match r with
              | Done b => Done (push_answer handle (msg_transaction msg) b)
              | Crash => Crash
              | NoFreeId => NoFreeId
              end in
            match msg_message msg with
            | None =>
                answer (Done (Error pl JANUS_TRANSCODE_ERROR_NO_MESSAGE "No message??"))
            | Some root =>
                match janus_validate_json_object root request_parameters
                        JANUS_TRANSCODE_ERROR_MISSING_ELEMENT
                        JANUS_TRANSCODE_ERROR_INVALID_ELEMENT with
                | Some (error_code, error_cause) =>
                    answer (Done (Error pl error_code error_cause))
                | None =>
                    let jsep := msg_jsep msg in
                    match json_string_value (json_object_get (Some root) "request") with
                    | None => Crash
                    | Some request_text =>
                        let sdp_update :=
                          match json_object_get jsep "update" with
                          | Some _ => json_is_true (json_object_get jsep "update")
                          | None => false
                          end in
                        if strcaseeq request_text "transcode" then
                          answer (handle_transcode env pl handle session root jsep sdp_update)
                        else if strcaseeq request_text "play" then
                          answer (handle_play env pl handle session root jsep sdp_update)
                        else if strcaseeq request_text "start" then
                          answer (handle_start env pl handle session jsep)
                        else if strcaseeq request_text "stop" then
                          answer (handle_stop env pl handle session)
                        else
                          answer (Done (Error pl JANUS_TRANSCODE_ERROR_INVALID_REQUEST
                                          (snprintf 512 ("Unknown request '"
                                                         +:+ request_text +:+ "'"))))
                    end
                end
            end
      end
  end.

End WithCore.

Arguments Done {A} a.
Arguments Crash {A}.
Arguments NoFreeId {A}.
End Plugin.

(** ** Sessions going away, and the Admin API *)
Module Lifecycle.
Import Wire Json Frames Playout Core Plugin.

Section WithCore.
Context `{core : gateway_core}.

Definition set_destroyed (v : bool) (s : janus_transcode_session)
  : janus_transcode_session :=
  {| ses_handle := ses_handle s; ses_sdp_sessid := ses_sdp_sessid s;
     ses_sdp_version := ses_sdp_version s; ses_active := ses_active s;
     ses_transcoder := ses_transcoder s; ses_firefox := ses_firefox s;
     ses_transcoding := ses_transcoding s; ses_arc := ses_arc s; ses_vrc := ses_vrc s;
     ses_pub := ses_pub s; ses_aframes := ses_aframes s; ses_vframes := ses_vframes s;
     ses_video_remb_startup := ses_video_remb_startup s;
     ses_video_remb_last := ses_video_remb_last s; ses_video_bitrate := ses_video_bitrate s;
     ses_video_keyframe_interval := ses_video_keyframe_interval s;
     ses_video_keyframe_request_last := ses_video_keyframe_request_last s;
     ses_video_fir_seq := ses_video_fir_seq s; ses_context := ses_context s;
     ses_ssrc := ses_ssrc s; ses_rid := ses_rid s; ses_rec_vssrc := ses_rec_vssrc s;
     ses_sim_context := ses_sim_context s; ses_vp8_context := ses_vp8_context s;
     ses_hangingup := ses_hangingup s; ses_destroyed := v |}.

Definition set_sessions (v : gset Z) (pl : plugin) : plugin :=
  {| initialized := initialized pl; stopping := stopping pl;
     notify_events := notify_events pl; transcoding_path := transcoding_path pl;
     rtmp_path := rtmp_path pl; sessions := v; plugin_handle := plugin_handle pl;
     recs := recs pl; transcoding := transcoding pl; messages := messages pl;
     files := files pl; next_object := next_object pl; trace := trace pl |}.

(** [janus_transcode_session_destroy], the function the sessions table
    calls on a value it drops: the compare-and-exchange on [destroyed]. *)
Definition janus_transcode_session_destroy (s : janus_transcode_session)
  : janus_transcode_session :=
  if ses_destroyed s then s else set_destroyed true s.

(** [janus_transcode_destroy_session]; the second component is [*error],
    0 when the function does not write it. *)
Definition janus_transcode_destroy_session (env : environment) (pl : plugin)
    (handle : Z) : run (plugin * Z) :=
  if stopping pl || negb (initialized pl) then Done (pl, -1)
  else
    match janus_transcode_lookup_session pl handle with
    | None => Done (pl, -2)
    | Some _ =>
        match janus_transcode_hangup_media_internal env pl handle with
        | Done pl =>
            (* g_hash_table_remove(sessions, handle) *)
            let pl :=
              match plugin_handle pl !! handle with
              | Some session =>
                  set_session handle (janus_transcode_session_destroy session) pl
              | None => pl
              end in
            Done (set_sessions (sessions pl ∖ {[handle]}) pl, 0)
        | Crash => Crash
        | NoFreeId => NoFreeId
        end
    end.


End WithCore.

End Lifecycle.

(** * The vocabulary of the statements

    What the theorems below speak about: the orders and the timestamp rule the
    specification gives for a frame list, the send rule it gives for the
    playout, and projections of a plugin state and of its trace. *)
Module Stated.
Import Wire Json Frames Playout Core Plugin.

(** A byte of a file or of a packet. *)
Definition is_byte (b : Z) : Prop := 0 <= b < 256.

(** Wrap-aware order of two RTP sequence numbers, as the specification words
    it: a difference of more than 10000 is a wrap, and then the numerically
    smaller value is the later one. *)
Definition seq_wrap_leb (a b : Z) : bool :=
  if Z.abs (a - b) >? 10000 then b <? a else a <=? b.

(** The order the specification claims for a frame list: by extended
    timestamp first, by wrap-aware sequence number among equal timestamps. *)
Definition wrap_leb (x y : janus_transcode_frame_packet) : bool :=
  (fp_ts x <? fp_ts y) || ((fp_ts x =? fp_ts y) && seq_wrap_leb (fp_seq x) (fp_seq y)).

(** Every packet of a list and its successor are in the order [leb]. *)
Fixpoint non_decreasing (leb : janus_transcode_frame_packet -> janus_transcode_frame_packet -> bool)
    (frames : list janus_transcode_frame_packet) : bool :=
  match frames with
  | x :: rest =>
      match rest with
      | y :: _ => leb x y && non_decreasing leb rest
      | [] => true
      end
  | [] => true
  end.

(** The order the insertion itself keeps: the backward walk would not have
    linked [x] after [y]. *)
Definition not_before (x y : janus_transcode_frame_packet) : bool := negb (goes_after y x).

(** The claimed order, or equal timestamps with sequence numbers exactly
    10000 apart, the larger one first. *)
Definition gap_leb (x y : janus_transcode_frame_packet) : bool :=
  wrap_leb x y || ((fp_ts x =? fp_ts y) && (fp_seq x - fp_seq y =? 10000)).

(** Pass 1 as the specification words it, on the RTP timestamps of a file in
    file order: a reset is declared at a timestamp that is smaller than the
    one before it by more than 2*10^9. *)
Fixpoint reset_declared (last_ts : Z) (timestamps : list Z) : bool :=
  match timestamps with
  | [] => false
  | t :: rest => (last_ts - t >? 2 * 1000 * 1000 * 1000) || reset_declared t rest
  end.

Definition reset_seen (timestamps : list Z) : bool :=
  match timestamps with
  | [] => false
  | t :: rest => reset_declared t rest
  end.

(** The extended timestamp as the specification gives it, from whether a
    reset was seen and the first timestamp of the first pass. *)
Definition ts_ext (reset_seen : bool) (first_ts rtp_ts : Z) : Z :=
  if negb reset_seen then rtp_ts
  else if rtp_ts >? first_ts then rtp_ts
  else 2 ^ 32 + rtp_ts.

(** The clock rate of a medium in kHz, as the specification gives it: 8 for
    the audio payload types 0, 8 and 9, 48 for other audio, 90 for video. *)
Definition claimed_khz (video : bool) (pt : Z) : Z :=
  if video then 90
  else if bool_decide (pt = 0 \/ pt = 8 \/ pt = 9) then 8 else 48.

(** The intended spacing of a packet from its predecessor,
    [(pkt.ts - prev.ts) / kHz] milliseconds, in whole microseconds. *)
Definition claimed_spacing (khz : Z) (prev p : janus_transcode_frame_packet) : Z :=
  (fp_ts p - fp_ts prev) * 1000 / khz.

(** The send rule as the specification words it: the time since the previous
    send, against the spacing of the two packets less 5 ms. *)
Definition claimed_send (khz : Z) (previous_send now : timeval)
    (prev p : janus_transcode_frame_packet) : bool :=
  claimed_spacing khz prev p - 5000 <=? micros now - micros previous_send.

(** Whether a half of a round sent the packet under the cursor, and whether
    it came to a read that does not fit the buffer. *)
Definition sends (r : paced) : bool :=
  match r with
  | Paced _ _ was_sent => was_sent
  | Overrun _ => false
  end.

Definition overruns (r : paced) : bool :=
  match r with
  | Paced _ _ _ => false
  | Overrun _ => true
  end.

(** The packets of one medium among the events of the playout loop, in the
    order they were relayed. *)
Definition relayed (video : bool) (events : list playout_event)
  : list janus_transcode_frame_packet :=
  omap (fun e =>
          match e with
          | RelayRtp r => if Bool.eqb (rl_video r) video then Some (rl_packet r) else None
          | Sleep5ms | BufferOverrun => None
          end) events.

(** What a relayed packet of a medium must carry: the payload type of the
    medium, and the bytes the file of the medium holds at the offset of the
    packet, all of them or as many as there are, and never more than 1500. *)
Definition relay_of (video : bool) (pt : Z) (file : list Z) (r : relay) : Prop :=
  rl_video r = video /\ rl_pt r = pt
  /\ rl_read r = fread file (fp_offset (rl_packet r)) (fp_len (rl_packet r))
  /\ (length (rl_read r) <= 1500)%nat.

Definition relay_ok (audio_pt video_pt : Z) (afile vfile : list Z)
    (e : playout_event) : Prop :=
  match e with
  | RelayRtp r =>
      relay_of (rl_video r) (if rl_video r then video_pt else audio_pt)
        (if rl_video r then vfile else afile) r
  | Sleep5ms | BufferOverrun => True
  end.

(** A packet whose bytes the buffer of the playout thread holds. *)
Definition fits (file : list Z) (p : janus_transcode_frame_packet) : Prop :=
  (length (fread file (fp_offset p) (fp_len p)) <= 1500)%nat.

(** What a half of a round leaves, for either medium: the packets it
    relayed are the next ones of the list, in order, each with the bytes of
    its record; after a read that does not fit, the packet at which it
    stopped is the next one. *)
Definition half_round_ok (video : bool) (pt : Z) (file : list Z) (st : pacer)
    (r : paced) : Prop :=
  match r with
  | Paced st' sent _ =>
      pc_next st = map rl_packet sent ++ pc_next st'
      /\ pc_prev st' = reverse (map rl_packet sent) ++ pc_prev st
      /\ Forall (relay_of video pt file) sent
  | Overrun sent =>
      Forall (relay_of video pt file) sent
      /\ exists q after, pc_next st = map rl_packet sent ++ q :: after /\ ~ fits file q
  end.

(** The REMB messages the specification gives for successive calls of the
    feedback helper at the times [nows], [i] calls having been made and the
    previous REMB having been sent at [last]: [B / (4 - i)] at each of the
    first four calls, and after them [B] at a call that is at least 5
    seconds after the previous REMB, nothing at any other. *)
Fixpoint claimed_rembs (B : Z) (i : nat) (last : Z) (nows : list Z) : list (list Z) :=
  match nows with
  | [] => []
  | now :: rest =>
      if (i <? 4)%nat then [B / (4 - Z.of_nat i)] :: claimed_rembs B (S i) now rest
      else if 5 * 1000000 <=? now - last then [B] :: claimed_rembs B (S i) now rest
      else [] :: claimed_rembs B (S i) last rest
  end.

(** The event that reports the failure of a request, as the API documents
    it. *)
Definition failure_event (error_code : Z) (error : string) : json :=
  JObject [("transcode"%string, JString "event");
           ("error_code"%string, JInteger error_code);
           ("error"%string, JString error)].

(** The answer to a request that was handled at once. *)
Definition answered (content : json) : janus_plugin_result :=
  {| pr_type := JANUS_PLUGIN_OK; pr_text := None; pr_content := Some content |}.

(** The bitrates of the REMB messages among the calls of a trace. *)
Definition rembs (sent : list effect) : list Z :=
  omap (fun e => match e with RelayRtcp _ _ (Remb bitrate) => Some bitrate | _ => None end) sent.

(** Every entry of the catalog is stored under its own id, a [guint64]. *)
Definition catalog_keyed `{core : gateway_core} (pl : plugin) : Prop :=
  forall id a rec, transcoding pl !! id = Some a -> recs pl !! a = Some rec ->
    rec_id rec = id /\ 0 <= id < uint64_mod.

(** The object [list] reports for a catalog slot, if it reports one. *)
Definition completed_entry `{core : gateway_core} (pl : plugin) (entry : Z * nat) : option json :=
  match recs pl !! entry.2 with
  | Some rec => if rec_completed rec then Some (list_entry rec) else None
  | None => None
  end.






(** The packets handed to the writers, and to the live sink, in a trace. *)
Definition saved_frames (t : list effect) : list (option nat * list Z) :=
  omap (fun e => match e with TranscoderSaveFrame w buf => Some (w, buf) | _ => None end) t.

Definition published_frames (t : list effect) : list (option nat * list Z) :=
  omap (fun e => match e with PubSaveFrame p buf _ _ => Some (p, buf) | _ => None end) t.

Definition is_rtcp (e : effect) : bool :=
  match e with RelayRtcp _ _ _ => true | _ => false end.

(** The SSRC of the capture after a saved simulcast packet: the one the
    session has, or a fresh random one if it has none yet. *)
Definition stable_vssrc `{core : gateway_core} (env : environment)
    (session : janus_transcode_session) : Z :=
  if ses_rec_vssrc session =? 0 then env_random_int env else ses_rec_vssrc session.

(** The keyframe requests among the calls of a trace. *)
Definition keyframe_requests (sent : list effect) : list rtcp_packet :=
  omap (fun e =>
          match e with
          | RelayRtcp _ _ Fir => Some Fir
          | RelayRtcp _ _ Pli => Some Pli
          | _ => None
          end) sent.

(** The calls the handling of a media packet may make. *)
Definition media_call (e : effect) : Prop :=
  match e with
  | TranscoderSaveFrame _ _ | PubSaveFrame _ _ _ _ | RelayRtcp _ _ _ => True
  | _ => False
  end.

(** The four requests that are left to the handler thread. *)
Definition asynchronous (request_text : string) : bool :=
  strcaseeq request_text "transcode" || strcaseeq request_text "play"
  || strcaseeq request_text "start" || strcaseeq request_text "stop".


(** The event that answers [stop]. *)
Definition stopped_event (id : option Z) : json :=
  let result := json_object_set_new json_object "status" (JString "stopped") in
  let result :=
    match id with
    | Some id => json_object_set_new result "id" (JInteger (to_int64 id))
    | None => result
    end in
  json_object_set_new (json_object_set_new json_object "transcode" (JString "event"))
    "result" result.

(** A notification for the event handlers of the core. *)
Definition is_notification (e : effect) : bool :=
  match e with
  | NotifyEvent _ _ => true
  | _ => false
  end.

(** What stands in the way of a [play] of the catalog entry [id]: there is
    none, or it has no offer yet, or it is marked destroyed. *)
Definition unplayable `{core : gateway_core} (pl : plugin) (id : Z) : Prop :=
  match transcoding pl !! id with
  | Some a =>
      match recs pl !! a with
      | Some rec => rec_offer rec = None \/ rec_destroyed rec = true
      | None => True
      end
  | None => True
  end.

(** The path of the .nfo file of an entry. *)
Definition nfo_path `{core : gateway_core} (pl : plugin) (rec : janus_transcode_transcoding)
  : string :=
  snprintf 1024 (transcoding_path pl +:+ "/" +:+ u64_text (rec_id rec) +:+ ".nfo").

(** The close and destroy calls a hangup makes for what a session holds. *)
Definition close_events `{core : gateway_core} (session : janus_transcode_session)
  : list effect :=
  match ses_arc session with Some rc => [TranscoderClose rc; TranscoderDestroy rc] | None => [] end
  ++ match ses_vrc session with Some rc => [TranscoderClose rc; TranscoderDestroy rc] | None => [] end
  ++ match ses_pub session with Some pub => [PubClose pub; PubDestroy pub] | None => [] end.

(** The done event pushed to the client, and how many a trace holds. *)
Definition is_done (e : effect) : bool :=
  match e with
  | PushEvent _ _ event _ =>
      match json_object_get (Some event) "result" with
      | Some (JString s) => bool_decide (s = "done"%string)
      | _ => false
      end
  | _ => false
  end.

Fixpoint done_events (t : list effect) : nat :=
  match t with
  | [] => 0%nat
  | e :: rest => ((if is_done e then 1 else 0) + done_events rest)%nat
  end.



(** The video codec of a new transcoding, read off the direction of the video
    m-line of the offer alone. *)
Definition video_codec_of `{core : gateway_core} (offer : janus_sdp) : janus_videocodec :=
  if is_recvonly (janus_sdp_mline_find offer true)
  then JANUS_VIDEOCODEC_NONE else JANUS_VIDEOCODEC_H264.

(** The id a [transcode] request proposes, 0 if none. *)
Definition requested_id (root : json) : Z :=
  match json_object_get (Some root) "id" with
  | Some _ => wrap64 (json_integer_value (json_object_get (Some root) "id"))
  | None => 0
  end.

(** A writer opened for H.264. *)
Definition is_video_create (e : effect) : bool :=
  match e with
  | TranscoderCreate _ _ (Some codec) _ => bool_decide (codec = "h264"%string)
  | _ => false
  end.

(** The state a branch of the handler leaves. *)
Definition branch_plugin `{core : gateway_core} (b : branch) : plugin :=
  match b with
  | Finish pl _ _ _ => pl
  | Error pl _ _ => pl
  end.

Section WithCore.
Context `{core : gateway_core}.

(** The feedback helper called for a video packet. *)
Definition feedback (now : Z) (handle : Z) (s : janus_transcode_session) :=
  janus_transcode_send_rtcp_feedback now handle 1 s.

(** The REMB bitrates of successive calls of the helper for video, at the
    times [nows]. *)
Fixpoint feedback_rembs (handle : Z) (s : janus_transcode_session) (nows : list Z)
  : list (list Z) :=
  match nows with
  | [] => []
  | now :: rest =>
      rembs (feedback now handle s).2 :: feedback_rembs handle (feedback now handle s).1 rest
  end.

(** Successive video packets that reach the plugin for a handle, each with
    what its call reads of the environment. *)
Fixpoint ingest (pl : plugin) (handle : Z) (packets : list (environment * list Z))
  : run plugin :=
  match packets with
  | [] => Done pl
  | (env, buf) :: rest =>
      match janus_transcode_incoming_rtp env pl (Some handle) 1 buf with
      | Done (pl', _) => ingest pl' handle rest
      | Crash => Crash
      | NoFreeId => NoFreeId
      end
  end.

(** The state after the done event and those calls. *)
Definition closed (session : janus_transcode_session) (handle : Z) (pl : plugin) : plugin :=
  close_pub (ses_pub session)
    (close_transcoder (ses_vrc session)
       (close_transcoder (ses_arc session)
          (emit (PushEvent handle None done_event None) pl))).

End WithCore.

End Stated.

(** * A small gateway core and sample states

    An instance of [gateway_core] to run the plugin against, and the states,
    requests, files and packets the theorems are applied to. *)
Module Samples.
Import Wire Json Frames Playout Core Plugin.

Definition flag_eqb (a b : json_flag) : bool :=
  match a, b with
  | JANUS_JSON_PARAM_REQUIRED, JANUS_JSON_PARAM_REQUIRED
  | JANUS_JSON_PARAM_POSITIVE, JANUS_JSON_PARAM_POSITIVE
  | JANUS_JSON_PARAM_NONEMPTY, JANUS_JSON_PARAM_NONEMPTY => true
  | _, _ => false
  end.

Definition has_flag (f : json_flag) (flags : list json_flag) : bool :=
  existsb (flag_eqb f) flags.

Definition json_type_ok (t : json_type) (flags : list json_flag) (v : json) : bool :=
  match t, v with
  | JSON_STRING, JString s =>
      negb (has_flag JANUS_JSON_PARAM_NONEMPTY flags) || negb (bool_decide (s = ""))
  | JSON_INTEGER, JInteger z =>
      negb (has_flag JANUS_JSON_PARAM_POSITIVE flags) || (0 <=? z)
  | JANUS_JSON_BOOL, (JTrue | JFalse) => true
  | _, _ => false
  end.

Fixpoint validate (obj : json) (params : list janus_json_parameter)
    (missing_code invalid_code : Z) : option (Z * string) :=
  match params with
  | [] => None
  | p :: rest =>
      match json_object_get (Some obj) (jp_name p) with
      | None =>
          if has_flag JANUS_JSON_PARAM_REQUIRED (jp_flags p)
          then Some (missing_code, "Missing mandatory element (" +:+ jp_name p +:+ ")")
          else validate obj rest missing_code invalid_code
      | Some v =>
          if json_type_ok (jp_type p) (jp_flags p) v
          then validate obj rest missing_code invalid_code
          else Some (invalid_code, "Invalid element type (" +:+ jp_name p +:+ ")")
      end
  end.

(** SDP as a bare description of its two m-lines. *)
Record sample_sdp : Type := mk_sample_sdp {
  sdp_audio : option (string * janus_sdp_mdirection);
  sdp_video : option (string * janus_sdp_mdirection)
}.

Definition sample_parse (text : string) : sample_sdp + string :=
  if bool_decide (text = "audio+video") then
    inl (mk_sample_sdp (Some ("opus"%string, JANUS_SDP_SENDRECV))
           (Some ("vp8"%string, JANUS_SDP_SENDRECV)))
  else if bool_decide (text = "video-recvonly") then
    inl (mk_sample_sdp (Some ("opus"%string, JANUS_SDP_SENDRECV))
           (Some ("vp8"%string, JANUS_SDP_RECVONLY)))
  else if bool_decide (text = "audio-only") then
    inl (mk_sample_sdp (Some ("opus"%string, JANUS_SDP_SENDRECV)) None)
  else inr "unknown"%string.

(** A reader of .nfo files for the sample core: the category in brackets
    on the first line, then [key = value] lines. *)
Fixpoint string_of_bytes (l : list Z) : string :=
  match l with
  | [] => EmptyString
  | b :: rest => String (Ascii.ascii_of_nat (Z.to_nat b)) (string_of_bytes rest)
  end.

Fixpoint split_lines (s cur : string) : list string :=
  match s with
  | EmptyString => if bool_decide (cur = EmptyString) then [] else [cur]
  | String c rest =>
      if (Ascii.nat_of_ascii c =? 10)%nat then cur :: split_lines rest EmptyString
      else if (Ascii.nat_of_ascii c =? 13)%nat then split_lines rest cur
      else split_lines rest (cur +:+ String c EmptyString)
  end.

Fixpoint key_value (s key : string) : option (string * string) :=
  match s with
  | EmptyString => None
  | String c rest =>
      if String.prefix " = " s then Some (key, String.substring 3 (String.length s - 3) s)
      else key_value rest (key +:+ String c EmptyString)
  end.

Record sample_config : Type := mk_sample_config {
  cfg_category : option string;
  cfg_items : list (string * string)
}.

Definition sample_config_parse (content : option (list Z)) : option sample_config :=
  match content with
  | None => None
  | Some bytes =>
      match split_lines (string_of_bytes bytes) EmptyString with
      | [] => Some (mk_sample_config None [])
      | first :: rest =>
          if String.prefix "[" first then
            Some (mk_sample_config
                    (Some (String.substring 1 (String.length first - 2) first))
                    (omap (fun l => key_value l EmptyString) rest))
          else None
      end
  end.

Fixpoint item_of (key : string) (items : list (string * string)) : option string :=
  match items with
  | [] => None
  | (k, v) :: rest => if bool_decide (k = key) then Some v else item_of key rest
  end.

(** Decimal digits only. *)
Fixpoint decimal (s : string) (acc : Z) : Z :=
  match s with
  | EmptyString => acc
  | String c rest =>
      let n := Ascii.nat_of_ascii c in
      if (48 <=? n)%nat && (n <=? 57)%nat
      then decimal rest (acc * 10 + Z.of_nat (n - 48))
      else acc
  end.

(** The files right under a folder, in the order of their paths. *)
Definition sample_readdir (files : gmap string (list Z)) (path : string)
  : option (list string) :=
  let pre := path +:+ "/" in
  Some (omap (fun entry : string * list Z =>
                if String.prefix pre entry.1
                then Some (String.substring (String.length pre)
                             (String.length entry.1 - String.length pre) entry.1)
                else None)
          (map_to_list files)).

Definition sample_core : gateway_core :=
  {| janus_rtp_switching_context := unit;
     janus_vp8_simulcast_context := unit;
     simulcasting_rest := unit;
     janus_sdp := sample_sdp;
     janus_rtp_switching_context_reset := tt;
     janus_vp8_simulcast_context_reset := tt;
     janus_rtp_simulcasting_context_reset := mk_sim_context (-1) (-1) 0 0 false false tt;
     janus_rtp_simulcasting_context_process_rtp :=
       fun sim buf ssrcs rids vcodec ctx => (true, sim, ctx);
     janus_rtp_header_update :=
       fun header ctx video step => (poke_all 2 [0; 1; 0; 0; 0; 2] header, ctx);
     janus_rtp_payload := fun buf => if (12 <=? length buf)%nat then Some 12%nat else None;
     janus_vp8_simulcast_descriptor_update := fun payload ctx changed => (payload, ctx);
     janus_rtp_simulcasting_prepare :=
       fun simulcast ssrc rid => ([11; 22; 33], [None; None; None], 1, 2);
     janus_rtcp_fir_seq := fun s => s + 1;
     janus_sdp_parse := sample_parse;
     janus_sdp_find_preferred_codecs :=
       fun sdp => (fst <$> sdp_audio sdp, fst <$> sdp_video sdp);
     janus_sdp_mline_find :=
       fun sdp video => snd <$> (if video then sdp_video sdp else sdp_audio sdp);
     janus_sdp_answer := fun _ _ _ _ _ s_name _ _ => s_name;
     janus_sdp_offer := fun s_name _ _ _ _ _ _ => s_name;
     janus_sdp_restart := fun offer _ _ => Some offer;
     janus_validate_json_object := validate;
     json_loads := fun _ => None;
     janus_sdp_match_preferred_codec := fun video name => Some name;
     janus_config := sample_config;
     janus_config_parse := sample_config_parse;
     janus_config_first_category := cfg_category;
     janus_config_get_item := fun nfo key => Some <$> item_of key (cfg_items nfo);
     g_ascii_strtoull := fun s => decimal s 0;
     readdir := sample_readdir |}.

Definition sample_plugin : plugin (core := sample_core) :=
  {| initialized := true; stopping := false; notify_events := true;
     transcoding_path := "/rec"; rtmp_path := "rtmp://live";
     sessions := ∅; plugin_handle := ∅; recs := ∅; transcoding := ∅;
     messages := []; files := ∅; next_object := 0; trace := [] |}.

Definition sample_environment : environment :=
  {| env_monotonic_time := 1000; env_real_time := 2000;
     env_date := "2020-01-01 00:00:00"; env_random_uint64 := [0; 77];
     env_random_int := 305419896; env_events_enabled := false;
     env_arc_created := true; env_vrc_created := true; env_pub_created := true;
     env_fopen_ok := true; env_handle_stopped := false |}.

Definition plugin_of (r : run (plugin (core := sample_core)))
    (otherwise : plugin (core := sample_core)) : plugin (core := sample_core) :=
  match r with Done pl => pl | _ => otherwise end.

(** A session is created for handle 1. *)
Definition created : plugin (core := sample_core) :=
  (janus_transcode_create_session sample_environment sample_plugin 1).1.

Definition transcode_request (sdp : string) (simulcast : bool)
  : janus_transcode_message :=
  {| msg_handle := Some 1; msg_transaction := Some "t1"%string;
     msg_message := Some (JObject [("request"%string, JString "transcode");
                                   ("name"%string, JString "demo");
                                   ("id"%string, JInteger 42)]);
     msg_jsep := Some (JObject ([("type"%string, JString "offer");
                                 ("sdp"%string, JString sdp)]
                                ++ if simulcast then [("simulcast"%string, JTrue)] else [])) |}.

(** Handle 1 captures audio and video as transcoding 42, with simulcast. *)
Definition capturing : plugin (core := sample_core) :=
  plugin_of (janus_transcode_handler sample_environment created
               (transcode_request "audio+video" true)) created.

(** The capture is hung up, and the video writer has left one RTP packet in
    its file; the audio file is missing. *)
Definition meetecho : list Z := [77; 69; 69; 84; 69; 67; 72; 79].

Definition rtp_record (sq t : Z) : list Z :=
  meetecho ++ [0; 12]
  ++ [128; 111; sq / 256; sq mod 256;
      (t / 16777216) mod 256; (t / 65536) mod 256; (t / 256) mod 256; t mod 256;
      0; 0; 0; 1].

Definition completed : plugin (core := sample_core) :=
  let pl := plugin_of (janus_transcode_hangup_media sample_environment capturing 1)
              capturing in
  set_files (<["/rec/rec-42-video.mjr"%string := rtp_record 7 90000]> (files pl)) pl.

(** A second session, for handle 2, asks to play transcoding 42. *)
Definition viewer_created : plugin (core := sample_core) :=
  (janus_transcode_create_session sample_environment completed 2).1.

Definition play_request : janus_transcode_message :=
  {| msg_handle := Some 2; msg_transaction := Some "t2"%string;
     msg_message := Some (JObject [("request"%string, JString "play");
                                   ("id"%string, JInteger 42)]);
     msg_jsep := None |}.

(** A video packet of the capture: sequence number 5, timestamp 6, SSRC 9. *)
Definition video_packet : list Z :=
  [128; 100; 0; 5; 0; 0; 0; 6; 0; 0; 0; 9; 1; 2; 3; 4].

Definition three_audio : list janus_transcode_frame_packet :=
  [mk_frame_packet 1 0 172 10; mk_frame_packet 2 960 172 192; mk_frame_packet 3 1920 172 374].

(** A file that holds their three records of 10 and 172 bytes. *)
Definition three_audio_file : list Z := replicate 546 7.

(** Three video packets of 900 bytes, the first two of one frame, and a
    file that holds their records. *)
Definition three_video : list janus_transcode_frame_packet :=
  [mk_frame_packet 1 0 900 10; mk_frame_packet 2 0 900 920; mk_frame_packet 3 3000 900 1830].

Definition three_video_file : list Z := replicate 2730 7.

#[local] Existing Instance sample_core.

Definition list_request : json := JObject [("request"%string, JString "LIST")].

Definition configure_request : json :=
  JObject [("request"%string, JString "configure");
           ("video-keyframe-interval"%string, JInteger 5000)].

Definition fresh_session : janus_transcode_session :=
  {| ses_handle := 1; ses_sdp_sessid := 0; ses_sdp_version := 0;
     ses_active := false; ses_transcoder := false; ses_firefox := false;
     ses_transcoding := None; ses_arc := None; ses_vrc := None; ses_pub := None;
     ses_aframes := []; ses_vframes := [];
     ses_video_remb_startup := 4; ses_video_remb_last := 1000;
     ses_video_bitrate := 1048576; ses_video_keyframe_interval := 15000;
     ses_video_keyframe_request_last := 0; ses_video_fir_seq := 0;
     ses_context := tt; ses_ssrc := [0; 0; 0]; ses_rid := [None; None; None];
     ses_rec_vssrc := 0;
     ses_sim_context := mk_sim_context (-1) (-1) 0 0 false false tt;
     ses_vp8_context := tt; ses_hangingup := false; ses_destroyed := false |}.

(** The sample core, but with a simulcast context that selects no packet
    and asks for a PLI. *)
Definition dropping_core : gateway_core :=
  {| janus_rtp_switching_context := unit;
     janus_vp8_simulcast_context := unit;
     simulcasting_rest := unit;
     janus_sdp := sample_sdp;
     janus_rtp_switching_context_reset := tt;
     janus_vp8_simulcast_context_reset := tt;
     janus_rtp_simulcasting_context_reset := mk_sim_context (-1) (-1) 0 0 false false tt;
     janus_rtp_simulcasting_context_process_rtp :=
       fun sim buf ssrcs rids vcodec ctx =>
         (false,
          mk_sim_context (rid_ext_id sim) (framemarking_ext_id sim) (substream_target sim)
            (templayer_target sim) (changed_substream sim) true (sim_rest sim),
          ctx);
     janus_rtp_header_update :=
       fun header ctx video step => (poke_all 2 [0; 1; 0; 0; 0; 2] header, ctx);
     janus_rtp_payload := fun buf => if (12 <=? length buf)%nat then Some 12%nat else None;
     janus_vp8_simulcast_descriptor_update := fun payload ctx changed => (payload, ctx);
     janus_rtp_simulcasting_prepare :=
       fun simulcast ssrc rid => ([11; 22; 33], [None; None; None], 1, 2);
     janus_rtcp_fir_seq := fun s => s + 1;
     janus_sdp_parse := sample_parse;
     janus_sdp_find_preferred_codecs :=
       fun sdp => (fst <$> sdp_audio sdp, fst <$> sdp_video sdp);
     janus_sdp_mline_find :=
       fun sdp video => snd <$> (if video then sdp_video sdp else sdp_audio sdp);
     janus_sdp_answer := fun _ _ _ _ _ s_name _ _ => s_name;
     janus_sdp_offer := fun s_name _ _ _ _ _ _ => s_name;
     janus_sdp_restart := fun offer _ _ => Some offer;
     janus_validate_json_object := validate;
     json_loads := fun _ => None;
     janus_sdp_match_preferred_codec := fun video name => Some name;
     janus_config := sample_config;
     janus_config_parse := sample_config_parse;
     janus_config_first_category := cfg_category;
     janus_config_get_item := fun nfo key => Some <$> item_of key (cfg_items nfo);
     g_ascii_strtoull := fun s => decimal s 0;
     readdir := sample_readdir |}.

(** On that core: handle 1 captures transcoding 42 with simulcast. *)
Definition capturing_unselected : plugin (core := dropping_core) := Eval vm_compute in
  let start : plugin (core := dropping_core) :=
    {| initialized := true; stopping := false; notify_events := true;
       transcoding_path := "/rec"; rtmp_path := "rtmp://live";
       sessions := ∅; plugin_handle := ∅; recs := ∅; transcoding := ∅;
       messages := []; files := ∅; next_object := 0; trace := [] |} in
  let made := (janus_transcode_create_session sample_environment start 1).1 in
  match janus_transcode_handler sample_environment made
          (transcode_request "audio+video" true) with
  | Done pl => pl
  | _ => made
  end.

(** Handle 1 captures transcoding 42 without simulcast. *)
Definition capturing_plain : plugin (core := sample_core) :=
  plugin_of (janus_transcode_handler sample_environment created
               (transcode_request "audio+video" false)) created.

(** While handle 1 still captures transcoding 42, a session is created for
    handle 2. *)
Definition watching_early : plugin (core := sample_core) :=
  (janus_transcode_create_session sample_environment capturing 2).1.

Definition stop_request : janus_transcode_message :=
  {| msg_handle := Some 1; msg_transaction := Some "t3"%string;
     msg_message := Some (JObject [("request"%string, JString "Stop")]);
     msg_jsep := None |}.

(** An audio packet: sequence number 5, timestamp 6, SSRC 9. *)
Definition audio_packet : list Z :=
  [128; 111; 0; 5; 0; 0; 0; 6; 0; 0; 0; 9; 1; 2; 3; 4].

Definition start_request : janus_transcode_message :=
  {| msg_handle := Some 1; msg_transaction := Some "t4"%string;
     msg_message := Some (JObject [("request"%string, JString "start")]);
     msg_jsep := None |}.

Definition bitrate_request : json :=
  JObject [("request"%string, JString "configure");
           ("video-bitrate-max"%string, JInteger 500000)].


Definition negative_interval_request : json :=
  JObject [("request"%string, JString "configure");
           ("video-keyframe-interval"%string, JInteger (-5))].


End Samples.

(** * Bytes and byte order *)
Module WireFacts.
Import Wire Stated.

Lemma byte_split b q : is_byte b -> (b + 256 * q) mod 256 = b /\ (b + 256 * q) / 256 = q.
Proof.
  intros Hb. replace (b + 256 * q) with (b + q * 256) by lia. split.
  - rewrite Z.mod_add by lia. apply Z.mod_small. exact Hb.
  - rewrite Z.div_add by lia. rewrite Z.div_small by exact Hb. lia.
Qed.

Lemma bswap16_load16 b0 b1 : is_byte b0 -> is_byte b1 -> bswap16 (load16 b0 b1) = load16 b1 b0.
Proof.
  intros H0 H1. unfold bswap16, load16.
  destruct (byte_split b0 b1 H0) as [-> ->].
  rewrite (Z.mod_small b1) by exact H1. lia.
Qed.

Lemma bswap32_load32 b0 b1 b2 b3 :
  is_byte b0 -> is_byte b1 -> is_byte b2 -> is_byte b3 ->
  bswap32 (load32 b0 b1 b2 b3) = load32 b3 b2 b1 b0.
Proof.
  intros H0 H1 H2 H3. unfold bswap32, load32.
  change 65536 with (256 * 256). change 16777216 with (256 * 256 * 256).
  rewrite <- !Z.div_div by lia.
  destruct (byte_split b0 (b1 + 256 * (b2 + 256 * b3)) H0) as [-> ->].
  destruct (byte_split b1 (b2 + 256 * b3) H1) as [-> ->].
  destruct (byte_split b2 b3 H2) as [-> ->].
  rewrite (Z.mod_small b3) by exact H3. lia.
Qed.

Lemma bytes32_load32 b0 b1 b2 b3 :
  is_byte b0 -> is_byte b1 -> is_byte b2 -> is_byte b3 ->
  bytes32 (load32 b0 b1 b2 b3) = [b0; b1; b2; b3].
Proof.
  intros H0 H1 H2 H3. unfold bytes32, load32.
  change 65536 with (256 * 256). change 16777216 with (256 * 256 * 256).
  rewrite <- !Z.div_div by lia.
  destruct (byte_split b0 (b1 + 256 * (b2 + 256 * b3)) H0) as [-> ->].
  destruct (byte_split b1 (b2 + 256 * b3) H1) as [-> ->].
  destruct (byte_split b2 b3 H2) as [-> ->].
  rewrite (Z.mod_small b3) by exact H3. reflexivity.
Qed.

Lemma bytes16_load16 b0 b1 : is_byte b0 -> is_byte b1 -> bytes16 (load16 b0 b1) = [b0; b1].
Proof.
  intros H0 H1. unfold bytes16, load16.
  destruct (byte_split b0 b1 H0) as [-> ->].
  rewrite (Z.mod_small b1) by exact H1. reflexivity.
Qed.

Lemma load16_range b0 b1 : is_byte b0 -> is_byte b1 -> 0 <= load16 b0 b1 < 65536.
Proof. unfold is_byte, load16. lia. Qed.

Lemma bswap16_range v : 0 <= bswap16 v < 65536.
Proof. unfold bswap16. pose proof (Z.mod_pos_bound v 256). pose proof (Z.mod_pos_bound (v / 256) 256). lia. Qed.

Lemma bswap32_range v : 0 <= bswap32 v < 4294967296.
Proof.
  unfold bswap32.
  pose proof (Z.mod_pos_bound v 256).
  pose proof (Z.mod_pos_bound (v / 256) 256).
  pose proof (Z.mod_pos_bound (v / 65536) 256).
  pose proof (Z.mod_pos_bound (v / 16777216) 256). lia.
Qed.

Lemma load32_decompose v :
  0 <= v < 4294967296 ->
  exists b0 b1 b2 b3,
    is_byte b0 /\ is_byte b1 /\ is_byte b2 /\ is_byte b3 /\ v = load32 b0 b1 b2 b3.
Proof.
  intros Hv.
  exists (v mod 256), ((v / 256) mod 256), ((v / 256 / 256) mod 256), (v / 256 / 256 / 256).
  pose proof (Z.div_mod v 256 ltac:(lia)) as E0.
  pose proof (Z.div_mod (v / 256) 256 ltac:(lia)) as E1.
  pose proof (Z.div_mod (v / 256 / 256) 256 ltac:(lia)) as E2.
  pose proof (Z.mod_pos_bound v 256 ltac:(lia)).
  pose proof (Z.mod_pos_bound (v / 256) 256 ltac:(lia)).
  pose proof (Z.mod_pos_bound (v / 256 / 256) 256 ltac:(lia)).
  unfold is_byte, load32. repeat split; try lia.
Qed.

Lemma load16_decompose v :
  0 <= v < 65536 -> exists b0 b1, is_byte b0 /\ is_byte b1 /\ v = load16 b0 b1.
Proof.
  intros Hv. exists (v mod 256), (v / 256).
  pose proof (Z.div_mod v 256 ltac:(lia)) as E0.
  pose proof (Z.mod_pos_bound v 256 ltac:(lia)).
  unfold is_byte, load16. repeat split; try lia.
Qed.

Lemma bswap32_involutive v : 0 <= v < 4294967296 -> bswap32 (bswap32 v) = v.
Proof.
  intros (b0 & b1 & b2 & b3 & H0 & H1 & H2 & H3 & ->)%load32_decompose.
  rewrite !bswap32_load32 by assumption. reflexivity.
Qed.

Lemma bswap16_involutive v : 0 <= v < 65536 -> bswap16 (bswap16 v) = v.
Proof.
  intros (b0 & b1 & H0 & H1 & ->)%load16_decompose.
  rewrite !bswap16_load16 by assumption. reflexivity.
Qed.

Lemma load32_bytes32 v :
  0 <= v < 4294967296 ->
  load32 (v mod 256) ((v / 256) mod 256) ((v / 65536) mod 256) ((v / 16777216) mod 256) = v.
Proof.
  intros (b0 & b1 & b2 & b3 & H0 & H1 & H2 & H3 & ->)%load32_decompose.
  pose proof (bytes32_load32 b0 b1 b2 b3 H0 H1 H2 H3) as E. unfold bytes32 in E.
  injection E as -> -> -> ->. reflexivity.
Qed.

(** Bytes of a buffer. *)
Lemma byte_at_is_byte buf i : Forall is_byte buf -> is_byte (byte_at buf i).
Proof.
  intros H. unfold byte_at. destruct (buf !! i) as [b|] eqn:E; cbn.
  - eapply Forall_lookup_1; eauto.
  - unfold is_byte. lia.
Qed.

Lemma poke_all_length bytes i buf : length (poke_all i bytes buf) = length buf.
Proof.
  revert i buf. induction bytes as [|b bytes IH]; intros i buf; cbn [poke_all]; [reflexivity|].
  rewrite IH. unfold poke. apply length_insert.
Qed.

Lemma byte_at_poke_all_outside bytes i buf j :
  (j < i \/ i + length bytes <= j)%nat ->
  byte_at (poke_all i bytes buf) j = byte_at buf j.
Proof.
  revert i buf. induction bytes as [|b bytes IH]; intros i buf Hj; cbn [poke_all]; [reflexivity|].
  rewrite IH by (cbn [length] in Hj; lia).
  unfold byte_at, poke. rewrite list_lookup_insert_ne; [reflexivity|cbn [length] in Hj; lia].
Qed.

Lemma byte_at_poke_all_inside bytes i buf j :
  (i <= j < i + length bytes)%nat -> (i + length bytes <= length buf)%nat ->
  byte_at (poke_all i bytes buf) j = byte_at bytes (j - i).
Proof.
  revert i buf. induction bytes as [|b bytes IH]; intros i buf Hj Hlen; cbn [length] in *; [lia|].
  cbn [poke_all]. destruct (decide (j = i)) as [->|Hne].
  - rewrite byte_at_poke_all_outside by lia.
    unfold byte_at, poke. rewrite list_lookup_insert_eq by lia.
    replace (i - i)%nat with 0%nat by lia. reflexivity.
  - rewrite IH; [|lia|unfold poke; rewrite length_insert; lia].
    replace (j - i)%nat with (S (j - S i)) by lia. reflexivity.
Qed.

Lemma bswap16_nonneg v : 0 <= bswap16 v.
Proof. unfold bswap16. pose proof (Z.mod_pos_bound v 256). pose proof (Z.mod_pos_bound (v / 256) 256). lia. Qed.

Lemma load32_range b0 b1 b2 b3 :
  is_byte b0 -> is_byte b1 -> is_byte b2 -> is_byte b3 ->
  0 <= load32 b0 b1 b2 b3 < 4294967296.
Proof. unfold is_byte, load32. lia. Qed.

End WireFacts.

(** * The frame index of an MJR file *)
Module FramesFacts.
Import Wire Json Frames Stated Samples WireFacts.

Section FirstPass.
Variable json_loads : list Z -> option json.

Lemma track_reset_offset file pos offset len parsed buf st :
  pp_offset (track_reset file pos offset len parsed buf st) = offset + len.
Proof. reflexivity. Qed.

Lemma pass1_step_advances file st st' :
  pass1_step json_loads file st = Next st' -> pp_offset st + 10 <= pp_offset st'.
Proof.
  unfold pass1_step. intros H. cbv zeta in H.
  pose proof (bswap16_nonneg (fread_len file (pp_offset st + 8) (pp_len st))) as Hlen.
  unfold ntohs in H.
  repeat (case_match; try discriminate);
    match goal with Hn : Next _ = Next _ |- _ => injection Hn as <- end;
    cbn [pp_offset track_reset]; lia.
Qed.

Lemma pass1_fuel fuel file st :
  Z.of_nat (length file) - pp_offset st <= Z.of_nat fuel ->
  pass1 json_loads (S fuel) file st <> P1_fuel.
Proof.
  revert st. induction fuel as [|fuel IH]; intros st Hm; cbn [pass1].
  - destruct (pp_offset st <? Z.of_nat (length file)) eqn:E; [lia|discriminate].
  - destruct (pp_offset st <? Z.of_nat (length file)) eqn:E; [|discriminate].
    destruct (pass1_step json_loads file st) as [st'| |] eqn:Hs; try discriminate.
    apply IH. apply pass1_step_advances in Hs. lia.
Qed.

End FirstPass.

Lemma pass2_step_advances file st :
  ps_offset st + 10 <= ps_offset (pass2_step file st).1.
Proof.
  unfold pass2_step.
  set (len := ntohs _). assert (0 <= len) by apply bswap16_nonneg.
  destruct (_ || _); cbn; lia.
Qed.

Lemma pass2_fuel fuel file reset first_ts st frames :
  Z.of_nat (length file) - ps_offset st <= Z.of_nat fuel ->
  is_Some (pass2 (S fuel) file reset first_ts st frames).
Proof.
  revert st frames. induction fuel as [|fuel IH]; intros st frames Hm; cbn [pass2].
  - destruct (ps_offset st <? Z.of_nat (length file)) eqn:E; [lia|eauto].
  - destruct (ps_offset st <? Z.of_nat (length file)) eqn:E; [|eauto].
    pose proof (pass2_step_advances file st) as Ha.
    destruct (pass2_step file st) as [st' [r|]]; apply IH; cbn in Ha; lia.
Qed.

Lemma parse_frames_returns jl file : parse_frames jl file <> Diverged.
Proof.
  unfold parse_frames, rounds.
  destruct (pass1 jl (S (length file)) file preparse_init) as [st| | |] eqn:H1; try discriminate.
  - destruct (pass2_fuel (length file) file (pp_reset st) (pp_first_ts st) (parse_init st) [])
      as [l ->]; [cbn; lia | discriminate].
  - exfalso. revert H1. apply pass1_fuel. cbn. lia.
Qed.

Lemma walk_back_perm p back front :
  walk_back p back front ≡ₚ p :: reverse back ++ front.
Proof.
  revert front. induction back as [|tmp prevs IH]; intros front; cbn [walk_back].
  - reflexivity.
  - destruct (goes_after tmp p).
    + rewrite reverse_cons, <- app_assoc. cbn. symmetry.
      etransitivity; [apply Permutation_middle|].
      apply Permutation_app_head, perm_swap.
    + rewrite IH, reverse_cons, <- app_assoc. reflexivity.
Qed.

Lemma insert_frame_perm p frames : insert_frame p frames ≡ₚ p :: frames.
Proof.
  unfold insert_frame. destruct frames as [|x l]; [reflexivity|].
  rewrite walk_back_perm, app_nil_r, reverse_involutive. reflexivity.
Qed.

Lemma pass2_reads_perm fuel file reset first_ts st frames result :
  pass2 fuel file reset first_ts st frames = Some result ->
  result ≡ₚ map (frame_of reset first_ts) (pass2_reads fuel file st) ++ frames.
Proof.
  revert st frames. induction fuel as [|fuel IH]; intros st frames; cbn [pass2 pass2_reads].
  - discriminate.
  - destruct (ps_offset st <? Z.of_nat (length file)).
    + destruct (pass2_step file st) as [st' [r|]]; intros H; apply IH in H; [|exact H].
      rewrite H, insert_frame_perm. cbn. symmetry. apply Permutation_middle.
    + intros [= <-]. reflexivity.
Qed.

Lemma timestamp_of_range buf : 0 <= timestamp_of buf < 4294967296.
Proof.
  unfold timestamp_of, ntohl, bswap32. 
  set (v := load32 _ _ _ _).
  pose proof (Z.mod_pos_bound v 256).
  pose proof (Z.mod_pos_bound (v / 256) 256).
  pose proof (Z.mod_pos_bound (v / 65536) 256).
  pose proof (Z.mod_pos_bound (v / 16777216) 256). lia.
Qed.

(** The second pass takes a reset anchor other than 0 for "a reset was
    seen". *)
Lemma extended_ts_ts_ext reset first_ts t :
  0 <= t < 4294967296 ->
  extended_ts reset first_ts t = ts_ext (negb (reset =? 0)) first_ts t.
Proof.
  intros Ht. unfold extended_ts, ts_ext.
  destruct (reset =? 0); [reflexivity|]. cbn [negb].
  destruct (t >? first_ts); [reflexivity|].
  unfold wrap64, uint32_max, uint64_mod.
  rewrite (Z.mod_small (4294967295 + 1)) by lia.
  rewrite Z.mod_small by lia. reflexivity.
Qed.

Lemma pass2_reads_range fuel file st r :
  r ∈ pass2_reads fuel file st -> 0 <= rr_timestamp r < 4294967296.
Proof.
  revert st. induction fuel as [|fuel IH]; intros st; cbn [pass2_reads].
  - intros H. inversion H.
  - destruct (ps_offset st <? Z.of_nat (length file)); [|intros H; inversion H].
    destruct (pass2_step file st) as [st' [r'|]] eqn:Hs.
    + intros [->|H]%elem_of_cons; [|eauto].
      unfold pass2_step in Hs. destruct (_ || _) in Hs; [discriminate|].
      injection Hs as _ <-. cbn. apply timestamp_of_range.
    + eauto.
Qed.

Lemma goes_after_asym a b : goes_after a b = true -> goes_after b a = false.
Proof.
  unfold goes_after. intros H.
  repeat match goal with
  | |- context [?x <? ?y] => destruct (Z.ltb_spec x y)
  | |- context [?x >? ?y] => rewrite (Z.gtb_ltb x y)
  | |- context [?x =? ?y] => destruct (Z.eqb_spec x y)
  | H : context [?x <? ?y] |- _ => destruct (Z.ltb_spec x y)
  | H : context [?x >? ?y] |- _ => rewrite (Z.gtb_ltb x y) in H
  | H : context [?x =? ?y] |- _ => destruct (Z.eqb_spec x y)
  end; cbn in *; try discriminate; try reflexivity; lia.
Qed.

Lemma non_decreasing_snoc R l1 x l2 :
  non_decreasing R (l1 ++ x :: l2)
  = non_decreasing R (l1 ++ [x]) && non_decreasing R (x :: l2).
Proof.
  induction l1 as [|a l1 IH]; [reflexivity|].
  destruct l1 as [|b l1].
  - cbn. destruct l2; cbn; rewrite ?andb_true_r; reflexivity.
  - change ((a :: b :: l1) ++ x :: l2) with (a :: (b :: l1) ++ x :: l2).
    change ((a :: b :: l1) ++ [x]) with (a :: (b :: l1) ++ [x]).
    cbn [non_decreasing app] in *. rewrite IH. rewrite andb_assoc. reflexivity.
Qed.

Lemma non_decreasing_cons R x l :
  non_decreasing R (x :: l) = true ->
  non_decreasing R l = true.
Proof. destruct l; cbn; [reflexivity|]. intros [_ H]%andb_prop. exact H. Qed.

Lemma walk_back_ordered p back front :
  non_decreasing not_before (reverse back ++ front) = true ->
  match front with [] => True | f :: _ => goes_after f p = false end ->
  non_decreasing not_before (walk_back p back front) = true.
Proof.
  revert front. induction back as [|tmp prevs IH]; intros front Hord Hfront; cbn [walk_back].
  - cbn in Hord. destruct front as [|f front]; [reflexivity|].
    cbn [non_decreasing]. unfold not_before at 1. rewrite Hfront. exact Hord.
  - rewrite reverse_cons, <- app_assoc in Hord. cbn [app] in Hord.
    destruct (goes_after tmp p) eqn:Hg.
    + rewrite non_decreasing_snoc in Hord. apply andb_prop in Hord as [H1 H2].
      rewrite non_decreasing_snoc, H1. cbn [andb non_decreasing].
      unfold not_before at 1. rewrite (goes_after_asym _ _ Hg). cbn [negb andb].
      destruct front as [|f front]; [reflexivity|].
      cbn [non_decreasing]. unfold not_before at 1. rewrite Hfront. cbn [negb andb].
      apply non_decreasing_cons in H2. exact H2.
    + apply IH; [exact Hord | exact Hg].
Qed.

Lemma insert_frame_ordered p frames :
  non_decreasing not_before frames = true ->
  non_decreasing not_before (insert_frame p frames) = true.
Proof.
  intros H. unfold insert_frame. destruct frames as [|x l]; [reflexivity|].
  apply walk_back_ordered; [|exact I].
  rewrite reverse_involutive, app_nil_r. exact H.
Qed.

Lemma pass2_ordered fuel file reset first_ts st frames result :
  pass2 fuel file reset first_ts st frames = Some result ->
  non_decreasing not_before frames = true ->
  non_decreasing not_before result = true.
Proof.
  revert st frames. induction fuel as [|fuel IH]; intros st frames; cbn [pass2]; [discriminate|].
  destruct (ps_offset st <? Z.of_nat (length file)).
  - destruct (pass2_step file st) as [st' [r|]]; intros H Hord; eapply IH; eauto.
    apply insert_frame_ordered, Hord.
  - intros [= <-] H. exact H.
Qed.

Lemma non_decreasing_weaken (R R' : janus_transcode_frame_packet -> janus_transcode_frame_packet -> bool) l :
  (forall x y, R x y = true -> R' x y = true) ->
  non_decreasing R l = true -> non_decreasing R' l = true.
Proof.
  intros HR. induction l as [|x l IH]; [reflexivity|].
  destruct l as [|y l]; [reflexivity|].
  cbn [non_decreasing]. intros [H1 H2]%andb_prop. rewrite (HR _ _ H1). cbn. apply IH, H2.
Qed.

Lemma not_before_gap_leb x y : not_before x y = true -> gap_leb x y = true.
Proof.
  unfold not_before, gap_leb, wrap_leb, seq_wrap_leb, goes_after. intros H.
  repeat match goal with
  | |- context [?x <? ?y] => destruct (Z.ltb_spec x y)
  | |- context [?x <=? ?y] => destruct (Z.leb_spec x y)
  | |- context [?x >? ?y] => rewrite (Z.gtb_ltb x y)
  | |- context [?x =? ?y] => destruct (Z.eqb_spec x y)
  | H : context [?x <? ?y] |- _ => destruct (Z.ltb_spec x y)
  | H : context [?x >? ?y] |- _ => rewrite (Z.gtb_ltb x y) in H
  | H : context [?x =? ?y] |- _ => destruct (Z.eqb_spec x y)
  end; cbn in *; try discriminate; try reflexivity; lia.
Qed.

(** X2. In every frame list each packet and its successor are in the order
    the specification gives, with one exception: two packets with the same
    timestamp whose sequence numbers are exactly 10000 apart, the larger one
    first. *)
Theorem frames_ordered_up_to_gap jl file frames :
  parse_frames jl file = Frames frames -> non_decreasing gap_leb frames = true.
Proof.
  unfold parse_frames. intros H.
  destruct (pass1 jl (rounds file) file preparse_init) as [st| | |]; try discriminate.
  destruct (pass2 _ _ _ _ _ _) as [l|] eqn:H2; [|discriminate].
  injection H as <-.
  apply (non_decreasing_weaken not_before); [apply not_before_gap_leb|].
  eapply pass2_ordered; [exact H2|reflexivity].
Qed.

(** C1 (the code misses the claim). Two records with the same timestamp and
    sequence numbers 0 and 10000 come out of the frame index builder as
    10000 then 0: the difference is not more than 10000, so no wrap, yet the
    numerically larger packet is first and the list is not in the claimed
    order. *)
Theorem get_frames_seq_gap_unordered jl :
  parse_frames jl (rtp_record 0 1 ++ rtp_record 10000 1)
  = Frames [mk_frame_packet 10000 1 12 32; mk_frame_packet 0 1 12 10]
  /\ non_decreasing wrap_leb [mk_frame_packet 10000 1 12 32; mk_frame_packet 0 1 12 10] = false.
Proof. split; vm_compute; reflexivity. Qed.

(** X28. The frame list of an MJR file that is indexed holds exactly the
    RTP records of the second pass, in some order, each with its sequence
    number, length and offset and with the extended timestamp of the three
    cases: the RTP timestamp when the anchor [reset] the first pass left is
    0, which the code reads as "no reset"; otherwise the RTP timestamp when
    it is greater than [first_ts], and 2^32 more than it when it is not. *)
Theorem get_frames_extended_ts jl file frames :
  parse_frames jl file = Frames frames ->
  exists st,
    pass1 jl (rounds file) file preparse_init = P1_done st
    /\ frames ≡ₚ
       map (fun r => mk_frame_packet (rr_seq r)
                       (ts_ext (negb (pp_reset st =? 0)) (pp_first_ts st)
                          (rr_timestamp r))
                       (rr_len r) (rr_offset r))
         (pass2_reads (rounds file) file (parse_init st)).
Proof.
  unfold parse_frames. intros H.
  destruct (pass1 jl (rounds file) file preparse_init) as [st| | |]; try discriminate.
  destruct (pass2 _ _ _ _ _ _) as [l|] eqn:H2; [|discriminate].
  injection H as <-. exists st. split; [reflexivity|].
  apply pass2_reads_perm in H2. rewrite app_nil_r in H2. rewrite H2.
  erewrite map_ext_in; [reflexivity|].
  intros r Hr. unfold frame_of. f_equal.
  apply extended_ts_ts_ext. eapply pass2_reads_range. apply list_elem_of_In. exact Hr.
Qed.

Lemma get_frames_extended_ts_witness :
  exists st,
    pass1 (fun _ => None) (rounds (rtp_record 7 3000000000 ++ rtp_record 8 5))
      (rtp_record 7 3000000000 ++ rtp_record 8 5) preparse_init = P1_done st
    /\ [mk_frame_packet 7 3000000000 12 10; mk_frame_packet 8 4294967301 12 32] ≡ₚ
       map (fun r => mk_frame_packet (rr_seq r)
                       (ts_ext (negb (pp_reset st =? 0)) (pp_first_ts st)
                          (rr_timestamp r))
                       (rr_len r) (rr_offset r))
         (pass2_reads (rounds (rtp_record 7 3000000000 ++ rtp_record 8 5))
            (rtp_record 7 3000000000 ++ rtp_record 8 5) (parse_init st)).
Proof.
  apply (get_frames_extended_ts (fun _ => None)
           (rtp_record 7 3000000000 ++ rtp_record 8 5)).
  vm_compute. reflexivity.
Defined.

(** C2 (the code misses the claim). Three records with the timestamps
    4000000000, 0 and 50: the first pass declares a reset at the second
    record, whose timestamp is smaller than the one before it by more than
    2*10^9, and keeps the timestamp of that record, 0, as the anchor; the
    second pass reads the anchor 0 as "no reset was seen" and gives the two
    records after the reset their RTP timestamps 0 and 50, where the claim
    gives them 2^32 and 2^32 + 50; so they come first in the list and the
    record from before the reset last. *)
Theorem get_frames_reset_at_zero_missed jl :
  let file := rtp_record 1 4000000000 ++ rtp_record 2 0 ++ rtp_record 3 50 in
  parse_frames jl file
  = Frames [mk_frame_packet 2 0 12 32; mk_frame_packet 3 50 12 54;
            mk_frame_packet 1 4000000000 12 10]
  /\ (exists st,
        pass1 jl (rounds file) file preparse_init = P1_done st
        /\ pp_reset st = 0 /\ pp_first_ts st = 50
        /\ map rr_timestamp (pass2_reads (rounds file) file (parse_init st))
           = [4000000000; 0; 50])
  /\ reset_seen [4000000000; 0; 50] = true
  /\ map (ts_ext (reset_seen [4000000000; 0; 50]) 50) [4000000000; 0; 50]
     = [4000000000; 2 ^ 32; 2 ^ 32 + 50].
Proof.
  cbv zeta. split; [vm_compute; reflexivity|].
  split; [|split; vm_compute; reflexivity].
  eexists. split; [vm_compute; reflexivity|].
  split; [reflexivity|]. split; [reflexivity|]. vm_compute. reflexivity.
Qed.

Lemma seq_number_of_range buf : 0 <= seq_number_of buf < 65536.
Proof.
  unfold seq_number_of, ntohs. apply bswap16_range.
Qed.

Lemma ntohs_range v : 0 <= ntohs v < 65536.
Proof. apply bswap16_range. Qed.

(** What the second loop reads of a record: the fields are those of an RTP
    header and the record lies behind a ten-byte record header that starts
    inside the file. *)
Lemma pass2_reads_fields fuel file st r :
  0 <= ps_offset st ->
  r ∈ pass2_reads fuel file st ->
  0 <= rr_seq r < 65536 /\ 0 <= rr_timestamp r < 4294967296
  /\ 12 <= rr_len r < 65536
  /\ 10 <= rr_offset r < Z.of_nat (length file) + 10.
Proof.
  revert st. induction fuel as [|fuel IH]; intros st Hst; cbn [pass2_reads].
  - intros H. inversion H.
  - destruct (ps_offset st <? Z.of_nat (length file)) eqn:Hlt; [|intros H; inversion H].
    apply Z.ltb_lt in Hlt.
    pose proof (pass2_step_advances file st) as Hadv.
    destruct (pass2_step file st) as [st' [r'|]] eqn:Hs; cbn in Hadv.
    + intros [->|H]%elem_of_cons; [|apply (IH st'); [lia|exact H]].
      unfold pass2_step in Hs.
      destruct (_ || _) eqn:Hskip in Hs; [discriminate|].
      injection Hs as _ <-. cbn.
      apply orb_false_iff in Hskip as [_ Hlen]. apply Z.ltb_ge in Hlen.
      pose proof (ntohs_range (fread_len file
        (ps_offset st + Z.of_nat (length (fread file (ps_offset st) 8))) (ps_len st))).
      split; [apply seq_number_of_range|]. split; [apply timestamp_of_range|].
      split; lia.
    + intros H. apply (IH st'); [lia|exact H].
Qed.

(** X1. Whatever the file holds, both loops of [janus_transcode_get_frames]
    come to an end within one round per byte of the file: the call returns a
    list, returns NULL, or is stopped by an info header that does not fit
    [prebuffer]. *)
Theorem get_frames_terminates jl file :
  (exists frames, parse_frames jl file = Frames frames)
  \/ parse_frames jl file = Failed
  \/ parse_frames jl file = Undefined.
Proof.
  pose proof (parse_frames_returns jl file) as H.
  destruct (parse_frames jl file); eauto. contradiction.
Qed.

Lemma frames_ordered_up_to_gap_witness :
  non_decreasing gap_leb
    [mk_frame_packet 6 2000 12 54; mk_frame_packet 5 3000 12 32;
     mk_frame_packet 7 3000 12 10] = true.
Proof.
  apply (frames_ordered_up_to_gap (fun _ => None)
           (rtp_record 7 3000 ++ rtp_record 5 3000 ++ rtp_record 6 2000)).
  vm_compute. reflexivity.
Defined.

(** X3. Every packet of a frame list carries a 16-bit sequence number, a
    timestamp below 2^33, the length of an RTP packet (12 to 65535 bytes)
    and the offset of a record whose ten-byte header starts inside the
    file. *)
Theorem frames_fields_in_range jl file frames p :
  parse_frames jl file = Frames frames ->
  p ∈ frames ->
  0 <= fp_seq p < 65536 /\ 0 <= fp_ts p < 2 ^ 33
  /\ 12 <= fp_len p < 65536
  /\ 10 <= fp_offset p < Z.of_nat (length file) + 10.
Proof.
  unfold parse_frames. intros H Hp.
  destruct (pass1 jl (rounds file) file preparse_init) as [st| | |]; try discriminate.
  destruct (pass2 _ _ _ _ _ _) as [l|] eqn:H2; [|discriminate].
  injection H as <-.
  apply pass2_reads_perm in H2. rewrite app_nil_r in H2.
  rewrite H2 in Hp. apply list_elem_of_fmap in Hp as (r & -> & Hr).
  apply pass2_reads_fields in Hr; [|cbn; lia].
  destruct Hr as (Hs & Ht & Hl & Ho). cbn.
  rewrite extended_ts_ts_ext by exact Ht.
  repeat split; try lia; unfold ts_ext;
    destruct (pp_reset st =? 0); cbn [negb]; try lia;
    destruct (rr_timestamp r >? pp_first_ts st); lia.
Qed.

Lemma frames_fields_in_range_witness :
  0 <= 8 < 65536 /\ 0 <= 4294967301 < 2 ^ 33 /\ 12 <= 12 < 65536
  /\ 10 <= 32 < Z.of_nat (length (rtp_record 7 3000000000 ++ rtp_record 8 5)) + 10.
Proof.
  apply (frames_fields_in_range (fun _ => None)
           (rtp_record 7 3000000000 ++ rtp_record 8 5)
           [mk_frame_packet 7 3000000000 12 10; mk_frame_packet 8 4294967301 12 32]
           (mk_frame_packet 8 4294967301 12 32)).
  - vm_compute. reflexivity.
  - apply elem_of_cons; right; apply elem_of_cons; left; reflexivity.
Defined.

(** X4. A file that is not empty and does not begin with eight readable
    bytes, the first of them 'M', gives NULL; so does one whose second byte
    is neither 'E' nor 'J'. *)
Theorem get_frames_rejects_bad_magic jl file :
  file <> [] ->
  (length file < 8)%nat \/ file !! 0%nat <> Some char_M
  \/ (file !! 1%nat <> Some char_E /\ file !! 1%nat <> Some char_J) ->
  parse_frames jl file = Failed.
Proof.
  intros Hne Hbad. unfold parse_frames, rounds. cbn [pass1].
  assert (Hlen : (0 < length file)%nat) by (destruct file; [contradiction|cbn; lia]).
  replace (pp_offset preparse_init <? Z.of_nat (length file)) with true
    by (symmetry; apply Z.ltb_lt; cbn; lia).
  assert (Hstep : pass1_step jl file preparse_init = Null); [|rewrite Hstep; reflexivity].
  unfold pass1_step. cbn [pp_offset preparse_init pp_prebuffer].
  unfold fread. cbn [Z.to_nat].
  change (Z.to_nat 0) with 0%nat. rewrite drop_0.
  change (Z.to_nat 8) with 8%nat.
  destruct (decide (length file < 8)%nat) as [Hshort|Hlong].
  - rewrite length_take.
    destruct (Nat.eqb_spec (8 `min` length file) 8) as [E|E]; [lia|reflexivity].
  - destruct Hbad as [?|Hbad]; [lia|].
    rewrite length_take.
    destruct (Nat.eqb_spec (8 `min` length file) 8) as [E|E]; [clear E|lia].
    cbn [negb orb].
    destruct file as [|b0 [|b1 [|b2 [|b3 [|b4 [|b5 [|b6 [|b7 rest]]]]]]]];
      cbn in Hlong; try lia.
    cbn [take store app length drop replicate]. unfold byte_at.
    cbn [lookup list_lookup default from_option id].
    cbn in Hbad.
    destruct Hbad as [Hb|[Hb1 Hb2]].
    + destruct (Z.eqb_spec b0 char_M) as [->|]; [contradiction|reflexivity].
    + destruct (b0 =? char_M); [|reflexivity]. cbn [negb].
      destruct (Z.eqb_spec b1 char_E) as [->|]; [contradiction|].
      destruct (Z.eqb_spec b1 char_J) as [->|]; [contradiction|reflexivity].
Qed.

Lemma get_frames_rejects_bad_magic_witness :
  parse_frames (fun _ => None) [77; 90; 0; 0; 0; 0; 0; 0; 0; 12] = Failed.
Proof.
  apply get_frames_rejects_bad_magic.
  - discriminate.
  - right. right. split; discriminate.
Defined.

(** A packet that goes after the last one of the list is linked at the
    tail. *)
Lemma insert_frame_at_tail p frames q :
  goes_after q p = true ->
  insert_frame p (frames ++ [q]) = frames ++ [q; p].
Proof.
  intros Hq. unfold insert_frame.
  destruct (frames ++ [q]) eqn:E; [destruct frames; discriminate E|].
  rewrite <- E, reverse_app. cbn [reverse rev_append app walk_back].
  change (rev_append [q] []) with [q]. cbn [app walk_back].
  rewrite Hq. change (rev_append (reverse frames) []) with (reverse (reverse frames)).
  rewrite reverse_involutive. reflexivity.
Qed.

(** The second loop on records that each go after their predecessor: the
    list grows at its tail only. *)
Lemma pass2_appends fuel file reset first_ts st frames result :
  pass2 fuel file reset first_ts st frames = Some result ->
  non_decreasing goes_after
    (frames ++ map (frame_of reset first_ts) (pass2_reads fuel file st)) = true ->
  result = frames ++ map (frame_of reset first_ts) (pass2_reads fuel file st).
Proof.
  revert st frames.
  induction fuel as [|fuel IH]; intros st frames H Hord; [discriminate H|].
  cbn [pass2 pass2_reads] in *.
  destruct (ps_offset st <? Z.of_nat (length file)).
  2:{ injection H as <-. cbn [map]. rewrite app_nil_r. reflexivity. }
  destruct (pass2_step file st) as [st' [r|]].
  2:{ apply IH; assumption. }
  cbn [map] in *.
  set (p := frame_of reset first_ts r) in *.
  set (tl := map (frame_of reset first_ts) (pass2_reads fuel file st')) in *.
  assert (Hins : insert_frame p frames = frames ++ [p]).
  { destruct frames as [|x frames _] using rev_ind; [reflexivity|].
    rewrite <- (app_assoc frames [x] [p]). apply insert_frame_at_tail.
    rewrite <- app_assoc in Hord. cbn [app] in Hord.
    clear -Hord. induction frames as [|y frames IHf].
    - cbn in Hord. apply andb_true_iff in Hord. tauto.
    - cbn [app non_decreasing] in Hord.
      destruct (frames ++ x :: p :: tl) eqn:E; [destruct frames; discriminate E|].
      apply andb_true_iff in Hord. apply IHf, Hord. }
  rewrite Hins in H.
  replace (frames ++ p :: tl) with ((frames ++ [p]) ++ tl)
    by (rewrite <- app_assoc; reflexivity).
  apply IH; [exact H|].
  rewrite <- app_assoc. exact Hord.
Qed.

(** X27. A recording whose RTP records already follow one another, each
    going after its predecessor under the test of the insertion itself
    (a later extended timestamp, or the same one and a later sequence
    number), is indexed in the order of the file: the frame list is the
    records as the second loop read them, none moved. *)
Theorem recording_in_order_is_indexed_in_order jl file frames st :
  parse_frames jl file = Frames frames ->
  pass1 jl (rounds file) file preparse_init = P1_done st ->
  non_decreasing goes_after
    (map (frame_of (pp_reset st) (pp_first_ts st))
       (pass2_reads (rounds file) file (parse_init st))) = true ->
  frames = map (frame_of (pp_reset st) (pp_first_ts st))
             (pass2_reads (rounds file) file (parse_init st)).
Proof.
  intros H H1 Hord. unfold parse_frames in H. rewrite H1 in H.
  destruct (pass2 _ _ _ _ _ _) as [result|] eqn:H2; [|discriminate H].
  injection H as <-.
  apply (pass2_appends _ _ _ _ _ [] _ H2). exact Hord.
Qed.

Lemma recording_in_order_is_indexed_in_order_witness :
  exists st,
    pass1 (fun _ => None)
      (rounds (rtp_record 7 2000 ++ rtp_record 8 2000 ++ rtp_record 9 2960))
      (rtp_record 7 2000 ++ rtp_record 8 2000 ++ rtp_record 9 2960)
      preparse_init = P1_done st
    /\ [mk_frame_packet 7 2000 12 10; mk_frame_packet 8 2000 12 32;
        mk_frame_packet 9 2960 12 54]
       = map (frame_of (pp_reset st) (pp_first_ts st))
           (pass2_reads
              (rounds (rtp_record 7 2000 ++ rtp_record 8 2000 ++ rtp_record 9 2960))
              (rtp_record 7 2000 ++ rtp_record 8 2000 ++ rtp_record 9 2960)
              (parse_init st)).
Proof.
  destruct (pass1 (fun _ => None)
              (rounds (rtp_record 7 2000 ++ rtp_record 8 2000 ++ rtp_record 9 2960))
              (rtp_record 7 2000 ++ rtp_record 8 2000 ++ rtp_record 9 2960)
              preparse_init) as [st| | |] eqn:E;
    [|vm_compute in E; discriminate E..].
  exists st. split; [reflexivity|].
  apply (recording_in_order_is_indexed_in_order (fun _ => None) _ _ st).
  - unfold parse_frames. rewrite E.
    revert E. vm_compute. intros [= <-]. vm_compute. reflexivity.
  - exact E.
  - revert E. vm_compute. intros [= <-]. vm_compute. reflexivity.
Defined.

End FramesFacts.

(** * The codec of a capture file *)
Module CodecFacts.
Import Wire Json Frames Codec Stated Samples WireFacts FramesFacts.

Lemma cstring_until_nul info tail :
  Forall (fun b => b <> 0) info -> cstring (info ++ 0 :: tail) = info.
Proof.
  induction 1 as [|b info Hb _ IH]; cbn [app cstring]; [reflexivity|].
  destruct (Z.eqb_spec b 0); [contradiction|]. rewrite IH. reflexivity.
Qed.

Lemma ntohs_big_endian l1 l2 :
  is_byte l1 -> is_byte l2 -> ntohs (load16 l1 l2) = 256 * l1 + l2.
Proof.
  intros H1 H2. unfold ntohs. rewrite bswap16_load16 by assumption.
  unfold load16. lia.
Qed.

Section WithCodecs.
Variable json_loads : list Z -> option json.
Variable janus_sdp_match_preferred_codec : bool -> string -> option string.

(** X25. The codec of a recording in the old format is read off the first
    byte after the length of its first record, and only if that length is
    5: 'v' gives vp8 and 'a' gives opus; with another byte, or when the
    file starts with a record of another length (an RTP frame), there is no
    codec.  The rest of the file is not looked at. *)
Theorem old_header_names_the_codec b2 b3 b4 b5 b6 b7 l1 l2 c rest :
  is_byte l1 -> is_byte l2 ->
  parse_codec_file json_loads janus_sdp_match_preferred_codec
    ([char_M; char_E; b2; b3; b4; b5; b6; b7; l1; l2; c] ++ rest)
  = if 256 * l1 + l2 =? 5 then
      if c =? char_v then CodecName "vp8"
      else if c =? char_a then CodecName "opus"
      else NoCodec
    else NoCodec.
Proof.
  intros H1 H2. unfold parse_codec_file.
  remember (replicate 1500 0) as pre eqn:Hpre.
  cbn [app length]. rewrite !Nat2Z.inj_succ.
  replace (0 <? _) with true by (symmetry; apply Z.ltb_lt; lia).
  unfold fread. change (Z.to_nat 0) with 0%nat. change (Z.to_nat 8) with 8%nat.
  cbn [drop take length store app Nat.eqb negb orb].
  unfold byte_at at 1 2. cbn [lookup list_lookup default from_option id].
  rewrite !Z.eqb_refl. cbn [negb].
  unfold fread_len, fread. change (Z.to_nat 8) with 8%nat. change (Z.to_nat 2) with 2%nat.
  cbn [drop take length]. rewrite ntohs_big_endian by assumption.
  destruct (256 * l1 + l2 =? 5); [|reflexivity].
  change (Z.to_nat (8 + Z.of_nat 2)) with 10%nat. change (Z.to_nat 5) with 5%nat.
  cbn [drop take store app]. unfold byte_at.
  cbn [lookup list_lookup default from_option id]. reflexivity.
Qed.

(** X26. For a recording in the new format, with an info header of fewer
    than 1500 bytes that holds no NUL, the answer is what the header says:
    the codec the core matches for the string under "c", as video when "t"
    is "v" and as audio when it is "a"; no codec if the header is not JSON,
    if "t" is neither, or if "c" is not a string or is not matched.  What
    follows the header is not looked at. *)
Theorem info_header_names_the_codec b2 b3 b4 b5 b6 b7 info rest :
  (0 < length info < 1500)%nat ->
  Forall (fun b => b <> 0) info ->
  parse_codec_file json_loads janus_sdp_match_preferred_codec
    ([char_M; char_J; b2; b3; b4; b5; b6; b7;
      Z.of_nat (length info) / 256; Z.of_nat (length info) mod 256] ++ info ++ rest)
  = match codec_of_info janus_sdp_match_preferred_codec (json_loads info) with
    | Some codec => CodecName codec
    | None => NoCodec
    end.
Proof.
  intros Hlen Hnul. unfold parse_codec_file.
  remember (replicate 1500 0) as pre eqn:Hpre.
  assert (Hprelen : length pre = 1500%nat) by (subst pre; apply length_replicate).
  set (n := Z.of_nat (length info)).
  assert (Hn : 0 < n < 1500) by (unfold n; lia).
  cbn [app length]. rewrite !Nat2Z.inj_succ.
  replace (0 <? _) with true by (symmetry; apply Z.ltb_lt; lia).
  unfold fread. change (Z.to_nat 0) with 0%nat. change (Z.to_nat 8) with 8%nat.
  cbn [drop take length store app Nat.eqb negb orb].
  unfold byte_at at 1 2 3. cbn [lookup list_lookup default from_option id].
  rewrite !Z.eqb_refl. cbn [negb].
  change (char_J =? char_E) with false. cbv iota.
  unfold fread_len, fread. change (Z.to_nat 8) with 8%nat. change (Z.to_nat 2) with 2%nat.
  cbn [drop take length]. rewrite !take_0. cbn [length].
  assert (Hb1 : is_byte (n / 256)).
  { unfold is_byte. split; [apply Z.div_pos; lia|].
    apply Z.div_lt_upper_bound; lia. }
  assert (Hb2 : is_byte (n mod 256)) by (unfold is_byte; apply Z.mod_pos_bound; lia).
  rewrite ntohs_big_endian by assumption.
  replace (256 * (n / 256) + n mod 256) with n by (rewrite <- Z.div_mod; lia).
  replace (n >? 0) with true by (symmetry; apply Z.gtb_lt; lia).
  replace (1500 <=? n) with false by (symmetry; apply Z.leb_gt; lia).
  change (Z.to_nat (8 + Z.of_nat 2)) with 10%nat. cbn [drop].
  rewrite drop_0. unfold n. rewrite Nat2Z.id, take_app_length.
  unfold store, poke.
  match goal with
  | |- context [info ++ drop (length info) ?l] => set (old := drop (length info) l)
  end.
  assert (Hold : exists o tail, old = o :: tail).
  { unfold old.
    match goal with
    | |- exists o tail, drop ?k ?l = _ =>
        destruct (drop k l) as [|o tail] eqn:E; [|eauto];
          apply (f_equal length) in E; rewrite length_drop in E;
          cbn [length] in E; rewrite length_drop, Hprelen in E; lia
    end. }
  destruct Hold as (o & tail & ->).
  rewrite insert_app_r_alt by lia. rewrite Nat.sub_diag. cbn [insert list_insert].
  rewrite cstring_until_nul by exact Hnul. reflexivity.
Qed.

End WithCodecs.

Lemma old_header_names_the_codec_witness :
  parse_codec_file (fun _ => None) (fun _ _ => None)
    (meetecho ++ [0; 5; 118; 105; 100; 101; 111] ++ rtp_record 7 90000)
  = CodecName "vp8".
Proof.
  apply (old_header_names_the_codec (fun _ => None) (fun _ _ => None)
           69 84 69 67 72 79 0 5 118 ([105; 100; 101; 111] ++ rtp_record 7 90000));
    unfold is_byte; lia.
Defined.

Lemma info_header_names_the_codec_witness :
  parse_codec_file
    (fun text => if bool_decide (text = [123; 125]) then
                   Some (JObject [("t"%string, JString "v"); ("c"%string, JString "vp8")])
                 else None)
    (fun video name => if video then Some name else None)
    ([77; 74; 82; 48; 48; 48; 48; 50; 0; 2; 123; 125] ++ rtp_record 7 90000)
  = CodecName "vp8".
Proof.
  exact (info_header_names_the_codec
           (fun text => if bool_decide (text = [123; 125]) then
                          Some (JObject [("t"%string, JString "v");
                                         ("c"%string, JString "vp8")])
                        else None)
           (fun video name => if video then Some name else None)
           82 48 48 48 48 50 [123; 125] (rtp_record 7 90000)
           (conj (Nat.lt_0_succ 1) (Nat.lt_le_trans 2 3 1500 (Nat.lt_succ_diag_r 2)
                                      ltac:(repeat constructor || lia)))
           ltac:(repeat constructor; discriminate)).
Defined.

End CodecFacts.

(** * The playout pacer *)
Module PlayoutFacts.
Import Wire Json Frames Playout Stated Samples.

Lemma passed_since_micros before now :
  passed_since before now = micros now - micros before.
Proof.
  unfold passed_since, micros.
  destruct (tv_usec now - tv_usec before <? 0); lia.
Qed.

(** For timestamps in list order the skip the thread computes is the
    spacing of the specification. *)
Lemma ts_diff_spacing khz prev p :
  0 < khz -> 0 <= fp_ts prev <= fp_ts p -> fp_ts p < 2 ^ 63 ->
  ts_diff_of khz prev p = (fp_ts p - fp_ts prev) * 1000 / khz.
Proof.
  intros Hk Ho Hp. unfold ts_diff_of, wrap64, uint64_mod, to_int64.
  change (2 ^ 63) with 9223372036854775808 in Hp.
  rewrite Z.mod_small by lia.
  destruct (Z.ltb_spec (fp_ts p - fp_ts prev) 9223372036854775808); [|lia].
  apply Z.quot_div_nonneg; lia.
Qed.

Lemma akhz_of_claimed audio_pt :
  akhz_of audio_pt
  = (if bool_decide (audio_pt = 0 \/ audio_pt = 8 \/ audio_pt = 9) then 8 else 48).
Proof.
  unfold akhz_of.
  destruct (Z.eqb_spec audio_pt 0), (Z.eqb_spec audio_pt 8), (Z.eqb_spec audio_pt 9);
    cbn; case_bool_decide; try reflexivity; lia.
Qed.

Lemma advance_reference_micros before ts_diff :
  0 <= ts_diff ->
  micros (advance_reference before ts_diff)
  = micros before + ts_diff - ts_diff / 1000000.
Proof.
  intros Hd. unfold advance_reference, micros.
  rewrite Z.quot_div_nonneg by lia. rewrite Z.rem_mod_nonneg by lia.
  pose proof (Z.div_mod ts_diff 1000000 ltac:(lia)) as Hdm.
  assert (0 <= ts_diff / 1000000) by (apply Z.div_pos; lia).
  destruct (tv_usec before + ts_diff mod 1000000 >? 1000000);
    destruct (Z.gtb_spec (ts_diff / 1000000) 0); cbn [tv_sec tv_usec]; lia.
Qed.

Lemma read_packet_fits file p :
  fits file p -> read_packet file p = Some (fread file (fp_offset p) (fp_len p)).
Proof.
  unfold fits, read_packet. intros H.
  destruct (Nat.ltb_spec 1500 (length (fread file (fp_offset p) (fp_len p)))); [lia|].
  reflexivity.
Qed.

Lemma read_packet_some file p bytes :
  read_packet file p = Some bytes ->
  bytes = fread file (fp_offset p) (fp_len p) /\ (length bytes <= 1500)%nat.
Proof.
  unfold read_packet.
  destruct (Nat.ltb_spec 1500 (length (fread file (fp_offset p) (fp_len p))));
    [discriminate|].
  intros [= <-]. split; [reflexivity|assumption].
Qed.

Lemma read_packet_none file p : read_packet file p = None -> ~ fits file p.
Proof.
  unfold read_packet, fits.
  destruct (Nat.ltb_spec 1500 (length (fread file (fp_offset p) (fp_len p))));
    [lia|discriminate].
Qed.

Lemma send_group_spec vfile ts prev next sent prev' next' overrun :
  send_group vfile ts prev next = (sent, prev', next', overrun) ->
  next = map fst sent ++ next' /\ prev' = reverse (map fst sent) ++ prev
  /\ Forall (fun q => fp_ts q.1 = ts /\ read_packet vfile q.1 = Some q.2) sent
  /\ (if overrun
      then exists q after, next' = q :: after /\ fp_ts q = ts /\ ~ fits vfile q
      else forall q after, next' = q :: after -> fp_ts q <> ts).
Proof.
  revert prev sent prev' next' overrun.
  induction next as [|p rest IH]; intros prev sent prev' next' overrun;
    cbn [send_group].
  - intros [= <- <- <- <-]. repeat split; [constructor|discriminate].
  - destruct (Z.eqb_spec (fp_ts p) ts) as [E|E].
    + destruct (read_packet vfile p) as [bytes|] eqn:Hr.
      * destruct (send_group vfile ts (p :: prev) rest) as [[[sent0 prev0] next0] o0] eqn:Hg.
        intros [= <- <- <- <-].
        destruct (IH _ _ _ _ _ Hg) as (H1 & H2 & H3 & H4).
        split; [cbn; congruence|].
        split; [cbn [map fst]; rewrite reverse_cons, <- app_assoc; exact H2|].
        split; [constructor; [split; assumption|assumption]|exact H4].
      * intros [= <- <- <- <-]. repeat split; [constructor|].
        exists p, rest. split; [reflexivity|]. split; [exact E|].
        apply read_packet_none, Hr.
    + intros [= <- <- <- <-]. repeat split; [constructor|].
      intros q after [= <- <-]. exact E.
Qed.

Lemma video_relays video_pt vfile ts sent :
  Forall (fun q : janus_transcode_frame_packet * list Z =>
            fp_ts q.1 = ts /\ read_packet vfile q.1 = Some q.2) sent ->
  map rl_packet (map (video_relay video_pt) sent) = map fst sent
  /\ Forall (relay_of true video_pt vfile) (map (video_relay video_pt) sent).
Proof.
  induction 1 as [|[q bytes] sent [_ Hq] _ [IH1 IH2]]; [split; constructor|].
  cbn [map]. split; [cbn; f_equal; exact IH1|].
  constructor; [|exact IH2].
  apply read_packet_some in Hq as [Hb Hl]. cbn in Hb, Hl.
  repeat split; assumption.
Qed.

Lemma audio_round_spec audio_pt afile st now :
  half_round_ok false audio_pt afile st (audio_round audio_pt afile st now).
Proof.
  unfold audio_round.
  assert (Hsend : forall p bytes, read_packet afile p = Some bytes ->
                    Forall (relay_of false audio_pt afile) [mk_relay false audio_pt p bytes]).
  { intros p bytes [Hb Hl]%read_packet_some.
    constructor; [repeat split; assumption|constructor]. }
  destruct (pc_next st) as [|p rest] eqn:Hn.
  - cbn. rewrite Hn. repeat split. constructor.
  - destruct (pc_prev st) as [|prev prevs] eqn:Hp.
    + destruct (read_packet afile p) as [bytes|] eqn:Hr; cbn; rewrite Hn, ?Hp.
      * split; [reflexivity|]. split; [reflexivity|]. apply Hsend, Hr.
      * split; [constructor|]. exists p, rest. split; [reflexivity|].
        apply read_packet_none, Hr.
    + destruct (_ <? _).
      * cbn. rewrite Hn, Hp. repeat split. constructor.
      * destruct (read_packet afile p) as [bytes|] eqn:Hr; cbn; rewrite Hn, ?Hp.
        -- split; [reflexivity|]. split; [reflexivity|]. apply Hsend, Hr.
        -- split; [constructor|]. exists p, rest. split; [reflexivity|].
           apply read_packet_none, Hr.
Qed.

Lemma video_round_spec video_pt vfile st now :
  half_round_ok true video_pt vfile st (video_round video_pt vfile st now).
Proof.
  unfold video_round.
  assert (Hgroup : forall ts before,
            half_round_ok true video_pt vfile st
              (let '(sent, prev', next', overrun) :=
                 send_group vfile ts (pc_prev st) (pc_next st) in
               if overrun then Overrun (map (video_relay video_pt) sent)
               else Paced {| pc_prev := prev'; pc_next := next'; pc_before := before |}
                      (map (video_relay video_pt) sent) true)).
  { intros ts before.
    destruct (send_group vfile ts (pc_prev st) (pc_next st))
      as [[[sent prev'] next'] overrun] eqn:Hg.
    apply send_group_spec in Hg as (H1 & H2 & H3 & H4).
    destruct (video_relays video_pt vfile ts sent H3) as [Hm Hf].
    destruct overrun; cbn; rewrite Hm.
    - split; [exact Hf|]. destruct H4 as (q & after & -> & _ & Hq).
      exists q, after. split; [exact H1|exact Hq].
    - split; [exact H1|]. split; [exact H2|exact Hf]. }
  destruct (pc_next st) as [|p rest] eqn:Hn.
  - cbn. rewrite Hn. repeat split. constructor.
  - destruct (pc_prev st) as [|prev prevs] eqn:Hp.
    + specialize (Hgroup (fp_ts p) now). exact Hgroup.
    + destruct (_ <? _).
      * cbn. rewrite Hn, Hp. repeat split. constructor.
      * exact (Hgroup (fp_ts p) (advance_reference (pc_before st)
                                   (ts_diff_of vkhz prev p))).
Qed.

Lemma relayed_app video a b : relayed video (a ++ b) = relayed video a ++ relayed video b.
Proof. apply omap_app. Qed.

Lemma relayed_same video pt file sent :
  Forall (relay_of video pt file) sent ->
  relayed video (map RelayRtp sent) = map rl_packet sent.
Proof.
  induction 1 as [|r sent (Hr & _) _ IH]; [reflexivity|].
  cbn. rewrite Hr, Bool.eqb_reflx. cbn. f_equal. exact IH.
Qed.

Lemma relayed_other video pt file sent :
  Forall (relay_of (negb video) pt file) sent ->
  relayed video (map RelayRtp sent) = [].
Proof.
  induction 1 as [|r sent (Hr & _) _ IH]; [reflexivity|].
  cbn. rewrite Hr. destruct video; cbn; exact IH.
Qed.

Lemma relay_ok_of audio_pt video_pt afile vfile video sent :
  Forall (relay_of video (if video then video_pt else audio_pt)
            (if video then vfile else afile)) sent ->
  Forall (relay_ok audio_pt video_pt afile vfile) (map RelayRtp sent).
Proof.
  intros H. apply Forall_fmap. eapply Forall_impl; [exact H|].
  intros r Hr. cbn. destruct Hr as (Hv & Hrest). unfold relay_of. rewrite Hv.
  split; [reflexivity|exact Hrest].
Qed.

Lemma send_group_first vfile p prev rest :
  fits vfile p ->
  exists sent prev' next' overrun,
    send_group vfile (fp_ts p) prev (p :: rest)
    = ((p, fread vfile (fp_offset p) (fp_len p)) :: sent, prev', next', overrun).
Proof.
  intros Hf. cbn [send_group]. rewrite Z.eqb_refl, (read_packet_fits _ _ Hf).
  destruct (send_group vfile (fp_ts p) (p :: prev) rest) as [[[sent prev'] next'] o].
  eauto.
Qed.

Lemma send_group_unfit vfile p prev rest :
  ~ fits vfile p ->
  send_group vfile (fp_ts p) prev (p :: rest) = ([], prev, p :: rest, true).
Proof.
  intros Hf. cbn [send_group]. rewrite Z.eqb_refl.
  destruct (read_packet vfile p) as [bytes|] eqn:Hr; [|reflexivity].
  apply read_packet_some in Hr as [-> Hl]. contradiction.
Qed.

(** C3 (amended). For each medium the first packet of the list is sent in
    the round that reaches it, and the reference time of the medium
    ([abefore], [vbefore]) is set to the clock reading of that round.  A
    later packet, with the spacing dt = (pkt.ts - prev.ts) * 1000 / kHz
    microseconds to its predecessor (kHz is 8 for the audio payload types 0,
    8 and 9, 48 for other audio, 90 for video), is sent in a round exactly
    when the time from the reference time to the clock reading of the round
    is at least dt - 5000; the round then moves the reference time forward
    by dt less one microsecond for every whole second of dt, and a round
    that does not send leaves everything as it is.  A packet whose bytes do
    not fit the 1500 bytes of the buffer is not sent: the read overruns the
    buffer. *)
Theorem playout_send_rule audio_pt video_pt afile vfile st now p rest :
  pc_next st = p :: rest ->
  let elapsed := micros now - micros (pc_before st) in
  (pc_prev st = [] ->
     (fits afile p ->
        audio_round audio_pt afile st now
        = Paced {| pc_prev := [p]; pc_next := rest; pc_before := now |}
            [mk_relay false audio_pt p (fread afile (fp_offset p) (fp_len p))] true)
     /\ (~ fits afile p -> audio_round audio_pt afile st now = Overrun [])
     /\ (fits vfile p -> overruns (video_round video_pt vfile st now) = false ->
         exists st' sent,
           video_round video_pt vfile st now
           = Paced st'
               (mk_relay true video_pt p (fread vfile (fp_offset p) (fp_len p)) :: sent)
               true
           /\ pc_before st' = now)
     /\ (~ fits vfile p -> video_round video_pt vfile st now = Overrun []))
  /\ (forall prev prevs, pc_prev st = prev :: prevs ->
      0 <= fp_ts prev <= fp_ts p -> fp_ts p < 2 ^ 63 ->
      let dt_a :=
        (fp_ts p - fp_ts prev) * 1000
        / (if bool_decide (audio_pt = 0 \/ audio_pt = 8 \/ audio_pt = 9) then 8 else 48) in
      let dt_v := (fp_ts p - fp_ts prev) * 1000 / 90 in
      (if dt_a - 5000 <=? elapsed then
         (fits afile p ->
          exists before',
            audio_round audio_pt afile st now
            = Paced {| pc_prev := p :: prev :: prevs; pc_next := rest;
                       pc_before := before' |}
                [mk_relay false audio_pt p (fread afile (fp_offset p) (fp_len p))] true
            /\ micros before' = micros (pc_before st) + dt_a - dt_a / 1000000)
         /\ (~ fits afile p -> audio_round audio_pt afile st now = Overrun [])
       else audio_round audio_pt afile st now = Paced st [] false)
      /\ (if dt_v - 5000 <=? elapsed then
            (fits vfile p -> overruns (video_round video_pt vfile st now) = false ->
             exists st' sent,
               video_round video_pt vfile st now
               = Paced st'
                   (mk_relay true video_pt p (fread vfile (fp_offset p) (fp_len p)) :: sent)
                   true
               /\ micros (pc_before st')
                  = micros (pc_before st) + dt_v - dt_v / 1000000)
            /\ (~ fits vfile p -> video_round video_pt vfile st now = Overrun [])
          else video_round video_pt vfile st now = Paced st [] false)).
Proof.
  intros Hnext elapsed. split.
  - intros Hprev. unfold audio_round, video_round. rewrite Hnext, Hprev.
    split; [intros Hf; rewrite (read_packet_fits _ _ Hf); reflexivity|].
    split.
    { intros Hf. destruct (read_packet afile p) as [bytes|] eqn:Hr; [|reflexivity].
      apply read_packet_some in Hr as [-> Hl]. contradiction. }
    split.
    + intros Hf.
      destruct (send_group_first vfile p [] rest Hf) as (sent & prev' & next' & o & ->).
      destruct o; [discriminate|]. intros _. eexists _, _. split; reflexivity.
    + intros Hf. rewrite (send_group_unfit _ _ _ _ Hf). reflexivity.
  - intros prev prevs Hprev Ho Hp dt_a dt_v.
    assert (Ha : ts_diff_of (akhz_of audio_pt) prev p = dt_a).
    { unfold dt_a. rewrite <- akhz_of_claimed. apply ts_diff_spacing; try assumption.
      rewrite akhz_of_claimed. case_bool_decide; lia. }
    assert (Hv : ts_diff_of vkhz prev p = dt_v).
    { unfold dt_v. apply ts_diff_spacing; try assumption. reflexivity. }
    assert (Hda : 0 <= dt_a).
    { unfold dt_a. apply Z.div_pos; [lia|]. case_bool_decide; lia. }
    assert (Hdv : 0 <= dt_v) by (unfold dt_v; apply Z.div_pos; lia).
    unfold audio_round, video_round.
    rewrite Hnext, Hprev, passed_since_micros, Ha, Hv. fold elapsed. split.
    + destruct (Z.leb_spec (dt_a - 5000) elapsed) as [Hle|Hlt].
      * destruct (Z.ltb_spec elapsed (dt_a - 5000)); [lia|]. split.
        -- intros Hf. rewrite (read_packet_fits _ _ Hf). eexists. split; [reflexivity|].
           apply advance_reference_micros, Hda.
        -- intros Hf. destruct (read_packet afile p) as [bytes|] eqn:Hr; [|reflexivity].
           apply read_packet_some in Hr as [-> Hl]. contradiction.
      * destruct (Z.ltb_spec elapsed (dt_a - 5000)); [reflexivity|lia].
    + destruct (Z.leb_spec (dt_v - 5000) elapsed) as [Hle|Hlt].
      * destruct (Z.ltb_spec elapsed (dt_v - 5000)); [lia|]. split.
        -- intros Hf.
           destruct (send_group_first vfile p (prev :: prevs) rest Hf)
             as (sent & prev' & next' & o & ->).
           destruct o; [discriminate|]. intros _. eexists _, _. split; [reflexivity|].
           apply advance_reference_micros, Hdv.
        -- intros Hf. rewrite (send_group_unfit _ _ _ _ Hf). reflexivity.
      * destruct (Z.ltb_spec elapsed (dt_v - 5000)); [reflexivity|lia].
Qed.

Lemma playout_send_rule_witness :
  exists before',
    audio_round 111 three_audio_file
      {| pc_prev := [mk_frame_packet 1 0 172 10];
         pc_next := [mk_frame_packet 2 960 172 192; mk_frame_packet 3 1920 172 374];
         pc_before := mk_timeval 10 0 |}
      (mk_timeval 10 15000)
    = Paced {| pc_prev := [mk_frame_packet 2 960 172 192; mk_frame_packet 1 0 172 10];
               pc_next := [mk_frame_packet 3 1920 172 374];
               pc_before := before' |}
        [mk_relay false 111 (mk_frame_packet 2 960 172 192)
           (fread three_audio_file 192 172)] true
    /\ micros before' = 10000000 + 20000 - 0.
Proof.
  destruct (playout_send_rule 111 100 three_audio_file three_video_file
              {| pc_prev := [mk_frame_packet 1 0 172 10];
                 pc_next := [mk_frame_packet 2 960 172 192; mk_frame_packet 3 1920 172 374];
                 pc_before := mk_timeval 10 0 |}
              (mk_timeval 10 15000) (mk_frame_packet 2 960 172 192)
              [mk_frame_packet 3 1920 172 374] eq_refl) as [_ H].
  destruct (H (mk_frame_packet 1 0 172 10) [] eq_refl ltac:(cbn; lia) ltac:(cbn; lia))
    as [[Ha _] _].
  apply Ha. unfold fits. vm_compute. lia.
Defined.

(** C3 as stated fails: three audio packets 20 ms apart; the second is sent
    100 ms after the first, and the third one microsecond later, far less
    than 15 ms after the previous send. *)
Lemma pacer_measures_from_reference :
  match audio_round 111 three_audio_file (pacer_start three_audio (mk_timeval 0 0))
          (mk_timeval 10 0) with
  | Paced st1 _ true =>
      match audio_round 111 three_audio_file st1 (mk_timeval 10 100000) with
      | Paced st2 _ true =>
          pc_next st2 = [mk_frame_packet 3 1920 172 374]
          /\ sends (audio_round 111 three_audio_file st2 (mk_timeval 10 100001)) = true
          /\ claimed_send (claimed_khz false 111) (mk_timeval 10 100000)
               (mk_timeval 10 100001)
               (mk_frame_packet 2 960 172 192) (mk_frame_packet 3 1920 172 374) = false
      | _ => False
      end
  | _ => False
  end.
Proof. vm_compute. repeat split; reflexivity. Qed.

Lemma fits_dec file p : fits file p \/ ~ fits file p.
Proof. unfold fits. lia. Qed.

Lemma playout_round_spec audio_pt video_pt afile vfile st now_a now_v st' ev :
  playout_round audio_pt video_pt afile vfile st now_a now_v = (st', ev) ->
  Forall (relay_ok audio_pt video_pt afile vfile) ev
  /\ match st' with
     | Some s =>
         pc_next (po_audio st) = relayed false ev ++ pc_next (po_audio s)
         /\ pc_next (po_video st) = relayed true ev ++ pc_next (po_video s)
         /\ BufferOverrun ∉ ev
     | None =>
         last ev = Some BufferOverrun
         /\ exists rest_a rest_v,
              pc_next (po_audio st) = relayed false ev ++ rest_a
              /\ pc_next (po_video st) = relayed true ev ++ rest_v
              /\ ((exists q, head rest_a = Some q /\ ~ fits afile q)
                  \/ (exists q, head rest_v = Some q /\ ~ fits vfile q))
     end.
Proof.
  unfold playout_round.
  pose proof (audio_round_spec audio_pt afile (po_audio st) now_a) as Ha.
  pose proof (video_round_spec video_pt vfile (po_video st) now_v) as Hv.
  assert (Hsleep : forall video,
             relayed video (if negb (po_asent st) && negb (po_vsent st)
                            then [Sleep5ms] else []) = []).
  { intros video. destruct (_ && _); reflexivity. }
  assert (Hsok : Forall (relay_ok audio_pt video_pt afile vfile)
                   (if negb (po_asent st) && negb (po_vsent st) then [Sleep5ms] else [])).
  { destruct (_ && _); repeat constructor. }
  assert (Hnot : forall sent, BufferOverrun ∉ map RelayRtp sent).
  { intros sent (r & Hr & _)%list_elem_of_fmap. discriminate Hr. }
  assert (Hns : BufferOverrun ∉ (if negb (po_asent st) && negb (po_vsent st)
                                 then [Sleep5ms] else [])).
  { destruct (_ && _); [|apply not_elem_of_nil].
    intros [H|H]%elem_of_cons; [discriminate H|]. apply not_elem_of_nil in H. exact H. }
  destruct (audio_round audio_pt afile (po_audio st) now_a) as [a ra asent|ra].
  - destruct Ha as (Ha1 & _ & Ha3).
    destruct (video_round video_pt vfile (po_video st) now_v) as [v rv vsent|rv].
    + destruct Hv as (Hv1 & _ & Hv3). intros [= <- <-]. cbn [po_audio po_video].
      split.
      { apply Forall_app. split; [exact Hsok|]. apply Forall_app.
        split; [apply (relay_ok_of _ _ _ _ false), Ha3
               |apply (relay_ok_of _ _ _ _ true), Hv3]. }
      rewrite !relayed_app, !Hsleep. cbn [app].
      rewrite (relayed_same false _ _ ra Ha3), (relayed_other false _ _ rv Hv3), app_nil_r.
      rewrite (relayed_other true _ _ ra Ha3), (relayed_same true _ _ rv Hv3).
      split; [exact Ha1|]. split; [exact Hv1|].
      rewrite !not_elem_of_app. auto.
    + destruct Hv as (Hv3 & q & after & Hv1 & Hq). intros [= <- <-].
      split.
      { apply Forall_app. split; [exact Hsok|]. apply Forall_app.
        split; [apply (relay_ok_of _ _ _ _ false), Ha3|].
        apply Forall_app. split; [apply (relay_ok_of _ _ _ _ true), Hv3|].
        repeat constructor. }
      split; [rewrite !app_assoc; apply last_snoc|].
      exists (pc_next a), (q :: after).
      rewrite !relayed_app, !Hsleep. cbn [app].
      rewrite (relayed_same false _ _ ra Ha3), (relayed_other false _ _ rv Hv3).
      rewrite (relayed_other true _ _ ra Ha3), (relayed_same true _ _ rv Hv3).
      cbn. rewrite !app_nil_r.
      split; [exact Ha1|]. split; [exact Hv1|]. right. eauto.
  - destruct Ha as (Ha3 & q & after & Ha1 & Hq). intros [= <- <-].
    split.
    { apply Forall_app. split; [exact Hsok|]. apply Forall_app.
      split; [apply (relay_ok_of _ _ _ _ false), Ha3|repeat constructor]. }
    split; [rewrite !app_assoc; apply last_snoc|].
    exists (q :: after), (pc_next (po_video st)).
    rewrite !relayed_app, !Hsleep. cbn [app].
    rewrite (relayed_same false _ _ ra Ha3), (relayed_other true _ _ ra Ha3).
    cbn. rewrite !app_nil_r.
    split; [exact Ha1|]. split; [reflexivity|]. left. eauto.
Qed.

(** X5. The playout loop relays the packets of each list in list order, each
    once and none skipped: what it has relayed of a medium, followed by what
    is left of the list, is the list it started from; every packet goes out
    with the payload type of its medium and with the bytes its file holds
    for it, never more than the 1500 of the buffer.  The loop stops at a
    read that does not fit the buffer, which is its last event and is at the
    next packet of a list; it does not come to one when every packet of
    both lists fits. *)
Theorem playout_relays_in_order audio_pt video_pt afile vfile clock st st' ev :
  playout_loop audio_pt video_pt afile vfile clock st = (st', ev) ->
  Forall (relay_ok audio_pt video_pt afile vfile) ev
  /\ (exists rest_a rest_v,
        pc_next (po_audio st) = relayed false ev ++ rest_a
        /\ pc_next (po_video st) = relayed true ev ++ rest_v
        /\ match st' with
           | Some s =>
               rest_a = pc_next (po_audio s) /\ rest_v = pc_next (po_video s)
               /\ BufferOverrun ∉ ev
           | None =>
               last ev = Some BufferOverrun
               /\ ((exists q, head rest_a = Some q /\ ~ fits afile q)
                   \/ (exists q, head rest_v = Some q /\ ~ fits vfile q))
           end)
  /\ (Forall (fits afile) (pc_next (po_audio st)) ->
      Forall (fits vfile) (pc_next (po_video st)) -> is_Some st').
Proof.
  assert (Hmain :
    forall clock st st' ev,
      playout_loop audio_pt video_pt afile vfile clock st = (st', ev) ->
      Forall (relay_ok audio_pt video_pt afile vfile) ev
      /\ (exists rest_a rest_v,
            pc_next (po_audio st) = relayed false ev ++ rest_a
            /\ pc_next (po_video st) = relayed true ev ++ rest_v
            /\ match st' with
               | Some s =>
                   rest_a = pc_next (po_audio s) /\ rest_v = pc_next (po_video s)
                   /\ BufferOverrun ∉ ev
               | None =>
                   last ev = Some BufferOverrun
                   /\ ((exists q, head rest_a = Some q /\ ~ fits afile q)
                       \/ (exists q, head rest_v = Some q /\ ~ fits vfile q))
               end)).
  { clear clock st st' ev.
    induction clock as [|[now_a now_v] clock IH]; intros st st' ev; cbn [playout_loop].
    - intros [= <- <-]. split; [constructor|].
      exists (pc_next (po_audio st)), (pc_next (po_video st)).
      repeat split. apply not_elem_of_nil.
    - assert (Hgo :
        match playout_round audio_pt video_pt afile vfile st now_a now_v with
        | (Some st1, ev1) =>
            let '(st'', ev') := playout_loop audio_pt video_pt afile vfile clock st1 in
            (st'', ev1 ++ ev')
        | (None, ev1) => (None, ev1)
        end = (st', ev) ->
        Forall (relay_ok audio_pt video_pt afile vfile) ev
        /\ (exists rest_a rest_v,
              pc_next (po_audio st) = relayed false ev ++ rest_a
              /\ pc_next (po_video st) = relayed true ev ++ rest_v
              /\ match st' with
                 | Some s =>
                     rest_a = pc_next (po_audio s) /\ rest_v = pc_next (po_video s)
                     /\ BufferOverrun ∉ ev
                 | None =>
                     last ev = Some BufferOverrun
                     /\ ((exists q, head rest_a = Some q /\ ~ fits afile q)
                         \/ (exists q, head rest_v = Some q /\ ~ fits vfile q))
                 end)).
      { destruct (playout_round audio_pt video_pt afile vfile st now_a now_v)
          as [[st1|] ev1] eqn:Hr; apply playout_round_spec in Hr as (R0 & R).
        - destruct R as (R1 & R2 & R3).
          destruct (playout_loop audio_pt video_pt afile vfile clock st1)
            as [st2 ev2] eqn:Hl.
          intros [= <- <-].
          apply IH in Hl as (L0 & rest_a & rest_v & L1 & L2 & L3).
          split; [apply Forall_app; split; assumption|].
          exists rest_a, rest_v. rewrite !relayed_app, <- !app_assoc, <- L1, <- L2.
          split; [exact R1|]. split; [exact R2|].
          destruct st2 as [s|].
          + destruct L3 as (-> & -> & L3). repeat split.
            rewrite not_elem_of_app. auto.
          + destruct L3 as [L3 L4]. split; [|exact L4].
            destruct ev2 as [|e ev2 _] using rev_ind; [discriminate L3|].
            rewrite app_assoc, last_snoc. rewrite last_snoc in L3. exact L3.
        - destruct R as (R1 & rest_a & rest_v & R2 & R3 & R4).
          intros [= <- <-]. split; [exact R0|].
          exists rest_a, rest_v. auto. }
      destruct (pc_next (po_audio st)) as [|pa ra] eqn:Ea;
        destruct (pc_next (po_video st)) as [|pv rv] eqn:Ev;
        try exact Hgo.
      intros [= <- <-]. split; [constructor|].
      exists [], []. rewrite Ea, Ev. repeat split. apply not_elem_of_nil. }
  intros H. destruct (Hmain _ _ _ _ H) as (H0 & rest_a & rest_v & H1 & H2 & H3).
  split; [exact H0|]. split; [exists rest_a, rest_v; auto|].
  intros Fa Fv. destruct st' as [s|]; [eauto|].
  destruct H3 as [_ [(q & Hq & Hn)|(q & Hq & Hn)]]; exfalso; apply Hn.
  - rewrite H1 in Fa. apply Forall_app in Fa as [_ Fa].
    destruct rest_a as [|x rest_a]; [discriminate Hq|].
    injection Hq as ->. inversion Fa; assumption.
  - rewrite H2 in Fv. apply Forall_app in Fv as [_ Fv].
    destruct rest_v as [|x rest_v]; [discriminate Hq|].
    injection Hq as ->. inversion Fv; assumption.
Qed.

Lemma playout_relays_in_order_witness :
  exists s ev,
    playout_loop 111 100 three_audio_file three_video_file
      [(mk_timeval 10 0, mk_timeval 10 0); (mk_timeval 10 15000, mk_timeval 10 15000)]
      (playout_start three_audio three_video (mk_timeval 0 0)) = (Some s, ev)
    /\ three_audio = relayed false ev ++ pc_next (po_audio s)
    /\ three_video = relayed true ev ++ pc_next (po_video s).
Proof.
  destruct (playout_loop 111 100 three_audio_file three_video_file
              [(mk_timeval 10 0, mk_timeval 10 0); (mk_timeval 10 15000, mk_timeval 10 15000)]
              (playout_start three_audio three_video (mk_timeval 0 0)))
    as [st' ev] eqn:E.
  destruct (playout_relays_in_order 111 100 three_audio_file three_video_file _ _ _ _ E)
    as (_ & (rest_a & rest_v & H1 & H2 & H3) & H4).
  destruct H4 as [s ->].
  - repeat constructor; unfold fits; vm_compute; lia.
  - repeat constructor; unfold fits; vm_compute; lia.
  - destruct H3 as (-> & -> & _). exists s, ev. auto.
Defined.

(** X6. A round that sends video sends the whole run of packets that share
    the timestamp of the packet under the cursor, and only that run: the
    cursor stops at the first packet with another timestamp; each goes out
    as a video packet with the bytes the file holds for it, at most 1500.
    A round that comes to a packet of the run whose bytes do not fit the
    buffer has sent the packets of the run before it and overruns the
    buffer at that packet. *)
Theorem video_round_sends_whole_frame video_pt vfile st now p rest :
  pc_next st = p :: rest ->
  match video_round video_pt vfile st now with
  | Paced st' sent true =>
      exists group,
        map rl_packet sent = p :: group
        /\ rest = group ++ pc_next st'
        /\ Forall (fun q => fp_ts q = fp_ts p) group
        /\ (forall q rest', pc_next st' = q :: rest' -> fp_ts q <> fp_ts p)
        /\ Forall (relay_of true video_pt vfile) sent
  | Paced st' sent false => st' = st /\ sent = []
  | Overrun sent =>
      exists q after,
        p :: rest = map rl_packet sent ++ q :: after
        /\ Forall (fun x => fp_ts x = fp_ts p) (map rl_packet sent)
        /\ fp_ts q = fp_ts p /\ ~ fits vfile q
        /\ Forall (relay_of true video_pt vfile) sent
  end.
Proof.
  intros Hn. unfold video_round. rewrite Hn.
  assert (Hgrp : forall prev before,
    match (let '(sent, prev', next', overrun) :=
             send_group vfile (fp_ts p) prev (p :: rest) in
           if overrun then Overrun (map (video_relay video_pt) sent)
           else Paced {| pc_prev := prev'; pc_next := next'; pc_before := before |}
                  (map (video_relay video_pt) sent) true) with
    | Paced st' sent true =>
        exists group,
          map rl_packet sent = p :: group
          /\ rest = group ++ pc_next st'
          /\ Forall (fun q => fp_ts q = fp_ts p) group
          /\ (forall q rest', pc_next st' = q :: rest' -> fp_ts q <> fp_ts p)
          /\ Forall (relay_of true video_pt vfile) sent
    | Paced st' sent false => st' = st /\ sent = []
    | Overrun sent =>
        exists q after,
          p :: rest = map rl_packet sent ++ q :: after
          /\ Forall (fun x => fp_ts x = fp_ts p) (map rl_packet sent)
          /\ fp_ts q = fp_ts p /\ ~ fits vfile q
          /\ Forall (relay_of true video_pt vfile) sent
    end).
  { intros prev before.
    destruct (send_group vfile (fp_ts p) prev (p :: rest))
      as [[[sent prev'] next'] overrun] eqn:Hg.
    pose proof Hg as Hspec. apply send_group_spec in Hspec as (H1 & H2 & H3 & H4).
    destruct (video_relays video_pt vfile _ sent H3) as [Hm Hf].
    assert (Hts : Forall (fun x => fp_ts x = fp_ts p) (map fst sent)).
    { apply Forall_fmap. eapply Forall_impl; [exact H3|]. intros x [Hx _]. exact Hx. }
    destruct overrun.
    - destruct H4 as (q & after & -> & Hq & Hnf).
      exists q, after. rewrite Hm. auto.
    - cbn [pc_next]. destruct sent as [|[x bytes] sent].
      + cbn in H1. exfalso. apply (H4 p rest); [symmetry; exact H1|reflexivity].
      + cbn [map fst] in H1. injection H1 as <- H1.
        exists (map fst sent). rewrite Hm. cbn [map fst].
        split; [reflexivity|]. split; [exact H1|].
        split; [inversion Hts; assumption|]. split; [exact H4|exact Hf]. }
  destruct (pc_prev st) as [|prev prevs].
  - apply Hgrp.
  - destruct (_ <? _); [split; reflexivity|]. apply Hgrp.
Qed.

Lemma video_round_sends_whole_frame_witness :
  match video_round 100 three_video_file (pacer_start three_video (mk_timeval 0 0))
          (mk_timeval 10 0) with
  | Paced st' sent true =>
      exists group,
        map rl_packet sent = mk_frame_packet 1 0 900 10 :: group
        /\ [mk_frame_packet 2 0 900 920; mk_frame_packet 3 3000 900 1830]
           = group ++ pc_next st'
        /\ Forall (fun q => fp_ts q = 0) group
        /\ (forall q rest', pc_next st' = q :: rest' -> fp_ts q <> 0)
        /\ Forall (relay_of true 100 three_video_file) sent
  | Paced st' sent false =>
      st' = pacer_start three_video (mk_timeval 0 0) /\ sent = []
  | Overrun sent =>
      exists q after,
        three_video = map rl_packet sent ++ q :: after
        /\ Forall (fun x => fp_ts x = 0) (map rl_packet sent)
        /\ fp_ts q = 0 /\ ~ fits three_video_file q
        /\ Forall (relay_of true 100 three_video_file) sent
  end.
Proof.
  apply (video_round_sends_whole_frame 100 three_video_file
           (pacer_start three_video (mk_timeval 0 0)) (mk_timeval 10 0)
           (mk_frame_packet 1 0 900 10)
           [mk_frame_packet 2 0 900 920; mk_frame_packet 3 3000 900 1830]).
  reflexivity.
Defined.

(** X7. At a send the reference time of a medium moves forward by the
    spacing of the two packets, less one microsecond for every whole second
    of that spacing: the seconds of the spacing are added to [tv_sec] and
    subtracted, as a number, from [tv_usec]. *)
Theorem reference_time_advance before ts_diff :
  0 <= ts_diff ->
  micros (advance_reference before ts_diff)
  = micros before + ts_diff - ts_diff / 1000000.
Proof.
  intros Hd. unfold advance_reference, micros.
  rewrite Z.quot_div_nonneg by lia. rewrite Z.rem_mod_nonneg by lia.
  pose proof (Z.div_mod ts_diff 1000000 ltac:(lia)) as Hdm.
  assert (0 <= ts_diff / 1000000) by (apply Z.div_pos; lia).
  destruct (tv_usec before + ts_diff mod 1000000 >? 1000000);
    destruct (Z.gtb_spec (ts_diff / 1000000) 0); cbn [tv_sec tv_usec]; lia.
Qed.

Lemma reference_time_advance_witness :
  micros (advance_reference (mk_timeval 10 0) 2500000) = micros (mk_timeval 10 0) + 2500000 - 2.
Proof.
  apply (reference_time_advance (mk_timeval 10 0) 2500000). lia.
Defined.

End PlayoutFacts.

(** * The plugin: requests, media and hangup *)
Module PluginFacts.
Import Wire Json Frames Playout Core Plugin Lifecycle Stated WireFacts.

Lemma saved_frames_app l1 l2 :
  saved_frames (l1 ++ l2) = saved_frames l1 ++ saved_frames l2.
Proof. apply omap_app. Qed.

Lemma published_frames_app l1 l2 :
  published_frames (l1 ++ l2) = published_frames l1 ++ published_frames l2.
Proof. apply omap_app. Qed.

Lemma saved_frames_save t w buf :
  saved_frames (t ++ [TranscoderSaveFrame w buf]) = saved_frames t ++ [(w, buf)].
Proof. rewrite saved_frames_app. reflexivity. Qed.

Lemma saved_frames_pub t p buf video slot :
  saved_frames (t ++ [PubSaveFrame p buf video slot]) = saved_frames t.
Proof. rewrite saved_frames_app. apply app_nil_r. Qed.

Lemma published_frames_save t w buf :
  published_frames (t ++ [TranscoderSaveFrame w buf]) = published_frames t.
Proof. rewrite published_frames_app. apply app_nil_r. Qed.

Lemma published_frames_pub t p buf video slot :
  published_frames (t ++ [PubSaveFrame p buf video slot]) = published_frames t ++ [(p, buf)].
Proof. rewrite published_frames_app. reflexivity. Qed.

Lemma done_events_app t1 t2 : done_events (t1 ++ t2) = (done_events t1 + done_events t2)%nat.
Proof. induction t1 as [|e t1 IH]; cbn; [reflexivity|]. rewrite IH. lia. Qed.

Lemma handle_in (handle : Z) (S : gset Z) : handle ∈ {[handle]} ∪ S.
Proof. apply elem_of_union_l, elem_of_singleton. reflexivity. Qed.

Lemma other_in (h handle : Z) (S : gset Z) :
  h <> handle -> bool_decide (h ∈ {[handle]} ∪ S) = bool_decide (h ∈ S).
Proof.
  intros Hh. apply bool_decide_ext. rewrite elem_of_union, elem_of_singleton. tauto.
Qed.

Lemma handle_out (handle : Z) (S : gset Z) : handle ∉ S ∖ {[handle]}.
Proof. rewrite elem_of_difference, elem_of_singleton. tauto. Qed.

Lemma other_out (h handle : Z) (S : gset Z) :
  h <> handle -> bool_decide (h ∈ S ∖ {[handle]}) = bool_decide (h ∈ S).
Proof.
  intros Hh. apply bool_decide_ext. rewrite elem_of_difference, elem_of_singleton. tauto.
Qed.

(** X8. The id the handler draws for a new transcoding is never 0 and never
    the id of an entry of the catalog; it is one of the numbers drawn. *)
Theorem random_id_fresh draws (catalog : gmap Z nat) id :
  random_id draws catalog = Some id ->
  id <> 0 /\ catalog !! id = None /\ id ∈ draws.
Proof.
  induction draws as [|d draws IH]; cbn [random_id]; [discriminate|].
  destruct (Z.eqb_spec d 0) as [->|Hd]; cbn [orb].
  - intros H. destruct (IH H) as (H1 & H2 & H3).
    repeat split; [assumption..|]. apply elem_of_cons. right. exact H3.
  - case_bool_decide as Hc.
    + intros H. destruct (IH H) as (H1 & H2 & H3).
      repeat split; [assumption..|]. apply elem_of_cons. right. exact H3.
    + intros [= <-]. repeat split; [exact Hd| |apply elem_of_cons; left; reflexivity].
      destruct (catalog !! d) eqn:E; [|reflexivity]. exfalso. apply Hc. eauto.
Qed.

Lemma random_id_fresh_witness :
  77 <> 0 /\ ({[ 5 := 0%nat ]} : gmap Z nat) !! 77 = None /\ 77 ∈ [0; 5; 77; 78].
Proof.
  apply (random_id_fresh [0; 5; 77; 78] {[ 5 := 0%nat ]} 77). reflexivity.
Defined.


Section WithCore.
Context `{core : gateway_core}.

Lemma strcaseeq_as (text name : string) :
  strcaseeq text name = true -> lowercase text = lowercase name.
Proof. unfold strcaseeq. apply bool_decide_eq_true. Qed.

Lemma list_fold pl items acc :
  foldl (list_step pl) (JArray acc) items = JArray (acc ++ omap (completed_entry pl) items).
Proof.
  revert acc. induction items as [|e items IH]; intros acc.
  - cbn. rewrite app_nil_r. reflexivity.
  - change (omap (completed_entry pl) (e :: items))
      with (match completed_entry pl e with
            | Some y => y :: omap (completed_entry pl) items
            | None => omap (completed_entry pl) items
            end).
    cbn [foldl]. unfold list_step at 2, completed_entry at 1.
    destruct (recs pl !! e.2) as [rec|]; [|apply IH].
    destruct (rec_completed rec); cbn [negb]; [|apply IH].
    cbn [json_array_append_new]. rewrite IH, <- app_assoc. reflexivity.
Qed.

Lemma list_transcodings_items pl :
  list_transcodings pl = JArray (omap (completed_entry pl) (map_to_list (transcoding pl))).
Proof. unfold list_transcodings, json_array. apply list_fold. Qed.

Lemma to_int64_inj a b :
  0 <= a < uint64_mod -> 0 <= b < uint64_mod -> to_int64 a = to_int64 b -> a = b.
Proof.
  unfold to_int64, uint64_mod. intros Ha Hb.
  destruct (Z.ltb_spec a 9223372036854775808), (Z.ltb_spec b 9223372036854775808); lia.
Qed.

Lemma list_entry_id rec :
  json_object_get (Some (list_entry rec)) "id" = Some (JInteger (to_int64 (rec_id rec))).
Proof.
  unfold list_entry.
  destruct (rec_name rec), (rec_acodec rec), (rec_vcodec rec); reflexivity.
Qed.

(** C7. The answer to [list] is the object with "transcode": "list" and the
    array of the completed entries of the catalog: every element describes a
    completed entry, none carries the id of an entry that is not completed,
    and with an empty catalog the array is empty. *)
Theorem list_only_completed pl handle transaction root jsep session text :
  stopping pl = false -> initialized pl = true ->
  janus_transcode_lookup_session pl handle = Some session ->
  ses_destroyed session = false ->
  json_is_object root = true ->
  janus_validate_json_object root request_parameters
    JANUS_TRANSCODE_ERROR_MISSING_ELEMENT JANUS_TRANSCODE_ERROR_INVALID_ELEMENT = None ->
  json_string_value (json_object_get (Some root) "request") = Some text ->
  strcaseeq text "list" = true ->
  exists items,
    janus_transcode_handle_message pl handle transaction (Some root) jsep
    = Done (pl, {| pr_type := JANUS_PLUGIN_OK; pr_text := None;
                   pr_content := Some (JObject [("transcode"%string, JString "list");
                                                ("list"%string, JArray items)]) |})
    /\ (forall item, item ∈ items ->
          exists id a rec, transcoding pl !! id = Some a /\ recs pl !! a = Some rec
                           /\ rec_completed rec = true /\ item = list_entry rec)
    /\ (forall id a rec, catalog_keyed pl ->
          transcoding pl !! id = Some a -> recs pl !! a = Some rec ->
          rec_completed rec = false ->
          forall item, item ∈ items ->
            json_object_get (Some item) "id" <> Some (JInteger (to_int64 id)))
    /\ (transcoding pl = ∅ -> items = []).
Proof.
  intros Hs Hi Hl Hd Ho Hv Hr Ht.
  exists (omap (completed_entry pl) (map_to_list (transcoding pl))).
  assert (Hitem : forall item, item ∈ omap (completed_entry pl) (map_to_list (transcoding pl)) ->
            exists id a rec, transcoding pl !! id = Some a /\ recs pl !! a = Some rec
                             /\ rec_completed rec = true /\ item = list_entry rec).
  { intros item [[id a] [Hin He]]%list_elem_of_omap.
    apply elem_of_map_to_list in Hin. unfold completed_entry in He. cbn in He.
    destruct (recs pl !! a) as [rec|] eqn:Hrec; [|discriminate].
    destruct (rec_completed rec) eqn:Hc; [|discriminate].
    injection He as <-. eauto 10. }
  split; [|split; [exact Hitem|split]].
  - unfold janus_transcode_handle_message.
    rewrite Hs, Hi, Hl, Hd, Ho, Hv, Hr. cbn [orb negb].
    apply strcaseeq_as in Ht. unfold strcaseeq. rewrite Ht.
    rewrite list_transcodings_items. reflexivity.
  - intros id a rec Hkey Hid Hrec Hc item Hin Heq.
    destruct (Hitem item Hin) as (id' & a' & rec' & Hid' & Hrec' & Hc' & ->).
    rewrite list_entry_id in Heq. injection Heq as Heq.
    destruct (Hkey _ _ _ Hid Hrec) as [E1 R1].
    destruct (Hkey _ _ _ Hid' Hrec') as [E2 R2].
    rewrite E2 in Heq. apply to_int64_inj in Heq; [|assumption..].
    subst id'. rewrite Hid in Hid'. injection Hid' as <-.
    rewrite Hrec in Hrec'. injection Hrec' as <-. congruence.
  - intros ->. rewrite map_to_list_empty. reflexivity.
Qed.

(** C9 (amended). A [configure] that passes validation and carries
    video-keyframe-interval leaves the session with an interval of 1000 ms,
    whatever the value, and reports 1000 in the settings of the answer; a
    [configure] that does not pass validation is answered with the error of
    the validation and changes nothing, the interval neither; a newly
    created session has 15000 ms. *)
Theorem configure_keyframe_interval env pl handle transaction root jsep session text :
  stopping pl = false -> initialized pl = true ->
  janus_transcode_lookup_session pl handle = Some session ->
  ses_destroyed session = false ->
  json_is_object root = true ->
  janus_validate_json_object root request_parameters
    JANUS_TRANSCODE_ERROR_MISSING_ELEMENT JANUS_TRANSCODE_ERROR_INVALID_ELEMENT = None ->
  json_string_value (json_object_get (Some root) "request") = Some text ->
  strcaseeq text "configure" = true ->
  match janus_validate_json_object root configure_parameters
          JANUS_TRANSCODE_ERROR_MISSING_ELEMENT JANUS_TRANSCODE_ERROR_INVALID_ELEMENT with
  | None =>
      forall v, json_object_get (Some root) "video-keyframe-interval" = Some v ->
        exists pl' response session',
          janus_transcode_handle_message pl handle transaction (Some root) jsep
          = Done (pl', {| pr_type := JANUS_PLUGIN_OK; pr_text := None;
                          pr_content := Some response |})
          /\ plugin_handle pl' !! handle = Some session'
          /\ ses_video_keyframe_interval session' = 1000
          /\ json_object_get (json_object_get (Some response) "settings")
               "video-keyframe-interval" = Some (JInteger 1000)
  | Some (error_code, error_cause) =>
      error_code <> 0 ->
      janus_transcode_handle_message pl handle transaction (Some root) jsep
      = Done (pl, answered (failure_event error_code error_cause))
  end
  /\ (forall h, exists fresh,
        plugin_handle (janus_transcode_create_session env pl h).1 !! h = Some fresh
        /\ ses_video_keyframe_interval fresh = 15000).
Proof.
  intros Hs Hi Hl Hd Ho Hv Hr Ht. split.
  - unfold janus_transcode_handle_message.
    rewrite Hs, Hi, Hl, Hd, Ho, Hv, Hr. cbn [orb negb].
    apply strcaseeq_as in Ht. unfold strcaseeq. rewrite Ht.
    cbn [bool_decide decide_rel].
    change (bool_decide (lowercase "configure" = lowercase "update")) with false.
    change (bool_decide (lowercase "configure" = lowercase "list")) with false.
    change (bool_decide (lowercase "configure" = lowercase "configure")) with true.
    cbv iota.
    destruct (janus_validate_json_object root configure_parameters _ _)
      as [[error_code error_cause]|].
    + intros Hz. unfold plugin_response. apply Z.eqb_neq in Hz. rewrite Hz.
      cbn [andb negb]. rewrite Hz. reflexivity.
    + intros v Hk. rewrite Hk.
      eexists _, _, _. split; [reflexivity|]. split; [|split].
      * unfold set_session. cbn. apply lookup_insert_eq.
      * reflexivity.
      * reflexivity.
  - intros h. unfold janus_transcode_create_session. rewrite Hs, Hi. cbn [orb negb fst].
    eexists. split; [apply lookup_insert_eq|reflexivity].
Qed.

Lemma feedback_ramp now handle s :
  0 < ses_video_remb_startup s <= 4 ->
  rembs (feedback now handle s).2 = [ses_video_bitrate s / ses_video_remb_startup s]
  /\ ses_video_remb_startup (feedback now handle s).1 = ses_video_remb_startup s - 1
  /\ ses_video_bitrate (feedback now handle s).1 = ses_video_bitrate s
  /\ ses_video_remb_last (feedback now handle s).1 = now.
Proof.
  intros Hs. unfold feedback, janus_transcode_send_rtcp_feedback. cbn [negb Z.eqb Pos.eqb].
  destruct (Z.gtb_spec (ses_video_remb_startup s) 0) as [_|]; [|lia]. cbn [orb].
  assert (Hw : wrap32 (ses_video_remb_startup s - 1) = ses_video_remb_startup s - 1)
    by (unfold wrap32; apply Z.mod_small; lia).
  rewrite Hw.
  match goal with |- context [if ?c then _ else _] => destruct c end;
    cbn; rewrite ?omap_app; cbn; auto.
Qed.

Lemma feedback_steady now handle s :
  ses_video_remb_startup s = 0 ->
  rembs (feedback now handle s).2
  = (if 5000000 <=? now - ses_video_remb_last s then [ses_video_bitrate s] else [])
  /\ ses_video_remb_startup (feedback now handle s).1 = 0
  /\ ses_video_bitrate (feedback now handle s).1 = ses_video_bitrate s
  /\ ses_video_remb_last (feedback now handle s).1
     = (if 5000000 <=? now - ses_video_remb_last s then now else ses_video_remb_last s).
Proof.
  intros Hs. unfold feedback, janus_transcode_send_rtcp_feedback. cbn [negb Z.eqb Pos.eqb].
  rewrite Hs. cbn [Z.gtb Z.compare orb]. unfold G_USEC_PER_SEC.
  change (5 * 1000000) with 5000000. rewrite Z.geb_leb.
  destruct (5000000 <=? now - ses_video_remb_last s);
  match goal with |- context [if ?c then _ else _] => destruct c end;
    cbn; rewrite ?Hs; auto.
Qed.

(** The helper follows the schedule of the specification from any point of
    it: [i] calls made, the ramp counter at what is left of 4. *)
Lemma feedback_rembs_claimed handle nows :
  forall s i,
    ses_video_remb_startup s = Z.max 0 (4 - Z.of_nat i) ->
    feedback_rembs handle s nows
    = claimed_rembs (ses_video_bitrate s) i (ses_video_remb_last s) nows.
Proof.
  induction nows as [|now rest IH]; intros s i Hs; [reflexivity|].
  cbn [feedback_rembs claimed_rembs].
  destruct (Nat.ltb_spec i 4) as [Hi|Hi].
  - destruct (feedback_ramp now handle s) as (E & S1 & B1 & L1); [lia|].
    rewrite E, (IH _ (S i)), B1, L1 by lia.
    do 2 f_equal. f_equal. lia.
  - destruct (feedback_steady now handle s) as (E & S1 & B1 & L1); [lia|].
    rewrite E, (IH _ (S i)), B1, L1 by lia.
    change (5 * 1000000) with 5000000.
    destruct (5000000 <=? now - ses_video_remb_last s); reflexivity.
Qed.

(** C8. From a session whose ramp counter is 4, as session creation leaves
    it, the first four calls of the feedback helper for video send REMB with
    B/4, B/3, B/2 and B, whatever the time; every later call sends REMB with
    B exactly when at least 5 seconds have passed since the previous REMB,
    the fourth of the ramp or a later one, and nothing otherwise: the calls
    send what the schedule of the specification gives, however many there
    are. *)
Theorem remb_ramp_then_every_five_seconds env pl handle s :
  ses_video_remb_startup s = 4 ->
  let B := ses_video_bitrate s in
  (forall nows,
     feedback_rembs handle s nows = claimed_rembs B 0 (ses_video_remb_last s) nows)
  /\ (forall t1 t2 t3 t4 later,
        feedback_rembs handle s (t1 :: t2 :: t3 :: t4 :: later)
        = [B / 4] :: [B / 3] :: [B / 2] :: [B] :: claimed_rembs B 4 t4 later)
  /\ (stopping pl = false -> initialized pl = true ->
      exists fresh,
        plugin_handle (janus_transcode_create_session env pl handle).1 !! handle = Some fresh
        /\ ses_video_remb_startup fresh = 4).
Proof.
  intros H4 B.
  assert (Hall : forall nows,
             feedback_rembs handle s nows
             = claimed_rembs B 0 (ses_video_remb_last s) nows).
  { intros nows. apply feedback_rembs_claimed. rewrite H4. reflexivity. }
  split; [exact Hall|]. split.
  - intros t1 t2 t3 t4 later. rewrite Hall. cbn [claimed_rembs Nat.ltb Nat.leb].
    change (4 - Z.of_nat 0) with 4. change (4 - Z.of_nat 1) with 3.
    change (4 - Z.of_nat 2) with 2. change (4 - Z.of_nat 3) with 1.
    rewrite Z.div_1_r. reflexivity.
  - intros Hs Hi. unfold janus_transcode_create_session. rewrite Hs, Hi. cbn [orb negb fst].
    eexists. split; [apply lookup_insert_eq|reflexivity].
Qed.

Lemma header_ssrc_range buf : Forall is_byte buf -> 0 <= header_ssrc buf < 4294967296.
Proof. intros H. apply load32_range; apply byte_at_is_byte, H. Qed.

Lemma header_timestamp_range buf : Forall is_byte buf -> 0 <= header_timestamp buf < 4294967296.
Proof. intros H. apply load32_range; apply byte_at_is_byte, H. Qed.

Lemma header_seq_number_range buf : Forall is_byte buf -> 0 <= header_seq_number buf < 65536.
Proof. intros H. apply load16_range; apply byte_at_is_byte, H. Qed.

Lemma header_ssrc_set v buf :
  (12 <= length buf)%nat -> 0 <= v < 4294967296 -> header_ssrc (set_header_ssrc v buf) = v.
Proof.
  intros Hl Hv. unfold header_ssrc, set_header_ssrc.
  rewrite !byte_at_poke_all_inside by (cbn; lia). cbn. apply load32_bytes32, Hv.
Qed.

Lemma header_timestamp_set v buf :
  (12 <= length buf)%nat -> 0 <= v < 4294967296 ->
  header_timestamp (set_header_timestamp v buf) = v.
Proof.
  intros Hl Hv. unfold header_timestamp, set_header_timestamp.
  rewrite !byte_at_poke_all_inside by (cbn; lia). cbn. apply load32_bytes32, Hv.
Qed.

Lemma header_seq_number_set v buf :
  (12 <= length buf)%nat -> 0 <= v < 65536 ->
  header_seq_number (set_header_seq_number v buf) = v.
Proof.
  intros Hl Hv. unfold header_seq_number, set_header_seq_number.
  rewrite !byte_at_poke_all_inside by (cbn; lia). cbn.
  destruct (load16_decompose v Hv) as (b0 & b1 & H0 & H1 & ->).
  pose proof (bytes16_load16 b0 b1 H0 H1) as E. unfold bytes16 in E.
  injection E as -> ->. reflexivity.
Qed.

Lemma header_ssrc_other v buf :
  header_ssrc (set_header_timestamp v buf) = header_ssrc buf
  /\ header_ssrc (set_header_seq_number v buf) = header_ssrc buf.
Proof.
  unfold header_ssrc, set_header_timestamp, set_header_seq_number.
  rewrite !byte_at_poke_all_outside by (cbn; lia). auto.
Qed.

Lemma header_timestamp_other v buf :
  header_timestamp (set_header_ssrc v buf) = header_timestamp buf
  /\ header_timestamp (set_header_seq_number v buf) = header_timestamp buf.
Proof.
  unfold header_timestamp, set_header_ssrc, set_header_seq_number.
  rewrite !byte_at_poke_all_outside by (cbn; lia). auto.
Qed.

Lemma set_header_length v buf :
  length (set_header_ssrc v buf) = length buf
  /\ length (set_header_timestamp v buf) = length buf
  /\ length (set_header_seq_number v buf) = length buf.
Proof.
  unfold set_header_ssrc, set_header_timestamp, set_header_seq_number.
  rewrite !poke_all_length. auto.
Qed.

Lemma trace_emit e (pl : plugin) : trace (emit e pl) = trace pl ++ [e].
Proof. reflexivity. Qed.

Lemma trace_emit_all sent (pl : plugin) :
  trace (foldl (fun pl e => emit e pl) pl sent) = trace pl ++ sent.
Proof.
  revert pl. induction sent as [|e sent IH]; intros pl; cbn [foldl].
  - rewrite app_nil_r. reflexivity.
  - rewrite IH, trace_emit, <- app_assoc. reflexivity.
Qed.

Lemma feedback_only_rtcp now handle video s :
  forallb is_rtcp (janus_transcode_send_rtcp_feedback now handle video s).2 = true.
Proof.
  unfold janus_transcode_send_rtcp_feedback.
  repeat match goal with
  | |- context [if ?c then _ else _] => destruct c
  end; reflexivity.
Qed.

Lemma saved_frames_rtcp sent : forallb is_rtcp sent = true -> saved_frames sent = [].
Proof.
  induction sent as [|e sent IH]; [reflexivity|].
  cbn [forallb]. intros [He Hs]%andb_prop. destruct e; try discriminate. apply IH, Hs.
Qed.

Lemma published_frames_rtcp sent : forallb is_rtcp sent = true -> published_frames sent = [].
Proof.
  induction sent as [|e sent IH]; [reflexivity|].
  cbn [forallb]. intros [He Hs]%andb_prop. destruct e; try discriminate. apply IH, Hs.
Qed.

Lemma set_session_lookup handle s (pl : plugin) :
  plugin_handle (set_session handle s pl) !! handle = Some s.
Proof. cbn. apply lookup_insert_eq. Qed.

Lemma plugin_handle_emit_all sent (pl : plugin) :
  plugin_handle (foldl (fun pl e => emit e pl) pl sent) = plugin_handle pl.
Proof. revert pl. induction sent as [|e sent IH]; intros pl; cbn [foldl]; [|rewrite IH]; reflexivity. Qed.

Lemma feedback_keeps_vssrc now handle video s :
  ses_rec_vssrc (janus_transcode_send_rtcp_feedback now handle video s).1 = ses_rec_vssrc s.
Proof.
  unfold janus_transcode_send_rtcp_feedback.
  repeat match goal with
  | |- context [if ?c then _ else _] => destruct c
  end; reflexivity.
Qed.

Lemma feedback_keeps_simulcasting now handle video s :
  simulcasting (janus_transcode_send_rtcp_feedback now handle video s).1 = simulcasting s.
Proof.
  unfold janus_transcode_send_rtcp_feedback.
  repeat match goal with
  | |- context [if ?c then _ else _] => destruct c
  end; reflexivity.
Qed.

Lemma selected_packet_saved env pl handle video buf session a rec sim ctx :
  env_handle_stopped env = false -> stopping pl = false -> initialized pl = true ->
  plugin_handle pl !! handle = Some session ->
  ses_destroyed session = false -> ses_transcoder session = true ->
  ses_transcoding session = Some a -> recs pl !! a = Some rec ->
  video <> 0 -> simulcasting session = true ->
  janus_rtp_simulcasting_context_process_rtp (ses_sim_context session) buf
    (ses_ssrc session) (ses_rid session) (rec_vcodec rec) (ses_context session)
  = (true, sim, ctx) ->
  Forall is_byte buf -> (12 <= length buf)%nat ->
  0 <= stable_vssrc env session < 4294967296 ->
  exists pl' buf' session' to_writer to_sink,
    janus_transcode_incoming_rtp env pl (Some handle) video buf = Done (pl', buf')
    /\ saved_frames (trace pl') = saved_frames (trace pl) ++ [(ses_vrc session, to_writer)]
    /\ published_frames (trace pl')
       = published_frames (trace pl) ++ [(ses_pub session, to_sink)]
    /\ ntohl (header_ssrc to_writer) = stable_vssrc env session
    /\ header_ssrc to_sink = header_ssrc buf
    /\ plugin_handle pl' !! handle = Some session'
    /\ ses_rec_vssrc session' = stable_vssrc env session
    /\ simulcasting session' = simulcasting session
    /\ header_ssrc buf' = header_ssrc buf
    /\ header_timestamp buf' = header_timestamp buf
    /\ header_seq_number buf' = header_seq_number buf.
Proof.
  intros Hst Hs Hi Hh Hd Ht Ha Hr Hv Hsim Hp Hb Hl Hvs.
  unfold janus_transcode_incoming_rtp.
  rewrite Hst, Hs, Hi, Hh, Hd, Ht, Ha, Hsim, Hr. cbn [orb negb].
  destruct (Z.eqb_spec video 0) as [|_]; [contradiction|]. cbn [negb andb].
  rewrite Hp. cbn [negb].
  destruct (janus_rtp_header_update (take 12 buf) ctx true 0) as [header ctx'] eqn:Hu.
  set (buf1 := poke_all 0 (take 12 header) buf).
  assert (Hl1 : length buf1 = length buf) by apply poke_all_length.
  (* the VP8 descriptor *)
  set (s1 := set_context ctx' (set_context ctx (set_sim_context sim session))).
  match goal with |- context [let '(b, s) := ?vp in _] => 
    assert (Hvp : exists buf2 s2, vp = (buf2, s2) /\ length buf2 = length buf
                   /\ ses_rec_vssrc s2 = ses_rec_vssrc session
                   /\ ses_vrc s2 = ses_vrc session /\ ses_pub s2 = ses_pub session
                   /\ simulcasting s2 = simulcasting session);
    [| destruct Hvp as (buf2 & s2 & -> & Hl2 & Hv2 & Hw2 & Hp2 & Hsim2)]
  end.
  { destruct (videocodec_eqb (rec_vcodec rec) JANUS_VIDEOCODEC_VP8).
    - destruct (janus_rtp_payload buf1) as [o|].
      + destruct (janus_vp8_simulcast_descriptor_update _ _ _) as [payload vp8].
        eexists _, _. split; [reflexivity|]. rewrite poke_all_length. auto.
      + destruct (janus_vp8_simulcast_descriptor_update _ _ _) as [payload vp8].
        eexists _, _. split; [reflexivity|]. auto.
    - eexists _, _. split; [reflexivity|]. auto. }
  set (s3 := if ses_rec_vssrc s2 =? 0 then set_rec_vssrc (env_random_int env) s2 else s2).
  assert (Hv3 : ses_rec_vssrc s3 = stable_vssrc env session).
  { unfold s3, stable_vssrc. rewrite Hv2. destruct (ses_rec_vssrc session =? 0) eqn:E.
    - reflexivity.
    - exact Hv2. }
  assert (Hw3 : ses_vrc s3 = ses_vrc session).
  { unfold s3. destruct (ses_rec_vssrc s2 =? 0); exact Hw2. }
  assert (Hp3 : ses_pub s3 = ses_pub session).
  { unfold s3. destruct (ses_rec_vssrc s2 =? 0); exact Hp2. }
  assert (Hsim3 : simulcasting s3 = simulcasting session).
  { unfold s3. destruct (ses_rec_vssrc s2 =? 0); exact Hsim2. }
  destruct (janus_transcode_send_rtcp_feedback (env_monotonic_time env) handle video s3)
    as [s4 sent] eqn:Hf.
  pose proof (feedback_only_rtcp (env_monotonic_time env) handle video s3) as Hrtcp.
  pose proof (feedback_keeps_vssrc (env_monotonic_time env) handle video s3) as Hkeep.
  pose proof (feedback_keeps_simulcasting (env_monotonic_time env) handle video s3) as Hks.
  rewrite Hf in Hrtcp, Hkeep, Hks. cbn [fst snd] in Hrtcp, Hkeep, Hks.
  pose proof (header_ssrc_range buf Hb) as Rs.
  pose proof (header_timestamp_range buf Hb) as Rt.
  pose proof (header_seq_number_range buf Hb) as Rq.
  exists (foldl (fun pl e => emit e pl)
            (set_session handle s4
               (emit (PubSaveFrame (ses_pub s3)
                        (set_header_ssrc (htonl (ntohl (header_ssrc buf)))
                           (set_header_ssrc (htonl (ses_rec_vssrc s3)) buf2)) true 1)
                  (emit (TranscoderSaveFrame (ses_vrc s3)
                           (set_header_ssrc (htonl (ses_rec_vssrc s3)) buf2))
                     (if need_pli sim
                      then emit (RelayRtcp handle 1 Pli)
                             (set_session handle
                                (set_context ctx (set_sim_context sim session)) pl)
                      else set_session handle
                             (set_context ctx (set_sim_context sim session)) pl))))
            sent),
    (set_header_seq_number (htons (wrap16 (ntohs (header_seq_number buf))))
       (set_header_timestamp (htonl (ntohl (header_timestamp buf)))
          (set_header_ssrc (htonl (ntohl (header_ssrc buf)))
             (set_header_ssrc (htonl (ses_rec_vssrc s3)) buf2)))),
    s4,
    (set_header_ssrc (htonl (ses_rec_vssrc s3)) buf2),
    (set_header_ssrc (htonl (ntohl (header_ssrc buf)))
       (set_header_ssrc (htonl (ses_rec_vssrc s3)) buf2)).
  split; [reflexivity|].
  rewrite trace_emit_all. cbn [set_session trace]. rewrite !trace_emit.
  assert (Hpli : forall pl0 : plugin,
            saved_frames (trace (if need_pli sim then emit (RelayRtcp handle 1 Pli) pl0 else pl0))
            = saved_frames (trace pl0)
            /\ published_frames (trace (if need_pli sim then emit (RelayRtcp handle 1 Pli) pl0 else pl0))
               = published_frames (trace pl0)).
  { intros pl0. destruct (need_pli sim); [|auto].
    rewrite trace_emit, saved_frames_app, published_frames_app. cbn.
    rewrite !app_nil_r. auto. }
  destruct (Hpli (set_session handle (set_context ctx (set_sim_context sim session)) pl))
    as [Hpli1 Hpli2]. cbn [set_session trace] in Hpli1, Hpli2.
  split; [|split; [|split; [|split; [|split; [|split; [|split; [|split; [|split]]]]]]]].
  - rewrite saved_frames_app, (saved_frames_rtcp sent Hrtcp), app_nil_r.
    rewrite saved_frames_pub, saved_frames_save, Hpli1, Hw3. reflexivity.
  - rewrite published_frames_app, (published_frames_rtcp sent Hrtcp), app_nil_r.
    rewrite published_frames_pub, published_frames_save, Hpli2, Hp3. reflexivity.
  - rewrite header_ssrc_set; [|lia|apply bswap32_range].
    rewrite Hv3. unfold ntohl, htonl. apply bswap32_involutive, Hvs.
  - rewrite header_ssrc_set.
    + unfold ntohl, htonl. apply bswap32_involutive, Rs.
    + rewrite (proj1 (set_header_length _ _)). lia.
    + apply bswap32_range.
  - rewrite plugin_handle_emit_all. apply set_session_lookup.
  - rewrite Hkeep. exact Hv3.
  - rewrite Hks, Hsim3. exact Hsim.
  - rewrite (proj2 (header_ssrc_other _ _)), (proj1 (header_ssrc_other _ _)).
    rewrite header_ssrc_set.
    + unfold ntohl, htonl. apply bswap32_involutive, Rs.
    + rewrite (proj1 (set_header_length _ _)). lia.
    + apply bswap32_range.
  - rewrite (proj2 (header_timestamp_other _ _)).
    rewrite header_timestamp_set.
    + unfold ntohl, htonl. apply bswap32_involutive, Rt.
    + rewrite !(proj1 (set_header_length _ _)). lia.
    + apply bswap32_range.
  - rewrite header_seq_number_set.
    + unfold ntohs, htons, wrap16. rewrite Z.mod_small by apply bswap16_range.
      apply bswap16_involutive, Rq.
    + rewrite (proj1 (proj2 (set_header_length _ _))), !(proj1 (set_header_length _ _)). lia.
    + apply bswap16_range.
Qed.

Lemma saved_frames_emit_all sent (pl : plugin) :
  forallb is_rtcp sent = true ->
  saved_frames (trace (foldl (fun pl e => emit e pl) pl sent)) = saved_frames (trace pl).
Proof.
  intros H. rewrite trace_emit_all, saved_frames_app, (saved_frames_rtcp sent H).
  apply app_nil_r.
Qed.

(** One more video packet for a simulcast session whose capture has its
    SSRC: whatever becomes of the packet, the session keeps that SSRC, and
    the writer is handed nothing with another one. *)
Lemma video_step env pl handle buf pl' buf' session v :
  plugin_handle pl !! handle = Some session ->
  simulcasting session = true -> ses_rec_vssrc session = v ->
  v <> 0 -> 0 <= v < 4294967296 -> (12 <= length buf)%nat ->
  janus_transcode_incoming_rtp env pl (Some handle) 1 buf = Done (pl', buf') ->
  exists session' new,
    plugin_handle pl' !! handle = Some session'
    /\ simulcasting session' = true /\ ses_rec_vssrc session' = v
    /\ saved_frames (trace pl') = saved_frames (trace pl) ++ new
    /\ Forall (fun saved => ntohl (header_ssrc saved.2) = v) new.
Proof.
  intros Hh Hsim Hv Hv0 Hvr Hl. unfold janus_transcode_incoming_rtp.
  assert (Hsame : exists session' new,
             plugin_handle pl !! handle = Some session'
             /\ simulcasting session' = true /\ ses_rec_vssrc session' = v
             /\ saved_frames (trace pl) = saved_frames (trace pl) ++ new
             /\ Forall (fun saved => ntohl (header_ssrc saved.2) = v) new).
  { exists session, []. rewrite app_nil_r. repeat split; try assumption. constructor. }
  destruct (_ || _); [intros [= <- <-]; exact Hsame|].
  rewrite Hh.
  destruct (ses_destroyed session); [intros [= <- <-]; exact Hsame|].
  destruct (negb (ses_transcoder session)); [intros [= <- <-]; exact Hsame|].
  destruct (ses_transcoding session) as [a|]; [|intros [= <- <-]; exact Hsame].
  clear Hsame. rewrite Hsim. cbn [negb Z.eqb andb].
  destruct (recs pl !! a) as [rec|]; [|discriminate].
  destruct (janus_rtp_simulcasting_context_process_rtp _ _ _ _ _ _)
    as [[save sim] context].
  set (s0 := set_context context (set_sim_context sim session)).
  assert (Hpli : forall pl0 : plugin,
            saved_frames (trace (if need_pli sim then emit (RelayRtcp handle 1 Pli) pl0
                                 else pl0))
            = saved_frames (trace pl0)
            /\ plugin_handle (if need_pli sim then emit (RelayRtcp handle 1 Pli) pl0
                              else pl0) = plugin_handle pl0).
  { intros pl0. destruct (need_pli sim); [|auto].
    rewrite trace_emit, saved_frames_app. cbn. rewrite app_nil_r. auto. }
  destruct (Hpli (set_session handle s0 pl)) as [Hpli1 Hpli2].
  destruct save; cbn [negb].
  - destruct (janus_rtp_header_update _ _ _ _) as [header context'].
    set (s1 := set_context context' s0).
    set (b1 := poke_all 0 (take 12 header) buf).
    assert (Hb1 : length b1 = length buf) by apply poke_all_length.
    match goal with |- context [let '(b, s) := ?vp in _] =>
      assert (Hvp : exists b2 s2, vp = (b2, s2) /\ length b2 = length buf
                     /\ ses_rec_vssrc s2 = v /\ simulcasting s2 = true);
      [| destruct Hvp as (b2 & s2 & -> & Hl2 & Hv2 & Hsim2)]
    end.
    { destruct (videocodec_eqb (rec_vcodec rec) JANUS_VIDEOCODEC_VP8).
      - destruct (janus_rtp_payload b1) as [o|].
        + destruct (janus_vp8_simulcast_descriptor_update _ _ _) as [payload vp8].
          eexists _, _. split; [reflexivity|]. rewrite poke_all_length. auto.
        + destruct (janus_vp8_simulcast_descriptor_update _ _ _) as [payload vp8].
          eexists _, _. split; [reflexivity|]. auto.
      - eexists _, _. split; [reflexivity|]. auto. }
    destruct (Z.eqb_spec (ses_rec_vssrc s2) 0) as [E|_]; [congruence|].
    destruct (janus_transcode_send_rtcp_feedback (env_monotonic_time env) handle 1 s2)
      as [s4 sent] eqn:Hf.
    pose proof (feedback_only_rtcp (env_monotonic_time env) handle 1 s2) as Hrtcp.
    pose proof (feedback_keeps_vssrc (env_monotonic_time env) handle 1 s2) as Hkeep.
    pose proof (feedback_keeps_simulcasting (env_monotonic_time env) handle 1 s2) as Hks.
    rewrite Hf in Hrtcp, Hkeep, Hks. cbn [fst snd] in Hrtcp, Hkeep, Hks.
    intros [= <- <-].
    exists s4, [(ses_vrc s2, set_header_ssrc (htonl (ses_rec_vssrc s2)) b2)].
    split; [rewrite plugin_handle_emit_all; apply set_session_lookup|].
    split; [congruence|]. split; [congruence|]. split.
    + rewrite (saved_frames_emit_all _ _ Hrtcp). cbn [set_session trace].
      rewrite !trace_emit, saved_frames_pub, saved_frames_save, Hpli1. reflexivity.
    + constructor; [|constructor]. cbn [snd].
      rewrite header_ssrc_set; [|lia|apply bswap32_range].
      rewrite Hv2. unfold ntohl, htonl. apply bswap32_involutive, Hvr.
  - intros [= <- <-]. exists s0, []. rewrite Hpli2, Hpli1, app_nil_r.
    split; [apply set_session_lookup|]. repeat split; try assumption. constructor.
Qed.

Lemma ingest_keeps_ssrc handle v packets :
  v <> 0 -> 0 <= v < 4294967296 ->
  Forall (fun packet : environment * list Z => (12 <= length packet.2)%nat) packets ->
  forall pl pl' session,
    plugin_handle pl !! handle = Some session ->
    simulcasting session = true -> ses_rec_vssrc session = v ->
    ingest pl handle packets = Done pl' ->
    exists session' later,
      plugin_handle pl' !! handle = Some session'
      /\ ses_rec_vssrc session' = v
      /\ saved_frames (trace pl') = saved_frames (trace pl) ++ later
      /\ Forall (fun saved => ntohl (header_ssrc saved.2) = v) later.
Proof.
  intros Hv0 Hvr. induction 1 as [|[env buf] packets Hl _ IH];
    intros pl pl' session Hh Hsim Hv; cbn [ingest].
  - intros [= <-]. exists session, []. rewrite app_nil_r. repeat split; try assumption.
    constructor.
  - destruct (janus_transcode_incoming_rtp env pl (Some handle) 1 buf)
      as [[pl1 buf1]| |] eqn:E; try discriminate.
    intros Hrest.
    destruct (video_step _ _ _ _ _ _ _ _ Hh Hsim Hv Hv0 Hvr Hl E)
      as (s1 & new & Hh1 & Hsim1 & Hv1 & Hs1 & Hn1).
    destruct (IH _ _ _ Hh1 Hsim1 Hv1 Hrest) as (s2 & later & Hh2 & Hv2 & Hs2 & Hn2).
    exists s2, (new ++ later). rewrite Hs2, Hs1, <- app_assoc.
    repeat split; try assumption. apply Forall_app. split; assumption.
Qed.

(** C6 (the code misses the claim). A simulcast video packet kept for
    saving reaches the writer with the SSRC of the capture and the live sink
    with the SSRC it arrived with, not with the one of the capture; when the
    call returns the packet carries its original SSRC, timestamp and
    sequence number.  The SSRC of the capture is the one the session has,
    or, if it has none yet, the random number drawn at this packet; once it
    is not 0 the session keeps it, and every video packet the writer is
    handed from then on carries it. *)
Theorem simulcast_output_ssrc env pl handle video buf session a rec sim ctx :
  env_handle_stopped env = false -> stopping pl = false -> initialized pl = true ->
  plugin_handle pl !! handle = Some session ->
  ses_destroyed session = false -> ses_transcoder session = true ->
  ses_transcoding session = Some a -> recs pl !! a = Some rec ->
  video <> 0 -> simulcasting session = true ->
  janus_rtp_simulcasting_context_process_rtp (ses_sim_context session) buf
    (ses_ssrc session) (ses_rid session) (rec_vcodec rec) (ses_context session)
  = (true, sim, ctx) ->
  Forall is_byte buf -> (12 <= length buf)%nat ->
  0 <= stable_vssrc env session < 4294967296 ->
  exists pl' buf' session' to_writer to_sink,
    janus_transcode_incoming_rtp env pl (Some handle) video buf = Done (pl', buf')
    /\ saved_frames (trace pl') = saved_frames (trace pl) ++ [(ses_vrc session, to_writer)]
    /\ published_frames (trace pl')
       = published_frames (trace pl) ++ [(ses_pub session, to_sink)]
    /\ ntohl (header_ssrc to_writer) = stable_vssrc env session
    /\ header_ssrc to_sink = header_ssrc buf
    /\ plugin_handle pl' !! handle = Some session'
    /\ ses_rec_vssrc session' = stable_vssrc env session
    /\ header_ssrc buf' = header_ssrc buf
    /\ header_timestamp buf' = header_timestamp buf
    /\ header_seq_number buf' = header_seq_number buf
    /\ (stable_vssrc env session <> 0 ->
        forall packets pl'',
          Forall (fun packet : environment * list Z => (12 <= length packet.2)%nat)
            packets ->
          ingest pl' handle packets = Done pl'' ->
          exists session'' later,
            plugin_handle pl'' !! handle = Some session''
            /\ ses_rec_vssrc session'' = stable_vssrc env session
            /\ saved_frames (trace pl'') = saved_frames (trace pl') ++ later
            /\ Forall (fun saved => ntohl (header_ssrc saved.2) = stable_vssrc env session)
                 later).
Proof.
  intros Hst Hs Hi Hh Hd Ht Ha Hr Hv Hsim Hp Hb Hl Hvs.
  destruct (selected_packet_saved env pl handle video buf session a rec sim ctx
              Hst Hs Hi Hh Hd Ht Ha Hr Hv Hsim Hp Hb Hl Hvs)
    as (pl' & buf' & session' & to_writer & to_sink
        & E & H1 & H2 & H3 & H4 & H5 & H6 & H7 & H8 & H9 & H10).
  exists pl', buf', session', to_writer, to_sink.
  repeat (split; [assumption|]).
  intros Hnz packets pl'' Hlen Hin.
  apply (ingest_keeps_ssrc handle (stable_vssrc env session) packets Hnz Hvs Hlen
           pl' pl'' session' H5 ltac:(congruence) H6 Hin).
Qed.

Lemma trace_close_transcoder rc (pl : plugin) :
  trace (close_transcoder rc pl)
  = trace pl ++ match rc with Some rc => [TranscoderClose rc; TranscoderDestroy rc] | None => [] end.
Proof. destruct rc; cbn; rewrite <- ?app_assoc, ?app_nil_r; reflexivity. Qed.

Lemma trace_close_pub pub (pl : plugin) :
  trace (close_pub pub pl)
  = trace pl ++ match pub with Some pub => [PubClose pub; PubDestroy pub] | None => [] end.
Proof. destruct pub; cbn; rewrite <- ?app_assoc, ?app_nil_r; reflexivity. Qed.

Lemma closed_fields session handle pl :
  stopping (closed session handle pl) = stopping pl
  /\ initialized (closed session handle pl) = initialized pl
  /\ files (closed session handle pl) = files pl
  /\ recs (closed session handle pl) = recs pl
  /\ transcoding (closed session handle pl) = transcoding pl
  /\ transcoding_path (closed session handle pl) = transcoding_path pl
  /\ sessions (closed session handle pl) = sessions pl
  /\ plugin_handle (closed session handle pl) = plugin_handle pl
  /\ trace (closed session handle pl)
     = trace pl ++ [PushEvent handle None done_event None] ++ close_events session.
Proof.
  unfold closed, close_events.
  destruct (ses_pub session), (ses_vrc session), (ses_arc session); cbn;
    rewrite <- ?app_assoc; repeat split; reflexivity.
Qed.

(** What one call of the hangup does to a session that is not destroyed and
    not already hanging up. *)
Lemma hangup_once env pl handle session :
  stopping pl = false -> initialized pl = true ->
  janus_transcode_lookup_session pl handle = Some session ->
  ses_destroyed session = false -> ses_hangingup session = false ->
  (forall a, ses_transcoding session = Some a -> is_Some (recs pl !! a)) ->
  exists pl' session',
    janus_transcode_hangup_media_internal env pl handle = Done pl'
    /\ trace pl' = trace pl ++ [PushEvent handle None done_event None] ++ close_events session
    /\ janus_transcode_lookup_session pl' handle = Some session'
    /\ (ses_arc session' = None /\ ses_vrc session' = None /\ ses_pub session' = None
        /\ ses_transcoding session' = None
        /\ ses_hangingup session' = false /\ ses_destroyed session' = false
        /\ ses_active session' = false /\ ses_transcoder session' = ses_transcoder session)
    /\ stopping pl' = false /\ initialized pl' = true
    /\ files pl'
       = (if ses_transcoder session && env_fopen_ok env then
            match ses_transcoding session with
            | Some a =>
                match recs pl !! a with
                | Some rec =>
                    <[snprintf 1024 (transcoding_path pl +:+ "/" +:+ u64_text (rec_id rec)
                                     +:+ ".nfo") := bytes_of_string (nfo_text rec)]>
                      (files pl)
                | None => files pl
                end
            | None => files pl
            end
          else files pl).
Proof.
  intros Hs Hi Hl Hd Hh Hrec.
  unfold janus_transcode_hangup_media_internal. rewrite Hs, Hi, Hl. cbn [orb negb].
  assert (Hin : bool_decide (handle ∈ sessions pl) = true).
  { unfold janus_transcode_lookup_session in Hl.
    destruct (bool_decide (handle ∈ sessions pl)); [reflexivity|discriminate]. }
  assert (Hlook : forall (p : plugin) s,
            sessions p = sessions pl ->
            janus_transcode_lookup_session (set_session handle s p) handle = Some s).
  { intros p s Hp. unfold janus_transcode_lookup_session. cbn. rewrite Hp, Hin.
    apply lookup_insert_eq. }
  replace (ses_destroyed (set_active false session)) with false by (symmetry; exact Hd).
  replace (ses_hangingup (set_active false session)) with false by (symmetry; exact Hh).
  cbn [set_active set_hangingup set_context set_sim_context set_vp8_context
       set_arc set_vrc set_pub ses_arc ses_vrc ses_pub ses_transcoder ses_transcoding].
  fold (closed session handle pl).
  destruct (closed_fields session handle pl) as (F1 & F2 & F3 & F4 & F5 & F6 & F7 & F8 & F9).
  set (P := closed session handle pl) in *.
  assert (Hgoal : forall (Q : plugin) s',
            trace Q = trace P -> sessions Q = sessions P ->
            stopping Q = stopping P -> initialized Q = initialized P ->
            trace (set_session handle s' Q)
            = trace pl ++ [PushEvent handle None done_event None] ++ close_events session
            /\ janus_transcode_lookup_session (set_session handle s' Q) handle = Some s'
            /\ stopping (set_session handle s' Q) = false
            /\ initialized (set_session handle s' Q) = true).
  { intros Q s' Q1 Q2 Q3 Q4. split; [cbn; rewrite Q1; exact F9|].
    split; [apply Hlook; rewrite Q2; exact F7|]. cbn. rewrite Q3, Q4, F1, F2. auto. }
  destruct (ses_transcoding session) as [a|] eqn:Ha.
  - destruct (Hrec a eq_refl) as [rec Hr]. rewrite Hr.
    destruct (ses_transcoder session) eqn:Ht; cbn [andb].
    + rewrite F4, Hr. destruct (env_fopen_ok env) eqn:Hf; cbn [negb].
      * cbn [set_rec recs set_files]. rewrite lookup_insert_eq.
        eexists _, _. split; [reflexivity|].
        match goal with |- trace (set_session _ ?s ?Q) = _ /\ _ =>
          destruct (Hgoal Q s) as (G1 & G2 & G3 & G4); try reflexivity end.
        split; [exact G1|]. split; [exact G2|]. cbn. rewrite Hd, Ht, F1, F2, F3, F6.
        repeat split; auto.
      * rewrite F4, Hr. eexists _, _. split; [reflexivity|].
        match goal with |- trace (set_session _ ?s ?Q) = _ /\ _ =>
          destruct (Hgoal Q s) as (G1 & G2 & G3 & G4); try reflexivity end.
        split; [exact G1|]. split; [exact G2|]. cbn. rewrite Hd, Ht, F1, F2, F3.
        repeat split; auto.
    + rewrite F4, Hr. eexists _, _. split; [reflexivity|].
      match goal with |- trace (set_session _ ?s ?Q) = _ /\ _ =>
        destruct (Hgoal Q s) as (G1 & G2 & G3 & G4); try reflexivity end.
      split; [exact G1|]. split; [exact G2|]. cbn. rewrite Hd, Ht, F1, F2, F3.
      repeat split; auto.
  - assert (E : (if ses_transcoder session then Done P else Done P) = Done P)
      by (destruct (ses_transcoder session); reflexivity).
    rewrite E. eexists _, _. split; [reflexivity|].
    match goal with |- trace (set_session _ ?s ?Q) = _ /\ _ =>
      destruct (Hgoal Q s) as (G1 & G2 & G3 & G4); try reflexivity end.
    split; [exact G1|]. split; [exact G2|]. cbn. rewrite Hd, F1, F2, F3.
    destruct (ses_transcoder session), (env_fopen_ok env); repeat split; auto.
Qed.

Lemma done_events_close session : done_events (close_events session) = 0%nat.
Proof. unfold close_events. destruct (ses_arc session), (ses_vrc session), (ses_pub session); reflexivity. Qed.

Lemma done_events_done handle :
  done_events [PushEvent handle None done_event None] = 1%nat.
Proof. reflexivity. Qed.

(** C5 (amended). Two hangups in a row on a session that is not destroyed:
    the first pushes a done event and closes and destroys each writer and
    the sink the session holds, once; the second pushes a second done event
    and closes nothing; only the first can write a file, the .nfo of the
    transcoding. *)
Theorem hangup_twice env1 env2 pl handle session :
  stopping pl = false -> initialized pl = true ->
  janus_transcode_lookup_session pl handle = Some session ->
  ses_destroyed session = false -> ses_hangingup session = false ->
  (forall a, ses_transcoding session = Some a -> is_Some (recs pl !! a)) ->
  exists pl1 pl2,
    janus_transcode_hangup_media env1 pl handle = Done pl1
    /\ janus_transcode_hangup_media env2 pl1 handle = Done pl2
    /\ trace pl2
       = trace pl ++ [PushEvent handle None done_event None] ++ close_events session
         ++ [PushEvent handle None done_event None]
    /\ done_events (trace pl2) = (done_events (trace pl) + 2)%nat
    /\ files pl2 = files pl1
    /\ (forall path, files pl1 !! path <> files pl !! path ->
          ses_transcoder session = true /\ env_fopen_ok env1 = true
          /\ exists a rec, ses_transcoding session = Some a /\ recs pl !! a = Some rec
               /\ path = snprintf 1024 (transcoding_path pl +:+ "/" +:+ u64_text (rec_id rec)
                                        +:+ ".nfo")).
Proof.
  intros Hs Hi Hl Hd Hh Hrec. unfold janus_transcode_hangup_media.
  destruct (hangup_once env1 pl handle session Hs Hi Hl Hd Hh Hrec)
    as (pl1 & s1 & E1 & T1 & L1 & (A1 & V1 & P1 & R1 & H1 & D1 & _ & _) & S1 & I1 & F1).
  destruct (hangup_once env2 pl1 handle s1 S1 I1 L1 D1 H1)
    as (pl2 & s2 & E2 & T2 & _ & _ & _ & _ & F2).
  { intros a Ha. rewrite R1 in Ha. discriminate. }
  exists pl1, pl2. split; [exact E1|]. split; [exact E2|].
  assert (C1 : close_events s1 = []) by (unfold close_events; rewrite A1, V1, P1; reflexivity).
  rewrite C1, app_nil_r in T2.
  split; [rewrite T2, T1, <- !app_assoc; reflexivity|].
  split.
  { rewrite T2, T1, !done_events_app, done_events_close, !done_events_done. lia. }
  split.
  { rewrite F2, R1. destruct (ses_transcoder s1 && env_fopen_ok env2); reflexivity. }
  intros path Hne. rewrite F1 in Hne.
  destruct (ses_transcoder session) eqn:Ht; cbn [andb] in Hne; [|contradiction].
  destruct (env_fopen_ok env1) eqn:Hf; [|contradiction].
  destruct (ses_transcoding session) as [a|] eqn:Ha; [|contradiction].
  destruct (recs pl !! a) as [rec|] eqn:Hr; [|contradiction].
  split; [reflexivity|]. split; [reflexivity|]. exists a, rec.
  split; [reflexivity|]. split; [exact Hr|].
  destruct (decide (path = snprintf 1024 (transcoding_path pl +:+ "/" +:+ u64_text (rec_id rec) +:+ ".nfo")))
    as [->|Hn]; [reflexivity|].
  rewrite lookup_insert_ne in Hne by congruence. contradiction.
Qed.


Lemma new_transcoding_entry env pl handle session offer id name_text filename_text :
  exists pl1 s1 rec audio,
    new_transcoding env pl handle session offer id name_text filename_text
    = (pl1, s1, rec, audio, negb (is_recvonly (janus_sdp_mline_find offer true)))
    /\ recs pl1 = <[next_object pl := rec]> (recs pl)
    /\ transcoding pl1 = <[id := next_object pl]> (transcoding pl)
    /\ plugin_handle pl1 = plugin_handle pl
    /\ notify_events pl1 = notify_events pl
    /\ rec_id rec = id /\ rec_completed rec = false
    /\ rec_vcodec rec = video_codec_of offer
    /\ rec_vrc_file rec
       = (if is_recvonly (janus_sdp_mline_find offer true) then None
          else Some (media_filename filename_text id "video"))
    /\ existsb is_video_create (trace pl1)
       = existsb is_video_create (trace pl)
         || negb (is_recvonly (janus_sdp_mline_find offer true))
    /\ (is_recvonly (janus_sdp_mline_find offer true) = true -> ses_vrc s1 = ses_vrc session).
Proof.
  unfold new_transcoding, video_codec_of.
  destruct (janus_sdp_find_preferred_codecs offer) as [acodec vcodec].
  change (janus_videocodec_from_name (Some "h264"%string)) with JANUS_VIDEOCODEC_H264.
  destruct (is_recvonly (janus_sdp_mline_find offer true)),
           (is_recvonly (janus_sdp_mline_find offer false)),
           (janus_audiocodec_from_name acodec);
    cbn [videocodec_eqb audiocodec_eqb negb];
    eexists _, _, _, _; (split; [reflexivity|]);
    cbn [recs transcoding plugin_handle notify_events set_catalog set_rec emit set_next_object
         trace rec_id rec_completed rec_vcodec rec_vrc_file];
    rewrite ?existsb_app; cbn [existsb is_video_create orb];
    rewrite ?orb_false_r;
    repeat split; try reflexivity; try discriminate.
Qed.

Lemma transcode_done_frame env pl handle session jsep offer rec id audio video upd :
  exists pl2 result sdp,
    transcode_done env pl handle session jsep offer rec id audio video upd
    = Finish pl2 result (Some sdp) upd
    /\ recs pl2 = recs pl /\ transcoding pl2 = transcoding pl
    /\ existsb is_video_create (trace pl2) = existsb is_video_create (trace pl).
Proof.
  unfold transcode_done.
  destruct (negb upd && notify_events (set_session handle _ pl) && env_events_enabled env);
    eexists _, _, _; (split; [reflexivity|]); cbn [recs transcoding emit set_session trace];
    rewrite ?existsb_app; cbn [existsb is_video_create]; rewrite ?orb_false_r; auto.
Qed.

Lemma push_answer_frame handle transaction b :
  recs (push_answer handle transaction b) = recs (branch_plugin b)
  /\ transcoding (push_answer handle transaction b) = transcoding (branch_plugin b)
  /\ existsb is_video_create (trace (push_answer handle transaction b))
     = existsb is_video_create (trace (branch_plugin b)).
Proof.
  destruct b as [pl result [sdp|] upd | pl code cause]; cbn [push_answer branch_plugin].
  - destruct (plugin_handle pl !! handle), upd;
      cbn [recs transcoding emit set_session trace]; rewrite ?existsb_app;
      cbn [existsb is_video_create]; rewrite ?orb_false_r; auto.
  - cbn [recs transcoding emit set_session trace]. rewrite ?existsb_app.
    cbn [existsb is_video_create]. rewrite ?orb_false_r. auto.
  - cbn [recs transcoding emit set_session trace]. rewrite ?existsb_app.
    cbn [existsb is_video_create]. rewrite ?orb_false_r. auto.
Qed.

(** C10 (amended). A new [transcode] request creates a catalog entry whose
    video codec is H.264 whatever codecs the offer prefers, unless the video
    m-line of the offer is recvonly: then the entry has no video codec and
    no video file, and no H.264 writer is opened. *)
Theorem transcode_entry_video_codec env pl msg handle session root text ty sdp_text offer id :
  msg_handle msg = Some handle ->
  janus_transcode_lookup_session pl handle = Some session ->
  ses_destroyed session = false ->
  msg_message msg = Some root ->
  janus_validate_json_object root request_parameters
    JANUS_TRANSCODE_ERROR_MISSING_ELEMENT JANUS_TRANSCODE_ERROR_INVALID_ELEMENT = None ->
  json_string_value (json_object_get (Some root) "request") = Some text ->
  strcaseeq text "transcode" = true ->
  json_object_get (msg_jsep msg) "update" = None ->
  json_string_value (json_object_get (msg_jsep msg) "sdp") = Some sdp_text ->
  json_string_value (json_object_get (msg_jsep msg) "type") = Some ty ->
  strcaseeq ty "offer" = true ->
  janus_validate_json_object root transcode_parameters
    JANUS_TRANSCODE_ERROR_MISSING_ELEMENT JANUS_TRANSCODE_ERROR_INVALID_ELEMENT = None ->
  janus_sdp_parse sdp_text = inl offer ->
  (requested_id root >? 0) && bool_decide (is_Some (transcoding pl !! requested_id root))
  = false ->
  (if requested_id root =? 0 then random_id (env_random_uint64 env) (transcoding pl)
   else Some (requested_id root)) = Some id ->
  exists pl' rec,
    janus_transcode_handler env pl msg = Done pl'
    /\ transcoding pl' !! id = Some (next_object pl)
    /\ recs pl' !! next_object pl = Some rec
    /\ rec_id rec = id /\ rec_completed rec = false
    /\ rec_vcodec rec
       = (if is_recvonly (janus_sdp_mline_find offer true)
          then JANUS_VIDEOCODEC_NONE else JANUS_VIDEOCODEC_H264)
    /\ rec_vrc_file rec
       = (if is_recvonly (janus_sdp_mline_find offer true) then None
          else Some (media_filename
                       (json_string_value (json_object_get (Some root) "filename"))
                       id "video"))
    /\ existsb is_video_create (trace pl')
       = existsb is_video_create (trace pl)
         || negb (is_recvonly (janus_sdp_mline_find offer true)).
Proof.
  intros Hh Hl Hd Hm Hv Hr Ht Hu Hsdp Hty Hoff Hvt Hp Hfree Hid.
  unfold janus_transcode_handler. rewrite Hh, Hl, Hd, Hm, Hv, Hr, Hu.
  apply strcaseeq_as in Ht. unfold strcaseeq at 1. rewrite Ht.
  change (bool_decide (lowercase "transcode" = lowercase "transcode")) with true. cbv iota.
  unfold handle_transcode. rewrite Hsdp, Hty, Hoff, Hvt, Hp. cbn [negb].
  fold (requested_id root). rewrite Hfree, Hid.
  destruct (new_transcoding_entry env pl handle session offer id
              (json_string_value (json_object_get (Some root) "name"))
              (json_string_value (json_object_get (Some root) "filename")))
    as (pl1 & s1 & rec & audio & -> & R1 & C1 & _ & _ & I1 & K1 & V1 & F1 & T1 & _).
  destruct (transcode_done_frame env pl1 handle s1 (msg_jsep msg) offer rec id audio
              (negb (is_recvonly (janus_sdp_mline_find offer true))) false)
    as (pl2 & result & sdp & -> & R2 & C2 & T2).
  destruct (push_answer_frame handle (msg_transaction msg) (Finish pl2 result (Some sdp) false))
    as (R3 & C3 & T3). cbn [branch_plugin] in R3, C3, T3.
  eexists _, rec. split; [reflexivity|].
  rewrite R3, C3, T3, R2, C2, T2, R1, C1, T1, !lookup_insert_eq.
  unfold video_codec_of in V1. auto 10.
Qed.










Lemma asynchronous_not_synchronous text :
  asynchronous text = true ->
  strcaseeq text "update" = false /\ strcaseeq text "list" = false
  /\ strcaseeq text "configure" = false.
Proof.
  unfold asynchronous, strcaseeq. intros Ha.
  repeat (apply orb_true_iff in Ha as [Ha|Ha]);
    apply bool_decide_eq_true in Ha; rewrite Ha;
    repeat split; apply bool_decide_eq_false; intros E; vm_compute in E; discriminate E.
Qed.

(** X10. A valid [transcode], [play], [start] or [stop] request, in any
    letter case, is not answered by [janus_transcode_handle_message]: the
    message is put at the end of the queue of the handler thread, nothing
    else changes, and the caller gets OK_WAIT. *)
Theorem asynchronous_requests_are_queued pl handle transaction root jsep session text :
  stopping pl = false -> initialized pl = true ->
  janus_transcode_lookup_session pl handle = Some session ->
  ses_destroyed session = false ->
  json_is_object root = true ->
  janus_validate_json_object root request_parameters
    JANUS_TRANSCODE_ERROR_MISSING_ELEMENT JANUS_TRANSCODE_ERROR_INVALID_ELEMENT = None ->
  json_string_value (json_object_get (Some root) "request") = Some text ->
  asynchronous text = true ->
  janus_transcode_handle_message pl handle transaction (Some root) jsep
  = Done (set_messages
            (messages pl ++ [{| msg_handle := Some handle; msg_transaction := transaction;
                                msg_message := Some root; msg_jsep := jsep |}]) pl,
          {| pr_type := JANUS_PLUGIN_OK_WAIT; pr_text := None; pr_content := None |}).
Proof.
  intros Hs Hi Hl Hd Ho Hv Hr Ha.
  destruct (asynchronous_not_synchronous text Ha) as (N1 & N2 & N3).
  unfold janus_transcode_handle_message.
  rewrite Hs, Hi. cbn [orb negb]. rewrite Hl, Hd, Ho. cbn [negb].
  rewrite Hv, Hr, N1, N2, N3.
  unfold asynchronous in Ha. rewrite Ha. reflexivity.
Qed.

(** X11. Creating a session registers it under its handle, idle and with the
    defaults, and leaves every other session and the trace as they were;
    while the plugin is stopping or not initialized nothing is created and
    the error is -1. *)
Theorem create_session_registers env pl handle :
  (stopping pl || negb (initialized pl) = true ->
   janus_transcode_create_session env pl handle = (pl, -1))
  /\ (stopping pl || negb (initialized pl) = false ->
      exists pl' session,
        janus_transcode_create_session env pl handle = (pl', 0)
        /\ janus_transcode_lookup_session pl' handle = Some session
        /\ ses_active session = false /\ ses_transcoder session = false
        /\ ses_transcoding session = None
        /\ ses_arc session = None /\ ses_vrc session = None /\ ses_pub session = None
        /\ ses_destroyed session = false /\ ses_hangingup session = false
        /\ ses_video_bitrate session = 1048576
        /\ (forall h, h <> handle ->
              janus_transcode_lookup_session pl' h = janus_transcode_lookup_session pl h)
        /\ transcoding pl' = transcoding pl /\ recs pl' = recs pl
        /\ trace pl' = trace pl).
Proof.
  unfold janus_transcode_create_session. split; intros E; rewrite E; [reflexivity|].
  eexists _, _. split; [reflexivity|].
  unfold janus_transcode_lookup_session. cbn [sessions plugin_handle].
  split.
  { rewrite bool_decide_eq_true_2 by apply handle_in. apply lookup_insert_eq. }
  repeat split.
  intros h Hh. rewrite lookup_insert_ne by congruence.
  rewrite other_in by exact Hh. reflexivity.
Qed.

(** X12. At a video packet FIR and PLI are requested together, FIR first,
    exactly when the time since the last request has reached the keyframe
    interval, counted in whole seconds; then the FIR sequence number moves on
    and the time of the request is noted; otherwise neither is sent and both
    stay. *)
Theorem keyframe_request_rule now handle s :
  let r := janus_transcode_send_rtcp_feedback now handle 1 s in
  let due :=
    (ses_video_keyframe_interval s / 1000) * 1000000
    <=? to_int64 (wrap64 (now - ses_video_keyframe_request_last s)) in
  keyframe_requests r.2 = (if due then [Fir; Pli] else [])
  /\ ses_video_keyframe_request_last r.1
     = (if due then wrap64 now else ses_video_keyframe_request_last s)
  /\ ses_video_fir_seq r.1
     = (if due then janus_rtcp_fir_seq (ses_video_fir_seq s) else ses_video_fir_seq s)
  /\ ses_video_keyframe_interval r.1 = ses_video_keyframe_interval s.
Proof.
  cbv zeta. unfold janus_transcode_send_rtcp_feedback, G_USEC_PER_SEC.
  cbn [Z.eqb negb Pos.eqb].
  destruct (ses_video_remb_startup s >? 0);
    destruct (now - ses_video_remb_last s >=? 5 * 1000000);
    cbn [orb fst snd ses_video_keyframe_request_last ses_video_keyframe_interval
         ses_video_fir_seq set_video_remb_last set_video_remb_startup];
    rewrite Z.geb_leb; destruct (_ <=? _); cbn; repeat split.
Qed.

Lemma emit_all_fields sent (pl : plugin) :
  sessions (foldl (fun pl e => emit e pl) pl sent) = sessions pl
  /\ recs (foldl (fun pl e => emit e pl) pl sent) = recs pl
  /\ transcoding (foldl (fun pl e => emit e pl) pl sent) = transcoding pl
  /\ files (foldl (fun pl e => emit e pl) pl sent) = files pl
  /\ messages (foldl (fun pl e => emit e pl) pl sent) = messages pl.
Proof.
  revert pl. induction sent as [|e sent IH]; intros pl; cbn [foldl]; [repeat split|].
  destruct (IH (emit e pl)) as (H1 & H2 & H3 & H4 & H5).
  rewrite H1, H2, H3, H4, H5. repeat split.
Qed.

Lemma rtcp_media_calls sent : forallb is_rtcp sent = true -> Forall media_call sent.
Proof.
  induction sent as [|e sent IH]; cbn; [constructor|].
  intros [He Hs]%andb_true_iff. constructor; [|auto].
  destruct e; try discriminate. exact I.
Qed.

Lemma media_call_feedback now handle video s :
  Forall media_call (janus_transcode_send_rtcp_feedback now handle video s).2.
Proof. apply rtcp_media_calls, feedback_only_rtcp. Qed.

Lemma emit_all_frame sent (pl pl0 : plugin) handle :
  sessions pl = sessions pl0 -> recs pl = recs pl0 -> transcoding pl = transcoding pl0 ->
  files pl = files pl0 -> messages pl = messages pl0 ->
  (forall h, Some h <> handle -> plugin_handle pl !! h = plugin_handle pl0 !! h) ->
  sessions (foldl (fun pl e => emit e pl) pl sent) = sessions pl0
  /\ recs (foldl (fun pl e => emit e pl) pl sent) = recs pl0
  /\ transcoding (foldl (fun pl e => emit e pl) pl sent) = transcoding pl0
  /\ files (foldl (fun pl e => emit e pl) pl sent) = files pl0
  /\ messages (foldl (fun pl e => emit e pl) pl sent) = messages pl0
  /\ (forall h, Some h <> handle ->
        plugin_handle (foldl (fun pl e => emit e pl) pl sent) !! h = plugin_handle pl0 !! h).
Proof.
  intros H1 H2 H3 H4 H5 H6.
  destruct (emit_all_fields sent pl) as (E1 & E2 & E3 & E4 & E5).
  rewrite E1, E2, E3, E4, E5, plugin_handle_emit_all. auto 10.
Qed.

(** X13. Whatever the packet and the state, handling an RTP packet never
    touches the sessions table, the catalog, its entries, the files or the
    queue, nor the session of another handle; it gives the packet back with
    the length it had; and the only calls it makes hand a packet to a writer
    or to the sink or send RTCP. *)
Theorem incoming_rtp_frame env pl handle video buf pl' buf' :
  janus_transcode_incoming_rtp env pl handle video buf = Done (pl', buf') ->
  sessions pl' = sessions pl /\ recs pl' = recs pl /\ transcoding pl' = transcoding pl
  /\ files pl' = files pl /\ messages pl' = messages pl
  /\ (forall h, Some h <> handle -> plugin_handle pl' !! h = plugin_handle pl !! h)
  /\ length buf' = length buf
  /\ exists calls, trace pl' = trace pl ++ calls /\ Forall media_call calls.
Proof.
  unfold janus_transcode_incoming_rtp.
  assert (Hsame : sessions pl = sessions pl /\ recs pl = recs pl
                  /\ transcoding pl = transcoding pl
                  /\ files pl = files pl /\ messages pl = messages pl
                  /\ (forall h, Some h <> handle ->
                        plugin_handle pl !! h = plugin_handle pl !! h)
                  /\ length buf = length buf
                  /\ exists calls, trace pl = trace pl ++ calls /\ Forall media_call calls).
  { repeat split. exists []. rewrite app_nil_r. split; [reflexivity|constructor]. }
  destruct handle as [handle|]; [|intros [= <- <-]; exact Hsame].
  destruct (_ || _); [intros [= <- <-]; exact Hsame|].
  destruct (plugin_handle pl !! handle) as [session|]; [|intros [= <- <-]; exact Hsame].
  destruct (ses_destroyed session); [intros [= <- <-]; exact Hsame|].
  destruct (negb (ses_transcoder session)); [intros [= <- <-]; exact Hsame|].
  destruct (ses_transcoding session) as [a|]; [|intros [= <- <-]; exact Hsame].
  clear Hsame.
  destruct (negb (video =? 0) && simulcasting session).
  - destruct (recs pl !! a) as [rec|]; [|discriminate].
    destruct (janus_rtp_simulcasting_context_process_rtp _ _ _ _ _ _)
      as [[save sim] context].
    destruct save; cbn [negb].
    + destruct (janus_rtp_header_update _ _ _ _) as [header context'].
      set (s1 := set_context context' _).
      set (b1 := poke_all 0 (take 12 header) buf).
      assert (Hb1 : length b1 = length buf) by apply poke_all_length.
      destruct (if videocodec_eqb (rec_vcodec rec) JANUS_VIDEOCODEC_VP8
                then match janus_rtp_payload b1 with
                     | Some at_ =>
                         let '(payload, vp8) :=
                           janus_vp8_simulcast_descriptor_update
                             (drop at_ b1) (ses_vp8_context s1) (changed_substream sim) in
                         (poke_all at_ payload b1, set_vp8_context vp8 s1)
                     | None =>
                         let '(_, vp8) :=
                           janus_vp8_simulcast_descriptor_update
                             [] (ses_vp8_context s1) (changed_substream sim) in
                         (b1, set_vp8_context vp8 s1)
                     end
                else (b1, s1)) as [b2 s2] eqn:Hvp8.
      assert (Hb2 : length b2 = length buf).
      { destruct (videocodec_eqb _ _); [|injection Hvp8 as <- _; exact Hb1].
        destruct (janus_rtp_payload b1) as [at_|].
        - destruct (janus_vp8_simulcast_descriptor_update _ _ _) as [payload vp8].
          injection Hvp8 as <- _. rewrite poke_all_length. exact Hb1.
        - destruct (janus_vp8_simulcast_descriptor_update _ _ _) as [payload vp8].
          injection Hvp8 as <- _. exact Hb1. }
      set (s3 := if ses_rec_vssrc s2 =? 0 then _ else _).
      destruct (janus_transcode_send_rtcp_feedback _ _ _ s3) as [s4 sent] eqn:Hf.
      intros [= <- <-].
      pose proof (media_call_feedback (env_monotonic_time env) handle video s3) as Hm.
      rewrite Hf in Hm. cbn [snd] in Hm.
      match goal with
      | |- context [foldl _ ?p sent] =>
          destruct (emit_all_frame sent p pl (Some handle)) as (F1 & F2 & F3 & F4 & F5 & F6);
            [destruct (need_pli sim); reflexivity..
            |intros h Hh; destruct (need_pli sim); cbn;
               rewrite !lookup_insert_ne by congruence; reflexivity|]
      end.
      rewrite F1, F2, F3, F4, F5. repeat split; [exact F6| |].
      * destruct (set_header_length (htons (wrap16 (ntohs (header_seq_number buf))))
                    (set_header_timestamp (htonl (ntohl (header_timestamp buf)))
                       (set_header_ssrc (htonl (ntohl (header_ssrc buf)))
                          (set_header_ssrc (htonl (ses_rec_vssrc s3)) b2))))
          as (_ & _ & L3).
        rewrite L3.
        destruct (set_header_length (htonl (ntohl (header_timestamp buf)))
                    (set_header_ssrc (htonl (ntohl (header_ssrc buf)))
                       (set_header_ssrc (htonl (ses_rec_vssrc s3)) b2))) as (_ & L2 & _).
        rewrite L2.
        destruct (set_header_length (htonl (ntohl (header_ssrc buf)))
                    (set_header_ssrc (htonl (ses_rec_vssrc s3)) b2)) as (L1 & _ & _).
        rewrite L1.
        destruct (set_header_length (htonl (ses_rec_vssrc s3)) b2) as (L0 & _ & _).
        rewrite L0. exact Hb2.
      * rewrite trace_emit_all. cbn [trace set_session emit].
        destruct (need_pli sim); cbn [trace set_session emit]; rewrite <- ?app_assoc;
          eexists; (split; [reflexivity|]); cbn [app];
          repeat (constructor; [exact I|]); exact Hm.
    + intros [= <- <-].
      destruct (need_pli sim); cbn; repeat split;
        try (intros h Hh; apply lookup_insert_ne; congruence).
      * eexists. split; [reflexivity|]. repeat constructor.
      * exists []. rewrite app_nil_r. split; [reflexivity|constructor].
  - destruct (janus_transcode_send_rtcp_feedback _ _ _ session) as [s4 sent] eqn:Hf.
    intros [= <- <-].
    pose proof (media_call_feedback (env_monotonic_time env) handle video session) as Hm.
    rewrite Hf in Hm. cbn [snd] in Hm.
    match goal with
    | |- context [foldl _ ?p sent] =>
        destruct (emit_all_frame sent p pl (Some handle)) as (F1 & F2 & F3 & F4 & F5 & F6);
          [reflexivity..
          |intros h Hh; cbn; rewrite !lookup_insert_ne by congruence; reflexivity|]
    end.
    rewrite F1, F2, F3, F4, F5. repeat split; [exact F6|].
    rewrite trace_emit_all. cbn [trace set_session emit]. rewrite <- !app_assoc.
    eexists. split; [reflexivity|]. cbn [app].
    repeat (constructor; [exact I|]). exact Hm.
Qed.

(** X14. A packet of a capture that is not simulcast is handed as it came,
    first to the writer of its medium and then to the sink, and is given
    back unchanged; an audio packet causes no RTCP at all. *)
Theorem plain_packet_is_saved_as_it_came env pl handle video buf session a :
  env_handle_stopped env = false -> stopping pl = false -> initialized pl = true ->
  plugin_handle pl !! handle = Some session ->
  ses_destroyed session = false -> ses_transcoder session = true ->
  ses_transcoding session = Some a ->
  video = 0 \/ simulcasting session = false ->
  exists pl' rtcp,
    janus_transcode_incoming_rtp env pl (Some handle) video buf = Done (pl', buf)
    /\ trace pl'
       = trace pl
         ++ [TranscoderSaveFrame (if video =? 0 then ses_arc session else ses_vrc session) buf;
             PubSaveFrame (ses_pub session) buf (negb (video =? 0)) 1]
         ++ rtcp
    /\ forallb is_rtcp rtcp = true
    /\ (video = 0 -> rtcp = []).
Proof.
  intros He Hs Hi Hl Hd Ht Ha Hplain.
  unfold janus_transcode_incoming_rtp.
  rewrite He, Hs, Hi. cbn [orb negb]. rewrite Hl, Hd, Ht, Ha. cbn [negb].
  replace (negb (video =? 0) && simulcasting session) with false
    by (destruct Hplain as [->| ->]; [reflexivity|rewrite andb_false_r; reflexivity]).
  destruct (janus_transcode_send_rtcp_feedback (env_monotonic_time env) handle video session)
    as [s4 sent] eqn:Hf.
  eexists _, sent. split; [reflexivity|].
  rewrite trace_emit_all. cbn [trace set_session emit]. rewrite <- !app_assoc.
  split; [destruct (video =? 0); reflexivity|].
  pose proof (feedback_only_rtcp (env_monotonic_time env) handle video session) as Hr.
  rewrite Hf in Hr. split; [exact Hr|].
  intros ->. unfold janus_transcode_send_rtcp_feedback in Hf. cbn in Hf.
  injection Hf as _ <-. reflexivity.
Qed.

(** X15. A simulcast video packet the simulcast context does not select is
    neither handed to the writer nor to the sink and causes no REMB, FIR or
    bitrate ramp step; a PLI is sent if the context asks for one, and the
    packet is given back unchanged. *)
Theorem unselected_simulcast_packet_is_dropped env pl handle video buf session a rec sim ctx :
  env_handle_stopped env = false -> stopping pl = false -> initialized pl = true ->
  plugin_handle pl !! handle = Some session ->
  ses_destroyed session = false -> ses_transcoder session = true ->
  ses_transcoding session = Some a -> recs pl !! a = Some rec ->
  video <> 0 -> simulcasting session = true ->
  janus_rtp_simulcasting_context_process_rtp (ses_sim_context session) buf
    (ses_ssrc session) (ses_rid session) (rec_vcodec rec) (ses_context session)
  = (false, sim, ctx) ->
  exists pl' session',
    janus_transcode_incoming_rtp env pl (Some handle) video buf = Done (pl', buf)
    /\ trace pl' = trace pl ++ (if need_pli sim then [RelayRtcp handle 1 Pli] else [])
    /\ saved_frames (trace pl') = saved_frames (trace pl)
    /\ published_frames (trace pl') = published_frames (trace pl)
    /\ plugin_handle pl' !! handle = Some session'
    /\ ses_video_remb_startup session' = ses_video_remb_startup session
    /\ ses_video_remb_last session' = ses_video_remb_last session
    /\ ses_video_fir_seq session' = ses_video_fir_seq session
    /\ ses_rec_vssrc session' = ses_rec_vssrc session.
Proof.
  intros He Hs Hi Hl Hd Ht Ha Hrec Hv Hsim Hp.
  unfold janus_transcode_incoming_rtp.
  rewrite He, Hs, Hi. cbn [orb negb]. rewrite Hl, Hd, Ht, Ha. cbn [negb].
  replace (video =? 0) with false by (symmetry; apply Z.eqb_neq; exact Hv).
  rewrite Hsim. cbn [negb andb]. rewrite Hrec, Hp. cbn [negb].
  eexists _, (set_context ctx (set_sim_context sim session)). split; [reflexivity|].
  destruct (need_pli sim); cbn [trace set_session emit plugin_handle].
  - rewrite saved_frames_app, published_frames_app. cbn. rewrite !app_nil_r.
    repeat split. apply lookup_insert_eq.
  - rewrite app_nil_r. repeat split. apply lookup_insert_eq.
Qed.

Lemma set_rec_ref_same rec : set_rec_ref (rec_ref rec) rec = rec.
Proof. destruct rec. reflexivity. Qed.

Lemma set_rec_ref_twice v w rec : set_rec_ref v (set_rec_ref w rec) = set_rec_ref v rec.
Proof. reflexivity. Qed.

(** X16. [stop] tears nothing down by itself: handling it asks the core to
    close the PeerConnection and then pushes the event with status stopped
    (and the id of the transcoding, if the session has one); before these it
    makes at most a notification; sessions, catalog, entries and files are
    left as they are. *)
Theorem stop_only_asks_to_close env pl msg handle session root text :
  msg_handle msg = Some handle ->
  janus_transcode_lookup_session pl handle = Some session ->
  ses_destroyed session = false ->
  msg_message msg = Some root ->
  janus_validate_json_object root request_parameters
    JANUS_TRANSCODE_ERROR_MISSING_ELEMENT JANUS_TRANSCODE_ERROR_INVALID_ELEMENT = None ->
  json_string_value (json_object_get (Some root) "request") = Some text ->
  strcaseeq text "stop" = true ->
  (forall a, ses_transcoding session = Some a -> is_Some (recs pl !! a)) ->
  exists pl' notified,
    janus_transcode_handler env pl msg = Done pl'
    /\ trace pl'
       = trace pl ++ notified
         ++ [ClosePc handle;
             PushEvent handle (msg_transaction msg)
               (stopped_event (a ← ses_transcoding session; rec_id <$> recs pl !! a)) None]
    /\ forallb is_notification notified = true
    /\ plugin_handle pl' = plugin_handle pl /\ sessions pl' = sessions pl
    /\ recs pl' = recs pl /\ transcoding pl' = transcoding pl /\ files pl' = files pl.
Proof.
  intros Hh Hl Hd Hm Hv Hr Ht Hrec.
  unfold janus_transcode_handler. rewrite Hh, Hl, Hd, Hm, Hv, Hr.
  apply strcaseeq_as in Ht. unfold strcaseeq. rewrite Ht.
  change (bool_decide (lowercase "stop" = lowercase "transcode")) with false.
  change (bool_decide (lowercase "stop" = lowercase "play")) with false.
  change (bool_decide (lowercase "stop" = lowercase "start")) with false.
  change (bool_decide (lowercase "stop" = lowercase "stop")) with true. cbv iota.
  unfold handle_stop.
  destruct (ses_transcoding session) as [a|] eqn:Ha.
  - destruct (Hrec a eq_refl) as [rec Hra]. rewrite Hra.
    destruct (notify_events pl && env_events_enabled env).
    + eexists _, [NotifyEvent handle _]. split; [reflexivity|]. split.
      { replace (a0 ← Some a; rec_id <$> recs pl !! a0) with (Some (rec_id rec))
          by (cbn; rewrite Hra; reflexivity).
        unfold push_answer. rewrite !trace_emit, <- !app_assoc. reflexivity. }
      repeat split.
    + eexists _, []. split; [reflexivity|]. split.
      { replace (a0 ← Some a; rec_id <$> recs pl !! a0) with (Some (rec_id rec))
          by (cbn; rewrite Hra; reflexivity).
        unfold push_answer. rewrite !trace_emit, <- !app_assoc. reflexivity. }
      repeat split.
  - eexists _, []. split; [reflexivity|]. split.
    { unfold push_answer. rewrite !trace_emit, <- !app_assoc. reflexivity. }
    repeat split.
Qed.

(** X17. A new [transcode] that asks for an id the catalog already holds is
    answered with error 420 and changes nothing else: no entry is touched
    and no writer is opened. *)
Theorem transcode_rejects_taken_id env pl msg handle session root text ty sdp_text offer :
  msg_handle msg = Some handle ->
  janus_transcode_lookup_session pl handle = Some session ->
  ses_destroyed session = false ->
  msg_message msg = Some root ->
  janus_validate_json_object root request_parameters
    JANUS_TRANSCODE_ERROR_MISSING_ELEMENT JANUS_TRANSCODE_ERROR_INVALID_ELEMENT = None ->
  json_string_value (json_object_get (Some root) "request") = Some text ->
  strcaseeq text "transcode" = true ->
  json_object_get (msg_jsep msg) "update" = None ->
  json_string_value (json_object_get (msg_jsep msg) "sdp") = Some sdp_text ->
  json_string_value (json_object_get (msg_jsep msg) "type") = Some ty ->
  strcaseeq ty "offer" = true ->
  janus_validate_json_object root transcode_parameters
    JANUS_TRANSCODE_ERROR_MISSING_ELEMENT JANUS_TRANSCODE_ERROR_INVALID_ELEMENT = None ->
  janus_sdp_parse sdp_text = inl offer ->
  0 < requested_id root -> is_Some (transcoding pl !! requested_id root) ->
  janus_transcode_handler env pl msg
  = Done (emit (PushEvent handle (msg_transaction msg)
                  (failure_event 420
                     (snprintf 512 ("Transcoding " +:+ u64_text (requested_id root)
                                    +:+ " already exists"))) None) pl).
Proof.
  intros Hh Hl Hd Hm Hv Hr Ht Hu Hsdp Hty Hoff Hvt Hp Hpos Htaken.
  unfold janus_transcode_handler. rewrite Hh, Hl, Hd, Hm, Hv, Hr, Hu.
  apply strcaseeq_as in Ht. unfold strcaseeq at 1. rewrite Ht.
  change (bool_decide (lowercase "transcode" = lowercase "transcode")) with true. cbv iota.
  unfold handle_transcode. rewrite Hsdp, Hty, Hoff, Hvt, Hp. cbn [negb].
  fold (requested_id root).
  replace (requested_id root >? 0) with true by (symmetry; apply Z.gtb_lt; exact Hpos).
  rewrite bool_decide_eq_true_2 by exact Htaken. reflexivity.
Qed.

(** X18. A [play] of an id that is not in the catalog, or of an entry that
    has no offer yet (a capture still going on) or is marked destroyed, is
    answered with error 416; the reference the lookup took on the entry is
    given back, so every entry is as it was, and the session is not
    touched. *)
Theorem play_of_unfinished_capture_fails env pl msg handle session root text :
  msg_handle msg = Some handle ->
  janus_transcode_lookup_session pl handle = Some session ->
  ses_destroyed session = false ->
  msg_message msg = Some root ->
  janus_validate_json_object root request_parameters
    JANUS_TRANSCODE_ERROR_MISSING_ELEMENT JANUS_TRANSCODE_ERROR_INVALID_ELEMENT = None ->
  json_string_value (json_object_get (Some root) "request") = Some text ->
  strcaseeq text "play" = true ->
  json_object_get (msg_jsep msg) "update" = None ->
  json_string_value (json_object_get (msg_jsep msg) "sdp") = None ->
  janus_validate_json_object root play_parameters
    JANUS_TRANSCODE_ERROR_MISSING_ELEMENT JANUS_TRANSCODE_ERROR_INVALID_ELEMENT = None ->
  json_is_true (json_object_get (Some root) "restart") = false ->
  unplayable pl (wrap64 (json_integer_value (json_object_get (Some root) "id"))) ->
  exists pl',
    janus_transcode_handler env pl msg = Done pl'
    /\ trace pl'
       = trace pl ++ [PushEvent handle (msg_transaction msg)
                        (failure_event 416 "No such transcoding") None]
    /\ recs pl' = recs pl /\ transcoding pl' = transcoding pl
    /\ plugin_handle pl' = plugin_handle pl /\ files pl' = files pl.
Proof.
  intros Hh Hl Hd Hm Hv Hr Ht Hu Hsdp Hvp Hre Hun.
  unfold janus_transcode_handler. rewrite Hh, Hl, Hd, Hm, Hv, Hr, Hu.
  apply strcaseeq_as in Ht. unfold strcaseeq at 1 2. rewrite Ht.
  change (bool_decide (lowercase "play" = lowercase "transcode")) with false.
  change (bool_decide (lowercase "play" = lowercase "play")) with true. cbv iota.
  unfold handle_play. rewrite Hsdp, Hvp, Hre. cbn [orb].
  unfold unplayable in Hun.
  destruct (transcoding pl !! _) as [a|].
  - destruct (recs pl !! a) as [rec|] eqn:Hrec.
    + assert (Hback : recs (set_rec a (set_rec_ref
                                         (rec_ref (set_rec_ref (rec_ref rec + 1) rec) - 1)
                                         (set_rec_ref (rec_ref rec + 1) rec))
                              (set_rec a (set_rec_ref (rec_ref rec + 1) rec) pl))
                      = recs pl).
      { cbn [set_rec recs set_rec_ref rec_ref].
        rewrite insert_insert_eq.
        replace (rec_ref rec + 1 - 1) with (rec_ref rec) by lia.
        change (<[a := set_rec_ref (rec_ref rec) rec]> (recs pl) = recs pl).
        rewrite set_rec_ref_same. apply insert_id. exact Hrec. }
      cbn [set_rec_ref rec_offer rec_destroyed].
      destruct (rec_offer rec) as [offer|].
      * destruct Hun as [?|Hde]; [discriminate|]. rewrite Hde.
        eexists. split; [reflexivity|]. cbn [push_answer trace emit recs transcoding
                                             plugin_handle files].
        split; [reflexivity|]. split; [exact Hback|]. repeat split.
      * eexists. split; [reflexivity|]. cbn [push_answer trace emit recs transcoding
                                             plugin_handle files].
        split; [reflexivity|]. split; [exact Hback|]. repeat split.
    + eexists. split; [reflexivity|]. repeat split.
  - eexists. split; [reflexivity|]. repeat split.
Qed.

(** X19. The hangup of a capture is what completes its catalog entry: if the
    .nfo file can be opened, it is written with the description of the entry,
    the entry gets its offer and is marked completed, and from then on [list]
    reports it; if the file cannot be opened, the entry stays as it was,
    without offer and not completed.  Either way the capture gives up its
    reference, and no other entry and no catalog key changes. *)
Theorem hangup_completes_the_capture env pl handle session a rec :
  stopping pl = false -> initialized pl = true ->
  janus_transcode_lookup_session pl handle = Some session ->
  ses_destroyed session = false -> ses_hangingup session = false ->
  ses_transcoder session = true ->
  ses_transcoding session = Some a -> recs pl !! a = Some rec ->
  exists pl' rec',
    janus_transcode_hangup_media env pl handle = Done pl'
    /\ transcoding pl' = transcoding pl
    /\ (forall b, b <> a -> recs pl' !! b = recs pl !! b)
    /\ recs pl' !! a = Some rec'
    /\ rec_id rec' = rec_id rec /\ rec_ref rec' = rec_ref rec - 1
    /\ if env_fopen_ok env then
         rec_completed rec' = true /\ is_Some (rec_offer rec')
         /\ files pl' = <[nfo_path pl rec := bytes_of_string (nfo_text rec)]> (files pl)
         /\ (forall id, transcoding pl !! id = Some a ->
               exists items, list_transcodings pl' = JArray items
                             /\ list_entry rec' ∈ items)
       else
         rec_completed rec' = rec_completed rec /\ rec_offer rec' = rec_offer rec
         /\ files pl' = files pl.
Proof.
  intros Hs Hi Hl Hd Hh Ht Ha Hrec.
  unfold janus_transcode_hangup_media, janus_transcode_hangup_media_internal.
  rewrite Hs, Hi, Hl. cbn [orb negb].
  replace (ses_destroyed (set_active false session)) with false by (symmetry; exact Hd).
  replace (ses_hangingup (set_active false session)) with false by (symmetry; exact Hh).
  cbn [set_active set_hangingup set_context set_sim_context set_vp8_context
       set_arc set_vrc set_pub ses_arc ses_vrc ses_pub ses_transcoder ses_transcoding].
  fold (closed session handle pl).
  destruct (closed_fields session handle pl) as (F1 & F2 & F3 & F4 & F5 & F6 & F7 & F8 & F9).
  set (P := closed session handle pl) in *.
  rewrite Ht, Ha, F4, Hrec.
  destruct (env_fopen_ok env) eqn:Hf; cbn [negb].
  - cbn [set_rec recs set_files]. rewrite lookup_insert_eq.
    eexists _, _. split; [reflexivity|].
    cbn [set_session set_rec recs transcoding files set_files].
    rewrite F3, F4, F5, F6, insert_insert_eq, lookup_insert_eq.
    split; [reflexivity|].
    split; [intros b Hb; apply lookup_insert_ne; congruence|].
    split; [reflexivity|]. split; [reflexivity|]. split; [reflexivity|].
    split; [reflexivity|]. split; [cbn; eauto|]. split; [reflexivity|].
    intros id Hid.
    match goal with
    | |- exists items, list_transcodings ?Q = _ /\ _ =>
        exists (omap (completed_entry Q) (map_to_list (transcoding Q)));
          split; [apply list_transcodings_items|]
    end.
    apply list_elem_of_omap. exists (id, a). split.
    + apply elem_of_map_to_list. cbn. rewrite F5. exact Hid.
    + unfold completed_entry. cbn. rewrite lookup_insert_eq. reflexivity.
  - rewrite F4, Hrec. eexists _, _. split; [reflexivity|].
    cbn [set_session set_rec recs transcoding files].
    rewrite F3, F4, F5, lookup_insert_eq.
    split; [reflexivity|].
    split; [intros b Hb; apply lookup_insert_ne; congruence|].
    repeat split.
Qed.

Lemma close_transcoder_fields rc (pl : plugin) :
  sessions (close_transcoder rc pl) = sessions pl
  /\ plugin_handle (close_transcoder rc pl) = plugin_handle pl
  /\ messages (close_transcoder rc pl) = messages pl.
Proof. destruct rc; repeat split. Qed.

Lemma close_pub_fields pub (pl : plugin) :
  sessions (close_pub pub pl) = sessions pl
  /\ plugin_handle (close_pub pub pl) = plugin_handle pl
  /\ messages (close_pub pub pl) = messages pl.
Proof. destruct pub; repeat split. Qed.

Lemma hangup_frame env pl handle pl' :
  janus_transcode_hangup_media_internal env pl handle = Done pl' ->
  sessions pl' = sessions pl /\ transcoding pl' = transcoding pl
  /\ messages pl' = messages pl
  /\ stopping pl' = stopping pl /\ initialized pl' = initialized pl
  /\ (forall h, h <> handle -> plugin_handle pl' !! h = plugin_handle pl !! h).
Proof.
  unfold janus_transcode_hangup_media_internal.
  destruct (_ || _); [intros [= <-]; repeat split|].
  destruct (janus_transcode_lookup_session pl handle) as [session|];
    [|intros [= <-]; repeat split].
  assert (Hset : forall s (p : plugin),
             sessions p = sessions pl -> transcoding p = transcoding pl ->
             messages p = messages pl -> stopping p = stopping pl ->
             initialized p = initialized pl ->
             (forall h, h <> handle -> plugin_handle p !! h = plugin_handle pl !! h) ->
             sessions (set_session handle s p) = sessions pl
             /\ transcoding (set_session handle s p) = transcoding pl
             /\ messages (set_session handle s p) = messages pl
             /\ stopping (set_session handle s p) = stopping pl
             /\ initialized (set_session handle s p) = initialized pl
             /\ (forall h, h <> handle ->
                   plugin_handle (set_session handle s p) !! h = plugin_handle pl !! h)).
  { intros s p H1 H2 H3 H4 H5 H6. cbn. repeat split; try assumption.
    intros h Hh. rewrite lookup_insert_ne by congruence. auto. }
  destruct (ses_destroyed _); [intros [= <-]; apply Hset; auto|].
  destruct (ses_hangingup _); [intros [= <-]; apply Hset; auto|].
  cbn [set_active set_hangingup set_context set_sim_context set_vp8_context
       set_arc set_vrc set_pub ses_arc ses_vrc ses_pub ses_transcoder ses_transcoding].
  fold (closed session handle pl).
  destruct (closed_fields session handle pl) as (F1 & F2 & F3 & F4 & F5 & F6 & F7 & F8 & F9).
  assert (F10 : messages (closed session handle pl) = messages pl).
  { unfold closed.
    destruct (close_pub_fields (ses_pub session)
                (close_transcoder (ses_vrc session)
                   (close_transcoder (ses_arc session)
                      (emit (PushEvent handle None done_event None) pl)))) as (_ & _ & ->).
    destruct (close_transcoder_fields (ses_vrc session)
                (close_transcoder (ses_arc session)
                   (emit (PushEvent handle None done_event None) pl))) as (_ & _ & ->).
    destruct (close_transcoder_fields (ses_arc session)
                (emit (PushEvent handle None done_event None) pl)) as (_ & _ & ->).
    reflexivity. }
  revert F1 F2 F3 F4 F5 F6 F7 F8 F9 F10. generalize (closed session handle pl).
  intros P F1 F2 F3 F4 F5 F6 F7 F8 F9 F10 H.
  destruct (ses_transcoder session); destruct (ses_transcoding session) as [a|];
    try (destruct (recs P !! a) as [rec|] eqn:Hr; [|discriminate]);
    try destruct (env_fopen_ok env);
    cbn [negb set_rec recs set_files] in H;
    rewrite ?lookup_insert_eq, ?Hr in H;
    injection H as <-; apply Hset; cbn; try congruence;
    try (intros h Hh; rewrite F8; reflexivity).
Qed.

(** X20. Destroying a live session hangs it up first (the done event and the
    closing of what it holds) and then takes it out of the sessions table,
    marked destroyed; every other session stays; and from then on the handle
    is dead: a second destroy gives error -2, a message is answered with
    error 499, and a hangup for it is ignored. *)
Theorem destroy_session_ends_session env pl handle session :
  stopping pl = false -> initialized pl = true ->
  janus_transcode_lookup_session pl handle = Some session ->
  ses_destroyed session = false -> ses_hangingup session = false ->
  (forall a, ses_transcoding session = Some a -> is_Some (recs pl !! a)) ->
  exists pl' session',
    janus_transcode_destroy_session env pl handle = Done (pl', 0)
    /\ trace pl' = trace pl ++ [PushEvent handle None done_event None] ++ close_events session
    /\ janus_transcode_lookup_session pl' handle = None
    /\ plugin_handle pl' !! handle = Some session' /\ ses_destroyed session' = true
    /\ (forall h, h <> handle ->
          janus_transcode_lookup_session pl' h = janus_transcode_lookup_session pl h)
    /\ (forall env', janus_transcode_destroy_session env' pl' handle = Done (pl', -2))
    /\ (forall transaction message jsep,
          janus_transcode_handle_message pl' handle transaction message jsep
          = Done (pl', answered (failure_event 499
                                   "No session associated with this handle...")))
    /\ (forall env', janus_transcode_hangup_media env' pl' handle = Done pl').
Proof.
  intros Hs Hi Hl Hd Hh Hrec.
  destruct (hangup_once env pl handle session Hs Hi Hl Hd Hh Hrec)
    as (pl1 & s1 & E & T & L1 & (_ & _ & _ & _ & _ & D1 & _ & _) & S1 & I1 & _).
  destruct (hangup_frame env pl handle pl1 E) as (G1 & G2 & G3 & _ & _ & G6).
  unfold janus_transcode_destroy_session. rewrite Hs, Hi, Hl, E. cbn [orb negb].
  assert (Hp1 : plugin_handle pl1 !! handle = Some s1).
  { unfold janus_transcode_lookup_session in L1.
    destruct (bool_decide _); [exact L1|discriminate]. }
  rewrite Hp1. unfold janus_transcode_session_destroy. rewrite D1.
  set (Q := set_sessions _ _).
  assert (Hgone : janus_transcode_lookup_session Q handle = None).
  { unfold janus_transcode_lookup_session, Q. cbn [sessions set_sessions set_session].
    rewrite bool_decide_eq_false_2 by apply handle_out. reflexivity. }
  assert (Hq : plugin_handle Q !! handle = Some (set_destroyed true s1)).
  { unfold Q. cbn. apply lookup_insert_eq. }
  assert (Hrun : stopping Q = false /\ initialized Q = true).
  { unfold Q. cbn. auto. }
  destruct Hrun as [Hqs Hqi].
  exists Q, (set_destroyed true s1).
  split; [reflexivity|]. split; [unfold Q; cbn; exact T|].
  split; [exact Hgone|]. split; [exact Hq|]. split; [reflexivity|].
  split.
  { intros h Hh'. unfold janus_transcode_lookup_session, Q.
    cbn [sessions set_sessions set_session plugin_handle].
    rewrite lookup_insert_ne by congruence. rewrite G1, G6 by exact Hh'.
    rewrite other_out by exact Hh'. reflexivity. }
  split.
  { intros env'. rewrite Hqs, Hqi, Hgone. reflexivity. }
  split.
  { intros transaction message jsep. unfold janus_transcode_handle_message.
    rewrite Hqs, Hqi, Hgone. reflexivity. }
  intros env'. unfold janus_transcode_hangup_media, janus_transcode_hangup_media_internal.
  rewrite Hqs, Hqi, Hgone. reflexivity.
Qed.




(** X22. A [start] is refused unless a [play] has prepared frames for the
    session, with error 418, and then unless it brings the SDP answer, with
    error 415; a refused [start] pushes the error event and changes nothing
    else. *)
Theorem start_needs_play_and_answer env pl msg handle session root text :
  msg_handle msg = Some handle ->
  janus_transcode_lookup_session pl handle = Some session ->
  ses_destroyed session = false ->
  msg_message msg = Some root ->
  janus_validate_json_object root request_parameters
    JANUS_TRANSCODE_ERROR_MISSING_ELEMENT JANUS_TRANSCODE_ERROR_INVALID_ELEMENT = None ->
  json_string_value (json_object_get (Some root) "request") = Some text ->
  strcaseeq text "start" = true ->
  (ses_aframes session = [] /\ ses_vframes session = [] ->
   janus_transcode_handler env pl msg
   = Done (emit (PushEvent handle (msg_transaction msg)
                   (failure_event 418 "Not a playout session, can't start") None) pl))
  /\ (ses_aframes session <> [] \/ ses_vframes session <> [] ->
      json_string_value (json_object_get (msg_jsep msg) "sdp") = None ->
      janus_transcode_handler env pl msg
      = Done (emit (PushEvent handle (msg_transaction msg)
                      (failure_event 415 "Missing SDP answer") None) pl)).
Proof.
  intros Hh Hl Hd Hm Hv Hr Ht.
  unfold janus_transcode_handler. rewrite Hh, Hl, Hd, Hm, Hv, Hr.
  apply strcaseeq_as in Ht. unfold strcaseeq. rewrite Ht.
  change (bool_decide (lowercase "start" = lowercase "transcode")) with false.
  change (bool_decide (lowercase "start" = lowercase "play")) with false.
  change (bool_decide (lowercase "start" = lowercase "start")) with true. cbv iota.
  unfold handle_start. split.
  - intros [-> ->]. reflexivity.
  - intros Hf Hsdp. rewrite Hsdp.
    destruct (ses_aframes session), (ses_vframes session); try reflexivity.
    destruct Hf; contradiction.
Qed.

(** X23. A valid [configure] that carries video-bitrate-max sets the
    bitrate of the session to that value (as a 32-bit number), reports it in
    the settings of the answer and sends nothing by itself; the REMB
    messages of the session carry it from then on: past the ramp, the next
    one that is due advertises exactly the configured value. *)
Theorem configured_bitrate_is_advertised pl handle transaction root jsep session text v :
  stopping pl = false -> initialized pl = true ->
  janus_transcode_lookup_session pl handle = Some session ->
  ses_destroyed session = false ->
  json_is_object root = true ->
  janus_validate_json_object root request_parameters
    JANUS_TRANSCODE_ERROR_MISSING_ELEMENT JANUS_TRANSCODE_ERROR_INVALID_ELEMENT = None ->
  json_string_value (json_object_get (Some root) "request") = Some text ->
  strcaseeq text "configure" = true ->
  janus_validate_json_object root configure_parameters
    JANUS_TRANSCODE_ERROR_MISSING_ELEMENT JANUS_TRANSCODE_ERROR_INVALID_ELEMENT = None ->
  json_object_get (Some root) "video-bitrate-max" = Some v ->
  let bitrate := wrap32 (json_integer_value (Some v)) in
  exists pl' response session',
    janus_transcode_handle_message pl handle transaction (Some root) jsep
    = Done (pl', {| pr_type := JANUS_PLUGIN_OK; pr_text := None;
                    pr_content := Some response |})
    /\ trace pl' = trace pl
    /\ plugin_handle pl' !! handle = Some session'
    /\ ses_video_bitrate session' = bitrate
    /\ json_object_get (json_object_get (Some response) "settings") "video-bitrate-max"
       = Some (JInteger bitrate)
    /\ ses_video_remb_startup session' = ses_video_remb_startup session
    /\ (forall now,
          ses_video_remb_startup session = 0 ->
          rembs (feedback now handle session').2
          = (if 5000000 <=? now - ses_video_remb_last session then [bitrate] else [])).
Proof.
  intros Hs Hi Hl Hd Ho Hv Hr Ht Hc Hb bitrate.
  unfold janus_transcode_handle_message.
  rewrite Hs, Hi. cbn [orb negb]. rewrite Hl, Hd, Ho. cbn [negb]. rewrite Hv, Hr.
  apply strcaseeq_as in Ht. unfold strcaseeq. rewrite Ht.
  change (bool_decide (lowercase "configure" = lowercase "update")) with false.
  change (bool_decide (lowercase "configure" = lowercase "list")) with false.
  change (bool_decide (lowercase "configure" = lowercase "configure")) with true. cbv iota.
  rewrite Hc, Hb. fold bitrate.
  set (s1 := set_video_bitrate bitrate session).
  set (s2 := match json_object_get (Some root) "video-keyframe-interval" with
             | Some _ => _
             | None => s1
             end).
  assert (Hs2 : ses_video_bitrate s2 = bitrate
                /\ ses_video_remb_startup s2 = ses_video_remb_startup session
                /\ ses_video_remb_last s2 = ses_video_remb_last session).
  { unfold s2. destruct (json_object_get (Some root) "video-keyframe-interval");
      repeat split. }
  destruct Hs2 as (B2 & R2 & L2).
  eexists _, _, s2. split; [reflexivity|].
  split; [reflexivity|]. split; [apply set_session_lookup|]. split; [exact B2|].
  split; [rewrite B2; reflexivity|]. split; [exact R2|].
  intros now Hz.
  destruct (feedback_steady now handle s2) as (F & _); [rewrite R2; exact Hz|].
  rewrite F, B2, L2. reflexivity.
Qed.
































End WithCore.

End PluginFacts.

(** * The plugin on the sample core *)
Module PluginRuns.
Import Wire Json Frames Playout Core Plugin Lifecycle Stated Samples PluginFacts.

#[local] Existing Instance sample_core.

Lemma list_only_completed_witness :
  exists items,
    janus_transcode_handle_message viewer_created 2 None (Some list_request) None
    = Done (viewer_created,
            {| pr_type := JANUS_PLUGIN_OK; pr_text := None;
               pr_content := Some (JObject [("transcode"%string, JString "list");
                                            ("list"%string, JArray items)]) |})
    /\ length items = 1%nat.
Proof.
  edestruct (list_only_completed viewer_created 2 None list_request None)
    as (items & E & H1 & _);
    [reflexivity | reflexivity | reflexivity | reflexivity | reflexivity | reflexivity
    | reflexivity | reflexivity |].
  exists items. split; [exact E|].
  vm_compute in E. injection E as <-. reflexivity.
Defined.

Lemma configure_keyframe_interval_witness :
  exists pl' response session',
    janus_transcode_handle_message created 1 None (Some configure_request) None
    = Done (pl', {| pr_type := JANUS_PLUGIN_OK; pr_text := None; pr_content := Some response |})
    /\ plugin_handle pl' !! 1 = Some session'
    /\ ses_video_keyframe_interval session' = 1000.
Proof.
  destruct (configure_keyframe_interval sample_environment created 1 None configure_request
              None fresh_session "configure"
              eq_refl eq_refl eq_refl eq_refl eq_refl eq_refl eq_refl eq_refl) as [H _].
  destruct (H (JInteger 5000) eq_refl) as (pl' & response & session' & E & H1 & H2 & _).
  exists pl', response, session'. auto.
Defined.

Lemma remb_ramp_then_every_five_seconds_witness :
  feedback_rembs 1 fresh_session [10; 20; 30; 40; 50; 5000040; 5000041; 10000039; 10000040]
  = [[262144]; [349525]; [524288]; [1048576]; []; [1048576]; []; []; [1048576]].
Proof.
  destruct (remb_ramp_then_every_five_seconds sample_environment sample_plugin 1 fresh_session
              eq_refl) as (_ & H & _).
  rewrite (H 10 20 30 40 [50; 5000040; 5000041; 10000039; 10000040]). reflexivity.
Defined.

(** C9 as stated fails: a [configure] whose keyframe interval is negative
    is answered with error 414, without settings, and the interval of the
    session stays 15000. *)
Lemma configure_rejects_negative_interval :
  match janus_transcode_handle_message created 1 None (Some negative_interval_request) None with
  | Done (pl', r) =>
      (ses_video_keyframe_interval <$> plugin_handle pl' !! 1,
       json_object_get (pr_content r) "error_code",
       json_object_get (pr_content r) "settings")
  | _ => (None, None, None)
  end = (Some 15000, Some (JInteger 414), None).
Proof. vm_compute. reflexivity. Qed.


Lemma hangup_twice_witness :
  exists pl1 pl2,
    janus_transcode_hangup_media sample_environment capturing 1 = Done pl1
    /\ janus_transcode_hangup_media sample_environment pl1 1 = Done pl2
    /\ files pl2 = files pl1.
Proof.
  edestruct (hangup_twice sample_environment sample_environment capturing 1)
    as (pl1 & pl2 & E1 & E2 & _ & _ & F & _);
    [reflexivity | reflexivity | reflexivity | reflexivity | reflexivity | |].
  - intros a [= <-]. eexists. reflexivity.
  - exists pl1, pl2. auto.
Defined.

(** C5 as stated fails: after two hangups of a capturing session the client
    has been pushed two done events. *)
Lemma hangup_twice_two_done_events :
  match janus_transcode_hangup_media sample_environment capturing 1 with
  | Done pl1 =>
      match janus_transcode_hangup_media sample_environment pl1 1 with
      | Done pl2 => Some (done_events (trace pl1), done_events (trace pl2))
      | _ => None
      end
  | _ => None
  end = Some (1%nat, 2%nat).
Proof. vm_compute. reflexivity. Qed.

Lemma simulcast_output_ssrc_witness :
  exists pl' buf',
    janus_transcode_incoming_rtp sample_environment capturing (Some 1) 1 video_packet
    = Done (pl', buf')
    /\ header_ssrc buf' = header_ssrc video_packet
    /\ header_timestamp buf' = header_timestamp video_packet
    /\ header_seq_number buf' = header_seq_number video_packet.
Proof.
  edestruct (simulcast_output_ssrc sample_environment capturing 1 1 video_packet)
    as (pl' & buf' & session' & to_writer & to_sink
        & E & _ & _ & _ & _ & _ & _ & H1 & H2 & H3 & _);
    [reflexivity | reflexivity | reflexivity | reflexivity | reflexivity | reflexivity
    | reflexivity | reflexivity | discriminate | reflexivity | reflexivity | | | |].
  - repeat constructor; unfold is_byte; lia.
  - cbn. lia.
  - vm_compute. split; [discriminate | reflexivity].
  - exists pl', buf'. auto.
Defined.

(** C6 as stated fails: the writer is handed SSRC 305419896, the SSRC of the
    capture, and the sink SSRC 9, the one of the packet. *)
Lemma sink_sees_original_ssrc :
  match janus_transcode_incoming_rtp sample_environment capturing (Some 1) 1 video_packet with
  | Done (pl', _) =>
      (map (fun '(w, buf) => ntohl (header_ssrc buf)) (saved_frames (trace pl')),
       map (fun '(p, buf) => ntohl (header_ssrc buf)) (published_frames (trace pl')),
       ses_rec_vssrc <$> plugin_handle pl' !! 1)
  | _ => ([], [], None)
  end = ([305419896], [9], Some 305419896).
Proof. vm_compute. reflexivity. Qed.

Lemma transcode_entry_video_codec_witness :
  exists pl' rec,
    janus_transcode_handler sample_environment created (transcode_request "audio+video" true)
    = Done pl'
    /\ recs pl' !! 0%nat = Some rec
    /\ rec_vcodec rec = JANUS_VIDEOCODEC_H264.
Proof.
  edestruct (transcode_entry_video_codec sample_environment created
               (transcode_request "audio+video" true) 1)
    as (pl' & rec & E & _ & H1 & _ & _ & H2 & _);
    [reflexivity | reflexivity | reflexivity | reflexivity | reflexivity | reflexivity
    | reflexivity | reflexivity | reflexivity | reflexivity | reflexivity | reflexivity
    | reflexivity | reflexivity | reflexivity |].
  exists pl', rec. split; [exact E|]. split; [exact H1 | exact H2].
Defined.

(** C10 as stated fails: an offer whose video m-line is recvonly gives an
    entry without a video codec. *)
Lemma recvonly_video_gives_no_codec :
  match janus_transcode_handler sample_environment created
          (transcode_request "video-recvonly" false) with
  | Done pl' => (transcoding pl' !! 42, rec_vcodec <$> recs pl' !! 0%nat)
  | _ => (None, None)
  end = (Some 0%nat, Some JANUS_VIDEOCODEC_NONE).
Proof. vm_compute. reflexivity. Qed.


Lemma asynchronous_requests_are_queued_witness :
  exists pl',
    janus_transcode_handle_message created 1 (Some "t3"%string)
      (msg_message stop_request) None
    = Done (pl', {| pr_type := JANUS_PLUGIN_OK_WAIT; pr_text := None; pr_content := None |})
    /\ messages pl' = [stop_request].
Proof.
  eexists. split.
  - apply (asynchronous_requests_are_queued created 1 (Some "t3"%string)
             (JObject [("request"%string, JString "Stop")]) None fresh_session "Stop");
      reflexivity.
  - reflexivity.
Defined.

Lemma incoming_rtp_frame_witness :
  match janus_transcode_incoming_rtp sample_environment capturing (Some 1) 1 video_packet with
  | Done (pl', buf') =>
      recs pl' = recs capturing /\ files pl' = files capturing
      /\ length buf' = length video_packet
  | _ => False
  end.
Proof.
  destruct (janus_transcode_incoming_rtp sample_environment capturing (Some 1) 1 video_packet)
    as [[pl' buf']| |] eqn:E; [|vm_compute in E; discriminate E..].
  destruct (incoming_rtp_frame sample_environment capturing (Some 1) 1 video_packet pl' buf' E)
    as (_ & H2 & _ & H4 & _ & _ & H7 & _).
  split; [exact H2|]. split; [exact H4 | exact H7].
Defined.

Lemma plain_packet_is_saved_as_it_came_witness :
  exists pl',
    janus_transcode_incoming_rtp sample_environment capturing_plain (Some 1) 0 audio_packet
    = Done (pl', audio_packet)
    /\ trace pl'
       = trace capturing_plain
         ++ [TranscoderSaveFrame (Some 1%nat) audio_packet;
             PubSaveFrame (Some 3%nat) audio_packet false 1].
Proof.
  edestruct (plain_packet_is_saved_as_it_came sample_environment capturing_plain 1 0
               audio_packet)
    as (pl' & rtcp & E & T & _ & N);
    [reflexivity | reflexivity | reflexivity | reflexivity | reflexivity | reflexivity
    | reflexivity | left; reflexivity |].
  exists pl'. split; [exact E|]. rewrite T, (N eq_refl). reflexivity.
Defined.

Lemma unselected_simulcast_packet_is_dropped_witness :
  exists pl',
    janus_transcode_incoming_rtp (core := dropping_core) sample_environment
      capturing_unselected (Some 1) 1 video_packet
    = Done (pl', video_packet)
    /\ trace pl' = trace capturing_unselected ++ [RelayRtcp 1 1 Pli]
    /\ saved_frames (trace pl') = saved_frames (trace capturing_unselected).
Proof.
  edestruct (unselected_simulcast_packet_is_dropped (core := dropping_core)
               sample_environment capturing_unselected 1 1 video_packet)
    as (pl' & session' & E & T & S & _);
    [reflexivity | reflexivity | reflexivity | reflexivity | reflexivity | reflexivity
    | reflexivity | reflexivity | discriminate | reflexivity | reflexivity |].
  exists pl'. split; [exact E|]. split; [exact T | exact S].
Defined.

Lemma stop_only_asks_to_close_witness :
  exists pl',
    janus_transcode_handler sample_environment capturing stop_request = Done pl'
    /\ trace pl'
       = trace capturing
         ++ [ClosePc 1; PushEvent 1 (Some "t3"%string) (stopped_event (Some 42)) None]
    /\ recs pl' = recs capturing /\ files pl' = files capturing.
Proof.
  edestruct (stop_only_asks_to_close sample_environment capturing stop_request 1)
    as (pl' & notified & E & T & N & _ & _ & R & _ & F);
    [reflexivity | reflexivity | reflexivity | reflexivity | reflexivity | reflexivity
    | reflexivity | |].
  - intros a [= <-]. eexists. reflexivity.
  - exists pl'. split; [exact E|]. split; [|split; [exact R | exact F]].
    vm_compute in E. injection E as <-. reflexivity.
Defined.

Lemma transcode_rejects_taken_id_witness :
  janus_transcode_handler sample_environment capturing (transcode_request "audio+video" true)
  = Done (emit (PushEvent 1 (Some "t1"%string)
                  (failure_event 420
                     (snprintf 512 ("Transcoding " +:+ u64_text 42 +:+ " already exists")))
                  None) capturing).
Proof.
  eapply (transcode_rejects_taken_id sample_environment capturing
           (transcode_request "audio+video" true) 1 _
           (JObject [("request"%string, JString "transcode");
                     ("name"%string, JString "demo");
                     ("id"%string, JInteger 42)])
           "transcode" "offer" "audio+video"
           (mk_sample_sdp (Some ("opus"%string, JANUS_SDP_SENDRECV))
              (Some ("vp8"%string, JANUS_SDP_SENDRECV))));
    try reflexivity.
  eexists. reflexivity.
Defined.

Lemma play_of_unfinished_capture_fails_witness :
  exists pl',
    janus_transcode_handler sample_environment watching_early play_request = Done pl'
    /\ trace pl'
       = trace watching_early
         ++ [PushEvent 2 (Some "t2"%string) (failure_event 416 "No such transcoding") None]
    /\ recs pl' = recs watching_early.
Proof.
  edestruct (play_of_unfinished_capture_fails sample_environment watching_early
               play_request 2)
    as (pl' & E & T & R & _);
    [reflexivity | reflexivity | reflexivity | reflexivity | reflexivity | reflexivity
    | reflexivity | reflexivity | reflexivity | reflexivity | reflexivity | |].
  - vm_compute. left. reflexivity.
  - exists pl'. auto.
Defined.

Lemma hangup_completes_the_capture_witness :
  exists pl' rec',
    janus_transcode_hangup_media sample_environment capturing 1 = Done pl'
    /\ recs pl' !! 0%nat = Some rec'
    /\ rec_completed rec' = true /\ is_Some (rec_offer rec').
Proof.
  edestruct (hangup_completes_the_capture sample_environment capturing 1)
    as (pl' & rec' & E & _ & _ & R & _ & _ & H);
    [reflexivity | reflexivity | reflexivity | reflexivity | reflexivity | reflexivity
    | reflexivity | reflexivity |].
  change (env_fopen_ok sample_environment) with true in H. cbv iota in H.
  destruct H as (C & O & _).
  exists pl', rec'. auto.
Defined.

Lemma destroy_session_ends_session_witness :
  exists pl',
    janus_transcode_destroy_session sample_environment capturing 1 = Done (pl', 0)
    /\ janus_transcode_lookup_session pl' 1 = None
    /\ janus_transcode_destroy_session sample_environment pl' 1 = Done (pl', -2).
Proof.
  edestruct (destroy_session_ends_session sample_environment capturing 1)
    as (pl' & session' & E & _ & L & _ & _ & _ & D & _);
    [reflexivity | reflexivity | reflexivity | reflexivity | reflexivity | |].
  - intros a [= <-]. eexists. reflexivity.
  - exists pl'. auto.
Defined.


Lemma start_needs_play_and_answer_witness :
  janus_transcode_handler sample_environment created start_request
  = Done (emit (PushEvent 1 (Some "t4"%string)
                  (failure_event 418 "Not a playout session, can't start") None) created).
Proof.
  edestruct (start_needs_play_and_answer sample_environment created start_request 1)
    as [H _];
    [reflexivity | reflexivity | reflexivity | reflexivity | reflexivity | reflexivity
    | reflexivity |].
  apply H. split; reflexivity.
Defined.

Lemma configured_bitrate_is_advertised_witness :
  exists pl' response session',
    janus_transcode_handle_message created 1 None (Some bitrate_request) None
    = Done (pl', {| pr_type := JANUS_PLUGIN_OK; pr_text := None;
                    pr_content := Some response |})
    /\ plugin_handle pl' !! 1 = Some session'
    /\ ses_video_bitrate session' = 500000.
Proof.
  edestruct (configured_bitrate_is_advertised created 1 None bitrate_request None)
    as (pl' & response & session' & E & _ & L & B & _);
    [reflexivity | reflexivity | reflexivity | reflexivity | reflexivity | reflexivity
    | reflexivity | reflexivity | reflexivity | reflexivity |].
  exists pl', response, session'. split; [exact E|]. split; [exact L | exact B].
Defined.


End PluginRuns.
